(** * The OAuth provider (orchestrator) of the authorization server

    A shallow embedding of the [OAuthProvider] class: the session
    freshness test, client authentication, request-object decoding, the
    pushed-authorization, authorize, token, introspection and revocation
    operations, and the JSON endpoint wrappers of [buildRouter].

    The managers (client, request, token, account, replay) and the HTTP
    helpers are collaborators of the class and live in other modules; they
    are taken as a record of operations over an abstract world [W] (the
    state of the stores and of the clock).  Asynchronous code is modelled
    in a state-and-exception monad: an [await] is a bind, a rejected
    promise and a [throw] are the same [Throw]. *)

From Stdlib Require Import String Ascii List ZArith QArith Qpower Qround Bool Lia.
From Stdlib Require SpecFloat.
Import ListNotations.
Open Scope string_scope.
Open Scope Z_scope.

Set Warnings "-register-all".

(** ** JavaScript numbers

    Numbers are IEEE 754 doubles.  The model keeps the three special
    values and holds a finite value as the rational it denotes; the two
    operations that [loginRequired] uses, [-] and [/], round their exact
    result to the nearest double, ties to even, as the language does.  The
    two zeros are one value: they compare equal and the provider divides
    by no zero. *)

Inductive number : Type :=
| NaN
| PInf
| NInf
| Fin (q : Q).

Definition Number_isFinite (x : number) : bool :=
  match x with Fin _ => true | _ => false end.

Definition Qsign (a : Q) : comparison := (a ?= 0)%Q.

(** [2 ^ e], for an exponent of either sign. *)
Definition pow2 (e : Z) : Q := Qpower 2 e.

(** The integer nearest to [y]; the even one of the two when [y] is half
    way. *)
Definition round_half_even (y : Q) : Z :=
  let f := Qfloor y in
  match (y - inject_Z f ?= 1 # 2)%Q with
  | Lt => f
  | Gt => f + 1
  | Eq => if Z.even f then f else f + 1
  end.

(** The integer part of the binary logarithm of a positive rational. *)
Definition floor_log2 (a : Q) : Z :=
  let l := Z.log2 (Qnum a) - Z.log2 (Zpos (Qden a)) in
  if Qle_bool (pow2 l) a then l else l - 1.

(** The double nearest to a positive rational [a]: a significand of 53
    bits at the exponent of [a], or at the least exponent, [-1074], where
    the values are subnormal; what rounds to [2 ^ 1024] or more is
    [Infinity]. *)
Definition double_of_positive (a : Q) : number :=
  let e := Z.max (floor_log2 a - 52) (-1074) in
  let v := Qred (inject_Z (round_half_even (a / pow2 e)) * pow2 e) in
  if Qle_bool (pow2 1024) v then PInf else Fin v.

(** [- x]. *)
Definition nneg (x : number) : number :=
  match x with
  | NaN => NaN
  | PInf => NInf
  | NInf => PInf
  | Fin q => Fin (- q)
  end.

(** The double nearest to a rational. *)
Definition double_of (q : Q) : number :=
  match Qsign q with
  | Eq => Fin 0
  | Gt => double_of_positive q
  | Lt => nneg (double_of_positive (- q))
  end.

(** [x - y]. *)
Definition nsub (x y : number) : number :=
  match x, y with
  | NaN, _ | _, NaN => NaN
  | PInf, PInf | NInf, NInf => NaN
  | PInf, _ | _, NInf => PInf
  | NInf, _ | _, PInf => NInf
  | Fin a, Fin b => double_of (a - b)
  end.

(** [x / y]; zero is the positive zero. *)
Definition ndiv (x y : number) : number :=
  match x, y with
  | NaN, _ | _, NaN => NaN
  | (PInf | NInf), (PInf | NInf) => NaN
  | PInf, Fin b => match Qsign b with Lt => NInf | _ => PInf end
  | NInf, Fin b => match Qsign b with Lt => PInf | _ => NInf end
  | Fin _, (PInf | NInf) => Fin 0
  | Fin a, Fin b =>
      match Qsign b with
      | Eq => match Qsign a with Eq => NaN | Gt => PInf | Lt => NInf end
      | _ => double_of (a / b)
      end
  end.

(** The order on numbers; [None] when an operand is [NaN], in which case
    every comparison of JavaScript is false. *)
Definition ncompare (x y : number) : option comparison :=
  match x, y with
  | NaN, _ | _, NaN => None
  | PInf, PInf | NInf, NInf => Some Eq
  | PInf, _ | _, NInf => Some Gt
  | NInf, _ | _, PInf => Some Lt
  | Fin a, Fin b => Some (a ?= b)%Q
  end.

(** [x < y]. *)
Definition nlt (x y : number) : bool :=
  match ncompare x y with Some Lt => true | _ => false end.

(** [x >= y]. *)
Definition nge (x y : number) : bool :=
  match ncompare x y with Some Gt | Some Eq => true | _ => false end.

(** A time value as a number: an integer of at most [8.64e15] in absolute
    value, which a double holds exactly. *)
Definition number_of_Z (z : Z) : number := Fin (inject_Z z).

(** The value of a float of the library's specification of IEEE 754
    ([SpecFloat]), against which the rounding above is checked on
    examples. *)
Definition number_of_spec_float (x : SpecFloat.spec_float) : number :=
  match x with
  | SpecFloat.S754_zero _ => Fin 0
  | SpecFloat.S754_infinity s => if s then NInf else PInf
  | SpecFloat.S754_nan => NaN
  | SpecFloat.S754_finite s m e =>
      (if s then nneg else fun x => x)
        (Fin (Qred (inject_Z (Zpos m) * pow2 e)))
  end.

(** The binary64 float of an integer, in that specification. *)
Definition binary64_of_Z (z : Z) : SpecFloat.spec_float :=
  SpecFloat.binary_normalize 53 1024 z 0 false.

(** A [Date] holds a time value in milliseconds, or is invalid, in which
    case [getTime()] is [NaN]. *)
Inductive Date : Type :=
| InvalidDate
| DateOf (ms : Z).

Definition getTime (d : Date) : number :=
  match d with
  | InvalidDate => NaN
  | DateOf ms => number_of_Z ms
  end.

(** ** JavaScript truthiness of the values the provider tests *)

(** The double-quote character, as a string. *)
Definition dquote : string := String "034"%char EmptyString.

(** [!!s] for a string. *)
Definition truthy_string (s : string) : bool :=
  negb (String.eqb s EmptyString).

(** [!!s] for an optional string ([undefined] and the empty string are
    falsy). *)
Definition truthy (s : option string) : bool :=
  match s with
  | Some s => truthy_string s
  | None => false
  end.

(** [s === h] for a string [s] and a possibly undefined [h]. *)
Definition strict_eq_opt (s : string) (h : option string) : bool :=
  match h with
  | Some h => String.eqb s h
  | None => false
  end.

(** [a || b] on optional strings (the first truthy one, else [b]). *)
Definition or_else (a : option string) (b : string) : string :=
  match a with
  | Some s => if truthy_string s then s else b
  | None => b
  end.

(** ** Data model *)

Inductive Prompt : Type :=
| prompt_none
| prompt_login
| prompt_consent
| prompt_select_account.

Definition Prompt_eqb (a b : Prompt) : bool :=
  match a, b with
  | prompt_none, prompt_none
  | prompt_login, prompt_login
  | prompt_consent, prompt_consent
  | prompt_select_account, prompt_select_account => true
  | _, _ => false
  end.

(** [parameters.prompt === p]. *)
Definition prompt_is (o : option Prompt) (p : Prompt) : bool :=
  match o with
  | Some q => Prompt_eqb q p
  | None => false
  end.

(** [OAuthAuthorizationRequestParameters], with the fields the provider
    reads. *)
Record Parameters : Type := {
  client_id : string;
  redirect_uri : option string;
  scope : option string;
  state : option string;
  code_challenge : option string;
  login_hint : option string;
  prompt : option Prompt;
  dpop_jkt : option string
}.

Inductive ApplicationType : Type :=
| web
| native.

(** [application_type === 'native']. *)
Definition is_native (a : ApplicationType) : bool :=
  match a with
  | native => true
  | web => false
  end.

Record ClientMetadata : Type := {
  application_type : ApplicationType;
  grant_types : list string
}.

Record ClientInfo : Type := {
  isFirstParty : bool
}.

Record Client : Type := {
  id : string;
  metadata : ClientMetadata;
  info : ClientInfo
}.

(** [ClientAuth]: the method, and the key data of a signed assertion. *)
Record ClientAuth : Type := {
  method : string;
  kid : option string;
  alg : option string;
  jkt : option string
}.

Definition CLIENT_ASSERTION_TYPE_JWT_BEARER : string :=
  "urn:ietf:params:oauth:client-assertion-type:jwt-bearer".

Definition clientAuth_none : ClientAuth :=
  {| method := "none"; kid := None; alg := None; jkt := None |}.

(** [OAuthClientCredentials]. *)
Record Credentials : Type := {
  cred_client_id : string;
  client_assertion_type : option string;
  client_assertion : option string
}.

Record Account : Type := {
  sub : string;
  preferred_username : option string;
  aud : string
}.

Record DeviceAccountInfo : Type := {
  authenticatedAt : Date;
  authorizedClients : list string
}.

Definition DeviceId : Type := string.
Definition RequestUri : Type := string.
Definition Code : Type := string.

(** [RequestMetadata] of a user agent. *)
Record RequestMetadata : Type := {
  ipAddress : string;
  userAgent : option string
}.

Record RequestInfo : Type := {
  uri : RequestUri;
  expiresAt : Date;
  ri_parameters : Parameters;
  clientId : string;
  ri_clientAuth : ClientAuth
}.

(** What [getSessions] yields for each account bound to the device. *)
Record Session : Type := {
  account : Account;
  s_info : DeviceAccountInfo;
  selected : bool;
  s_loginRequired : bool;
  consentRequired : bool;
  matchesHint : bool
}.

(** The token request, a union discriminated by [grant_type]. *)
Inductive OtherGrantType : Type :=
| grant_password
| grant_client_credentials.

Record OAuthAuthorizationCodeGrantTokenRequest : Type := {
  code : string;
  tr_redirect_uri : option string;
  code_verifier : option string
}.

Record OAuthRefreshTokenGrantTokenRequest : Type := {
  refresh_token : string
}.

Inductive OAuthTokenRequest : Type :=
| AuthorizationCodeRequest (input : OAuthAuthorizationCodeGrantTokenRequest)
| RefreshTokenRequest (input : OAuthRefreshTokenGrantTokenRequest)
| OtherRequest (g : OtherGrantType).

Definition grant_type (r : OAuthTokenRequest) : string :=
  match r with
  | AuthorizationCodeRequest _ => "authorization_code"
  | RefreshTokenRequest _ => "refresh_token"
  | OtherRequest grant_password => "password"
  | OtherRequest grant_client_credentials => "client_credentials"
  end.

Record OAuthTokenResponse : Type := {
  access_token : string;
  token_type : string;
  tr_scope : option string;
  tr_refresh_token : option string;
  expires_in : Z
}.

Record OAuthTokenIdentification : Type := {
  presented_token : string;
  token_type_hint : option string
}.

Record TokenData : Type := {
  td_parameters : Parameters;
  td_clientId : string;
  details : option string;
  td_expiresAt : Date;
  updatedAt : Date
}.

Record TokenInfo : Type := {
  ti_id : string;
  data : TokenData;
  ti_account : Account
}.

Record ActiveToken : Type := {
  it_scope : option string;
  it_client_id : string;
  username : option string;
  it_token_type : string;
  authorization_details : option string;
  it_aud : string;
  exp : Z;
  iat : Z;
  iss : string;
  it_jti : string;
  it_sub : string
}.

(** [OAuthIntrospectionResponse]: [{active: false}], with no other
    member, or [{active: true, ...}]. *)
Inductive OAuthIntrospectionResponse : Type :=
| inactive
| active (t : ActiveToken).

Record OAuthParResponse : Type := {
  request_uri : RequestUri;
  par_expires_in : Z
}.

(** What [client.decodeRequestObject] yields: the claims of the request
    object, with the protected header and the key when it was signed. *)
Record JarPayload : Type := {
  jti : option string;
  claims : string
}.

Record ProtectedHeader : Type := {
  ph_kid : option string;
  ph_alg : string
}.

Inductive RequestObject : Type :=
| SignedRequestObject (payload : JarPayload) (protectedHeader : ProtectedHeader)
    (key : string)
| UnsignedRequestObject (payload : JarPayload).

Definition ro_payload (r : RequestObject) : JarPayload :=
  match r with
  | SignedRequestObject p _ _ => p
  | UnsignedRequestObject p => p
  end.

(** What [decodeJAR] returns. *)
Record DecodedJAR : Type := {
  jar_payload : Parameters;
  jar_protectedHeader : option ProtectedHeader;
  jar_jkt : option string
}.

(** [OAuthAuthorizationRequestPar]: plain parameters or a request object
    (JAR). *)
Inductive OAuthAuthorizationRequestPar : Type :=
| ParParameters (p : Parameters)
| ParJar (request : string).

(** [OAuthAuthorizationRequestQuery]: plain parameters, a request object,
    or a reference to a pushed request. *)
Inductive OAuthAuthorizationRequestQuery : Type :=
| QueryParameters (p : Parameters)
| QueryJar (request : string)
| QueryUri (request_uri : string).

(** ** Thrown values *)

(** The error classes of the provider that the orchestrator throws or
    tests for. *)
Inductive OAuthErrorClass : Type :=
| AccessDeniedError
| AccountSelectionRequiredError
| ConsentRequiredError
| LoginRequiredError
| InvalidParametersError
| InvalidClientError
| InvalidGrantError
| InvalidRequestError
| UnauthorizedClientError.

Record ZodIssue : Type := {
  path : list string;
  message : string
}.

(** A thrown value: a string (used as a cause), a plain [Error], an error
    of [http-errors], a [ZodError], a [WWWAuthenticateError], or an OAuth
    error with its class, its [error] code, its description ([None] is
    the default description of the class), the authorization parameters
    it carries and its cause. *)
Inductive Exn : Type :=
| StringValue (s : string)
| JsError (msg : string)
| HttpError (status : Z) (msg : string)
| ZodError (issues : list ZodIssue)
| WWWAuthenticateError (error : string) (error_description : option string)
    (wwwAuthenticateHeader : string)
| OAuthError (cls : OAuthErrorClass) (error : string)
    (error_description : option string) (parameters : option Parameters)
    (cause : option Exn).

(** [err.error], for the errors that have one. *)
Definition exn_error (e : Exn) : option string :=
  match e with
  | OAuthError _ c _ _ _ => Some c
  | WWWAuthenticateError c _ _ => Some c
  | _ => None
  end.

(** [err.error_description]. *)
Definition exn_error_description (e : Exn) : option string :=
  match e with
  | OAuthError _ _ d _ _ => d
  | WWWAuthenticateError _ d _ => d
  | _ => None
  end.

Definition exn_class (e : Exn) : option OAuthErrorClass :=
  match e with
  | OAuthError c _ _ _ _ => Some c
  | _ => None
  end.

(** Modelled from the spec: the error classes are declared in [errors/],
    which is not among the sources.  The taxonomy of section 7 gives one
    [error] code per class, named after it; [InvalidParametersError] is
    built from authorization parameters like the user-interaction errors
    and is reported as [invalid_request] (section 8, property 5 and
    scenario S6). *)
Definition class_error (c : OAuthErrorClass) : string :=
  match c with
  | AccessDeniedError => "access_denied"
  | AccountSelectionRequiredError => "account_selection_required"
  | ConsentRequiredError => "consent_required"
  | LoginRequiredError => "login_required"
  | InvalidParametersError => "invalid_request"
  | InvalidClientError => "invalid_client"
  | InvalidGrantError => "invalid_grant"
  | InvalidRequestError => "invalid_request"
  | UnauthorizedClientError => "unauthorized_client"
  end.

(** Modelled from the spec: the class hierarchy of [errors/].  The
    user-interaction errors (section 7: [access_denied] et al.) are
    [AccessDeniedError] and the classes built from the authorization
    parameters. *)
Definition extends_AccessDeniedError (c : OAuthErrorClass) : bool :=
  match c with
  | AccessDeniedError
  | AccountSelectionRequiredError
  | ConsentRequiredError
  | LoginRequiredError
  | InvalidParametersError => true
  | _ => false
  end.

(** [err instanceof AccessDeniedError]. *)
Definition instanceof_AccessDeniedError (e : Exn) : bool :=
  match e with
  | OAuthError c _ _ _ _ => extends_AccessDeniedError c
  | _ => false
  end.

(** [new C(error_description, cause)] for the classes without parameters. *)
Definition new_error (c : OAuthErrorClass) (description : string)
    (cause : option Exn) : Exn :=
  OAuthError c (class_error c) (Some description) None cause.

(** [new C(parameters, error_description?)] for the classes built from
    the authorization parameters. *)
Definition new_parameters_error (c : OAuthErrorClass) (p : Parameters)
    (description : option string) : Exn :=
  OAuthError c (class_error c) description (Some p) None.

(** Modelled from the spec: [AccessDeniedError.from(parameters, cause,
    fallbackError?)] of [errors/access-denied-error.js], which is not among
    the sources.  Section 7 has any error wrapped into an access-denied
    error that carries the parameters (for the redirect), and scenario S4
    has a [login_required] raised inside [authorize] reach the client under
    its own code: an error that already is an access-denied error is kept,
    any other becomes the cause of a new [AccessDeniedError]. *)
Definition AccessDeniedError_from (p : Parameters) (cause : Exn)
    (fallbackError : option string) : Exn :=
  if instanceof_AccessDeniedError cause then cause
  else
    OAuthError AccessDeniedError
      (match fallbackError with
       | Some c => c
       | None => class_error AccessDeniedError
       end)
      None (Some p) (Some cause).

(** ** Results of the authorization endpoint *)

Inductive Redirect : Type :=
| RedirectCode (code : Code)
| RedirectError (error : string) (error_description : option string).

Record AuthorizationResultRedirect : Type := {
  rr_issuer : string;
  rr_client : option Client;
  rr_parameters : Parameters;
  redirect : Redirect
}.

Record ScopeDetail : Type := {
  sd_scope : string;
  sd_description : option string
}.

Record AuthorizationResultAuthorize : Type := {
  ra_issuer : string;
  ra_client : Client;
  ra_parameters : Parameters;
  ra_uri : RequestUri;
  sessions : list Session;
  scopeDetails : option (list ScopeDetail)
}.

Inductive AuthorizationResult : Type :=
| ResultRedirect (r : AuthorizationResultRedirect)
| ResultAuthorize (a : AuthorizationResultAuthorize).

(** ** HTTP messages *)

Record IncomingMessage : Type := {
  req_method : string;
  req_url : string;
  req_headers : list (string * string);
  req_body : string
}.

Record ErrorPayload : Type := {
  ep_error : string;
  ep_error_description : option string
}.

(** The JSON documents that the endpoints write. *)
Inductive Json : Type :=
| json_object_empty
| json_par (r : OAuthParResponse)
| json_token (r : OAuthTokenResponse)
| json_introspection (r : OAuthIntrospectionResponse)
| json_error (p : ErrorPayload).

Record ServerResponse : Type := {
  headers : list (string * string);
  headersSent : bool;
  statusCode : option Z;
  body : option Json;
  destroyed : bool
}.

Definition fresh_response : ServerResponse :=
  {| headers := []; headersSent := false; statusCode := None; body := None;
     destroyed := false |}.

(** [res.setHeader(name, value)]: replaces the header. *)
Definition setHeader (name value : string) (res : ServerResponse)
    : ServerResponse :=
  {| headers :=
       filter (fun h => negb (String.eqb (fst h) name)) (headers res)
       ++ [(name, value)];
     headersSent := headersSent res; statusCode := statusCode res;
     body := body res; destroyed := destroyed res |}.

(** [res.appendHeader(name, value)]: adds a value to the header. *)
Definition appendHeader (name value : string) (res : ServerResponse)
    : ServerResponse :=
  {| headers := headers res ++ [(name, value)];
     headersSent := headersSent res; statusCode := statusCode res;
     body := body res; destroyed := destroyed res |}.

(** Modelled from the spec: [writeJson(res, payload, {status})] of
    [lib/http], which is not among the sources; the endpoints of section 6
    answer a JSON body under a status, and the response is then sent. *)
Definition writeJson (payload : Json) (status : Z) (res : ServerResponse)
    : ServerResponse :=
  {| headers := headers res; headersSent := true; statusCode := Some status;
     body := Some payload; destroyed := destroyed res |}.

(** [res.destroy()]. *)
Definition destroy (res : ServerResponse) : ServerResponse :=
  {| headers := headers res; headersSent := headersSent res;
     statusCode := statusCode res; body := body res; destroyed := true |}.

(** ** The monad of the provider *)

Inductive Outcome (A : Type) : Type :=
| Return (a : A)
| Throw (e : Exn).

Arguments Return {A} a.
Arguments Throw {A} e.

(** The calls that the provider makes to its collaborators, in the order
    it makes them. *)
Inductive Call : Type :=
| call_getClient (client_id : string)
| call_verifyCredentials (c : Client) (credentials : Credentials)
    (audience : string)
| call_decodeRequestObject (c : Client) (request : string)
| call_authJwkThumbprint (key : string)
| call_uniqueAuth (nonce clientId : string)
| call_uniqueJar (jti clientId : string)
| call_uniqueCodeChallenge (codeChallenge : string)
| call_createAuthorizationRequest (c : Client) (a : ClientAuth)
    (p : Parameters) (deviceId : option DeviceId) (dpopJkt : option string)
| call_requestManager_get (uri : RequestUri) (deviceId : DeviceId)
    (clientId : option string)
| call_setAuthorized (uri : RequestUri) (c : Client) (a : Account)
    (deviceId : DeviceId) (deviceMetadata : RequestMetadata)
| call_findCode (c : Client) (a : ClientAuth) (code : Code)
| call_requestManager_delete (uri : RequestUri)
| call_accountManager_list (deviceId : DeviceId)
| call_accountManager_get (deviceId : DeviceId) (sub : string)
| call_addAuthorizedClient (deviceId : DeviceId) (a : Account) (c : Client)
    (auth : ClientAuth)
| call_tokenManager_create (c : Client) (a : ClientAuth) (acc : Account)
    (deviceId : DeviceId) (p : Parameters)
    (input : OAuthAuthorizationCodeGrantTokenRequest)
    (dpopJkt : option string)
| call_tokenManager_refresh (c : Client) (a : ClientAuth)
    (input : OAuthRefreshTokenGrantTokenRequest) (dpopJkt : option string)
| call_tokenManager_revoke (tokenOrCode : string)
| call_clientTokenInfo (c : Client) (a : ClientAuth) (token : string)
| call_setTimeout (ms : Z)
| call_onError (err : Exn) (msg : string)
| call_parseHttpRequest (req : IncomingMessage)
| call_getRequestMetadata (req : IncomingMessage)
| call_checkDpopProof (proof : option string) (htm htu : string)
| call_nextDpopNonce.

(** The state a run goes through: the world of the collaborators, the
    calls made so far and the HTTP response being written. *)
Record Run (W : Type) : Type := {
  world : W;
  calls : list Call;
  res : ServerResponse
}.

Arguments world {W} r.
Arguments calls {W} r.
Arguments res {W} r.

Definition M (W A : Type) : Type := Run W -> Outcome A * Run W.

(** An operation of a collaborator. *)
Definition Eff (W A : Type) : Type := W -> Outcome A * W.

Definition ret {W A : Type} (a : A) : M W A :=
  fun r => (Return a, r).

Definition throw {W A : Type} (e : Exn) : M W A :=
  fun r => (Throw e, r).

Definition bind {W A B : Type} (m : M W A) (k : A -> M W B) : M W B :=
  fun r =>
    match m r with
    | (Return a, r') => k a r'
    | (Throw e, r') => (Throw e, r')
    end.

(** [try { m } catch (err) { h err }]. *)
Definition try_catch {W A : Type} (m : M W A) (h : Exn -> M W A) : M W A :=
  fun r =>
    match m r with
    | (Return a, r') => (Return a, r')
    | (Throw e, r') => h e r'
    end.

(** [promise.catch(catcher)] where the catcher may be [null]. *)
Definition catch_with {W A : Type} (m : M W A) (catcher : option (Exn -> M W A))
    : M W A :=
  match catcher with
  | Some h => try_catch m h
  | None => m
  end.

(** A value or an exception computed without effect. *)
Definition lift_outcome {W A : Type} (o : Outcome A) : M W A :=
  fun r => (o, r).

(** The run after a call [c] that left the world [w']. *)
Definition step {W : Type} (r : Run W) (c : Call) (w' : W) : Run W :=
  {| world := w'; calls := calls r ++ [c]; res := res r |}.

(** A call to a collaborator: it is recorded, then run on the world. *)
Definition invoke {W A : Type} (c : Call) (op : Eff W A) : M W A :=
  fun r => let (o, w') := op (world r) in (o, step r c w').

(** A call that returns nothing and cannot fail. *)
Definition invoke_void {W : Type} (c : Call) (op : W -> W) : M W unit :=
  fun r => (Return tt, step r c (op (world r))).

Definition read_world {W A : Type} (f : W -> A) : M W A :=
  fun r => (Return (f (world r)), r).

Definition read_res {W A : Type} (f : ServerResponse -> A) : M W A :=
  fun r => (Return (f (res r)), r).

Definition update_res {W : Type} (f : ServerResponse -> ServerResponse)
    : M W unit :=
  fun r =>
    (Return tt, {| world := world r; calls := calls r; res := f (res r) |}).

Declare Scope provider_scope.
Delimit Scope provider_scope with provider.

Notation "x <- m ;; k" := (bind m (fun x => k))
  (at level 61, m at next level, right associativity) : provider_scope.
Notation "m ;;; k" := (bind m (fun _ => k))
  (at level 61, right associativity) : provider_scope.

Open Scope provider_scope.

(** ** The provider and its collaborators

    [OAuthProvider W] is [this]: the configuration of the provider and
    the operations of the managers, of the schemas and of the HTTP helpers
    that the class calls.  A schema either yields a value or throws (a
    [ZodError]). *)

Record OAuthProvider (W : Type) : Type := {
  (* configuration *)
  issuer : string;
  signer_issuer : string;
  authenticationMaxAge : number;
  grant_types_supported : option (list string);
  onError : option (Exn -> string -> W -> W);
  (* clock *)
  Date_now : W -> Z;
  setTimeout : Z -> W -> W;
  (* clientManager, client *)
  getClient : string -> Eff W Client;
  verifyCredentials :
    Client -> Credentials -> string -> Eff W (ClientAuth * option string);
  decodeRequestObject : Client -> string -> Eff W RequestObject;
  authJwkThumbprint : string -> Eff W string;
  (* replayManager *)
  uniqueAuth : string -> string -> Eff W bool;
  uniqueJar : string -> string -> Eff W bool;
  uniqueCodeChallenge : string -> Eff W bool;
  (* requestManager *)
  createAuthorizationRequest :
    Client -> ClientAuth -> Parameters -> option DeviceId -> option string ->
    Eff W RequestInfo;
  requestManager_get :
    RequestUri -> DeviceId -> option string -> Eff W RequestInfo;
  setAuthorized :
    RequestUri -> Client -> Account -> DeviceId -> RequestMetadata ->
    Eff W Code;
  findCode :
    Client -> ClientAuth -> Code -> Eff W (string * DeviceId * Parameters);
  requestManager_delete : RequestUri -> Eff W unit;
  (* accountManager *)
  accountManager_list : DeviceId -> Eff W (list (Account * DeviceAccountInfo));
  accountManager_get : DeviceId -> string -> Eff W (Account * DeviceAccountInfo);
  addAuthorizedClient :
    DeviceId -> Account -> Client -> ClientAuth -> Eff W unit;
  (* tokenManager *)
  tokenManager_create :
    Client -> ClientAuth -> RequestMetadata -> Account ->
    DeviceId * DeviceAccountInfo -> Parameters ->
    OAuthAuthorizationCodeGrantTokenRequest -> option string ->
    Eff W OAuthTokenResponse;
  tokenManager_refresh :
    Client -> ClientAuth -> RequestMetadata ->
    OAuthRefreshTokenGrantTokenRequest -> option string ->
    Eff W OAuthTokenResponse;
  tokenManager_revoke : string -> Eff W unit;
  clientTokenInfo : Client -> ClientAuth -> string -> Eff W TokenInfo;
  (* schemas *)
  oauthAuthorizationRequestParametersSchema : string -> Outcome Parameters;
  oauthAuthorizationRequestParSchema :
    string -> Outcome OAuthAuthorizationRequestPar;
  oauthClientCredentialsSchema : string -> Outcome Credentials;
  oauthTokenIdentificationSchema : string -> Outcome OAuthTokenIdentification;
  oauthTokenRequestSchema : string -> Outcome OAuthTokenRequest;
  requestUriSchema : string -> Outcome RequestUri;
  codeSchema : string -> Outcome Code;
  (* helpers *)
  dateToRelativeSeconds : Date -> W -> Z;
  dateToEpoch : Date -> Z;
  localeCompare : string -> string -> Z;
  (* HTTP helpers, verifier *)
  negotiateContent : IncomingMessage -> list string -> bool;
  parseHttpRequest : IncomingMessage -> list string -> Eff W string;
  getRequestMetadata : IncomingMessage -> Eff W RequestMetadata;
  checkDpopProof : option string -> string -> string -> Eff W (option string);
  nextDpopNonce : W -> option string * W;
  buildErrorPayload : Exn -> ErrorPayload;
  buildErrorStatus : Exn -> Z
}.

Arguments issuer {W} o.
Arguments signer_issuer {W} o.
Arguments authenticationMaxAge {W} o.
Arguments grant_types_supported {W} o.
Arguments onError {W} o.
Arguments Date_now {W} o _.
Arguments setTimeout {W} o _ _.
Arguments getClient {W} o _ _.
Arguments verifyCredentials {W} o _ _ _ _.
Arguments decodeRequestObject {W} o _ _ _.
Arguments authJwkThumbprint {W} o _ _.
Arguments uniqueAuth {W} o _ _ _.
Arguments uniqueJar {W} o _ _ _.
Arguments uniqueCodeChallenge {W} o _ _.
Arguments createAuthorizationRequest {W} o _ _ _ _ _ _.
Arguments requestManager_get {W} o _ _ _ _.
Arguments setAuthorized {W} o _ _ _ _ _ _.
Arguments findCode {W} o _ _ _ _.
Arguments requestManager_delete {W} o _ _.
Arguments accountManager_list {W} o _ _.
Arguments accountManager_get {W} o _ _ _.
Arguments addAuthorizedClient {W} o _ _ _ _ _.
Arguments tokenManager_create {W} o _ _ _ _ _ _ _ _ _.
Arguments tokenManager_refresh {W} o _ _ _ _ _ _.
Arguments tokenManager_revoke {W} o _ _.
Arguments clientTokenInfo {W} o _ _ _ _.
Arguments oauthAuthorizationRequestParametersSchema {W} o _.
Arguments oauthAuthorizationRequestParSchema {W} o _.
Arguments oauthClientCredentialsSchema {W} o _.
Arguments oauthTokenIdentificationSchema {W} o _.
Arguments oauthTokenRequestSchema {W} o _.
Arguments requestUriSchema {W} o _.
Arguments codeSchema {W} o _.
Arguments dateToRelativeSeconds {W} o _ _.
Arguments dateToEpoch {W} o _.
Arguments localeCompare {W} o _ _.
Arguments negotiateContent {W} o _ _.
Arguments parseHttpRequest {W} o _ _ _.
Arguments getRequestMetadata {W} o _ _.
Arguments checkDpopProof {W} o _ _ _ _.
Arguments nextDpopNonce {W} o _.
Arguments buildErrorPayload {W} o _.
Arguments buildErrorStatus {W} o _.

(** [list.includes(x)] on strings. *)
Definition includes (l : list string) (x : string) : bool :=
  existsb (String.eqb x) l.

(** ** Helpers at the end of the module *)

(** [extractZodErrorMessage]. *)
Definition extractZodErrorMessage (err : Exn) : option string :=
  match err with
  | ZodError (issue :: _) =>
      match path issue with
      | part :: rest =>
          Some ("Validation of " ++ dquote ++ String.concat "." rest ++ dquote
                ++ " " ++ part ++ " parameter failed: " ++ message issue)
      | [] => None
      end
  | _ => None
  end.

(** [throwInvalidGrant]. *)
Definition throwInvalidGrant {W A : Type} (err : Exn) : M W A :=
  throw (new_error InvalidGrantError
           (or_else (extractZodErrorMessage err) "Invalid grant") (Some err)).

(** [throwInvalidClient]. *)
Definition throwInvalidClient {W A : Type} (err : Exn) : M W A :=
  throw (new_error InvalidClientError
           (or_else (extractZodErrorMessage err) "Client authentication failed")
           (Some err)).

(** [throwInvalidRequest]. *)
Definition throwInvalidRequest {W A : Type} (err : Exn) : M W A :=
  throw (new_error InvalidRequestError
           (or_else (extractZodErrorMessage err) "Input validation error")
           (Some err)).

(** [if (b) { m }]. *)
Definition when {W : Type} (b : bool) (m : M W unit) : M W unit :=
  if b then m else ret tt.

(** ** Scope details of the authorize page *)

(** The white space of [/\s/], on the ASCII range. *)
Definition is_space (c : ascii) : bool :=
  let n := nat_of_ascii c in
  ((9 <=? n)%nat && (n <=? 13)%nat) || (n =? 32)%nat.

(** [s.split(/\s+/)]: the pieces between the maximal runs of white space;
    [cur] is the piece being read and [in_run] tells that the previous
    character was white space. *)
Fixpoint split_spaces_from (cur : string) (in_run : bool) (s : string)
    : list string :=
  match s with
  | EmptyString => [cur]
  | String c s' =>
      if is_space c then
        if in_run then split_spaces_from cur true s'
        else cur :: split_spaces_from EmptyString true s'
      else split_spaces_from (cur ++ String c EmptyString) false s'
  end.

Definition split_spaces (s : string) : list string :=
  split_spaces_from EmptyString false s.

(** A stable sort by a comparison function, as [Array.prototype.sort]. *)
Fixpoint insert_by (cmp : string -> string -> Z) (x : string)
    (l : list string) : list string :=
  match l with
  | [] => [x]
  | y :: l' =>
      if 0 <? cmp y x then x :: y :: l' else y :: insert_by cmp x l'
  end.

Definition sort_by (cmp : string -> string -> Z) (l : list string)
    : list string :=
  fold_left (fun acc x => insert_by cmp x acc) l [].

(** [req.headers[name]]. *)
Definition header (req : IncomingMessage) (name : string) : option string :=
  match find (fun h => String.eqb (fst h) name) (req_headers req) with
  | Some h => Some (snd h)
  | None => None
  end.

(** ** The methods of [OAuthProvider] *)

Section Provider.

Context {W : Type} (this : OAuthProvider W).

(** The [authAge] of [loginRequired], in seconds, read on the clock of
    [w]: [(Date.now() - info.authenticatedAt.getTime()) / 1e3]. *)
Definition authAge (w : W) (info : DeviceAccountInfo) : number :=
  ndiv (nsub (number_of_Z (Date_now this w)) (getTime (authenticatedAt info)))
       (Fin 1000).

(** [loginRequired(client, parameters, info)]. *)
Definition loginRequired (w : W) (client : Client) (parameters : Parameters)
    (info : DeviceAccountInfo) : bool :=
  (* Fool-proof (invalid date, or suspiciously in the future) *)
  if negb (Number_isFinite (authAge w info)) || nlt (authAge w info) (Fin 0)
  then true
  else nge (authAge w info) (authenticationMaxAge this).

(** [authenticateClient(credentials)]. *)
Definition authenticateClient (credentials : Credentials)
    : M W (Client * ClientAuth) :=
  client <- invoke (call_getClient (cred_client_id credentials))
              (getClient this (cred_client_id credentials)) ;;
  verified <- invoke (call_verifyCredentials client credentials (issuer this))
                (verifyCredentials this client credentials (issuer this)) ;;
  let (clientAuth, nonce) := verified in
  when (is_native (application_type (metadata client))
        && negb (String.eqb (method clientAuth) "none"))
    (throw (new_error InvalidGrantError
              ("Native clients must authenticate using " ++ dquote ++ "none"
               ++ dquote ++ " method") None)) ;;;
  match nonce with
  | Some nonce =>
      unique <- invoke (call_uniqueAuth nonce (id client))
                  (uniqueAuth this nonce (id client)) ;;
      when (negb unique)
        (throw (new_error InvalidGrantError
                  (method clientAuth ++ " jti reused") None))
  | None => ret tt
  end ;;;
  ret (client, clientAuth).

(** [decodeJAR(client, input)], on [input.request].  The type of the
    decoded request object has the two cases of the source; its last
    [throw] is out of their reach. *)
Definition decodeJAR (client : Client) (request : string) : M W DecodedJAR :=
  result <- invoke (call_decodeRequestObject client request)
              (decodeRequestObject this client request) ;;
  payload <- lift_outcome
               (oauthAuthorizationRequestParametersSchema this
                  (claims (ro_payload result))) ;;
  jti <- match jti (ro_payload result) with
         | Some j =>
             if truthy_string j then ret j
             else throw (new_parameters_error InvalidParametersError payload
                           (Some "Request object must contain a jti claim"))
         | None =>
             throw (new_parameters_error InvalidParametersError payload
                      (Some "Request object must contain a jti claim"))
         end ;;
  unique <- invoke (call_uniqueJar jti (id client))
              (uniqueJar this jti (id client)) ;;
  when (negb unique)
    (throw (new_parameters_error InvalidParametersError payload
              (Some "Request object jti is not unique"))) ;;;
  match result with
  | SignedRequestObject _ protectedHeader key =>
      when (negb (truthy (ph_kid protectedHeader)))
        (throw (new_parameters_error InvalidParametersError payload
                  (Some ("Missing " ++ dquote ++ "kid" ++ dquote
                         ++ " in header")))) ;;;
      jkt <- invoke (call_authJwkThumbprint key) (authJwkThumbprint this key) ;;
      ret {| jar_payload := payload;
             jar_protectedHeader := Some protectedHeader;
             jar_jkt := Some jkt |}
  | UnsignedRequestObject _ =>
      ret {| jar_payload := payload; jar_protectedHeader := None;
             jar_jkt := None |}
  end.

(** The body of the [try] of [pushedAuthorizationRequest]. *)
Definition pushedAuthorizationRequest_body (credentials : Credentials)
    (authorizationRequest : OAuthAuthorizationRequestPar)
    (dpopJkt : option string) : M W OAuthParResponse :=
  authenticated <- authenticateClient credentials ;;
  let (client, clientAuth) := authenticated in
  parameters <- match authorizationRequest with
                | ParJar request =>
                    decoded <- decodeJAR client request ;;
                    ret (jar_payload decoded)
                | ParParameters p => ret p
                end ;;
  created <- invoke (call_createAuthorizationRequest client clientAuth
                       parameters None dpopJkt)
               (createAuthorizationRequest this client clientAuth parameters
                  None dpopJkt) ;;
  expires <- read_world (dateToRelativeSeconds this (expiresAt created)) ;;
  ret {| request_uri := uri created; par_expires_in := expires |}.

(** [pushedAuthorizationRequest(credentials, authorizationRequest,
    dpopJkt)]. *)
Definition pushedAuthorizationRequest (credentials : Credentials)
    (authorizationRequest : OAuthAuthorizationRequestPar)
    (dpopJkt : option string) : M W OAuthParResponse :=
  try_catch
    (pushedAuthorizationRequest_body credentials authorizationRequest dpopJkt)
    (fun err =>
       if instanceof_AccessDeniedError err then
         throw (OAuthError InvalidRequestError (class_error InvalidRequestError)
                  (exn_error_description err) None (Some err))
       else throw err).

(** [processAuthorizationRequest(client, deviceId, query)]. *)
Definition processAuthorizationRequest (client : Client) (deviceId : DeviceId)
    (query : OAuthAuthorizationRequestQuery) : M W RequestInfo :=
  match query with
  | QueryUri request_uri =>
      requestUri <- try_catch (lift_outcome (requestUriSchema this request_uri))
                      throwInvalidRequest ;;
      invoke (call_requestManager_get requestUri deviceId (Some (id client)))
        (requestManager_get this requestUri deviceId (Some (id client)))
  | QueryJar request =>
      requestObject <- decodeJAR client request ;;
      match jar_protectedHeader requestObject, jar_jkt requestObject with
      | Some protectedHeader, Some jkt =>
          (* a signed JAR is client authentication *)
          let clientAuth :=
            {| method := CLIENT_ASSERTION_TYPE_JWT_BEARER;
               kid := ph_kid protectedHeader;
               alg := Some (ph_alg protectedHeader);
               jkt := Some jkt |} in
          invoke (call_createAuthorizationRequest client clientAuth
                    (jar_payload requestObject) (Some deviceId) None)
            (createAuthorizationRequest this client clientAuth
               (jar_payload requestObject) (Some deviceId) None)
      | _, _ =>
          invoke (call_createAuthorizationRequest client clientAuth_none
                    (jar_payload requestObject) (Some deviceId) None)
            (createAuthorizationRequest this client clientAuth_none
               (jar_payload requestObject) (Some deviceId) None)
      end
  | QueryParameters p =>
      invoke (call_createAuthorizationRequest client clientAuth_none p
                (Some deviceId) None)
        (createAuthorizationRequest this client clientAuth_none p
           (Some deviceId) None)
  end.

(** [deleteRequest(requestUri, parameters)]. *)
Definition deleteRequest (requestUri : RequestUri) (parameters : Parameters)
    : M W unit :=
  try_catch
    (invoke (call_requestManager_delete requestUri)
       (requestManager_delete this requestUri))
    (fun err => throw (AccessDeniedError_from parameters err None)).

(** The [matchesHint] closure of [getSessions]. *)
Definition account_matchesHint (hint : option string) (a : Account) : bool :=
  (truthy_string (sub a) && strict_eq_opt (sub a) hint)
  || (truthy (preferred_username a)
      && match preferred_username a with
         | Some u => strict_eq_opt u hint
         | None => false
         end).

(** [getSessions(client, clientAuth, deviceId, parameters)]. *)
Definition getSessions (client : Client) (clientAuth : ClientAuth)
    (deviceId : DeviceId) (parameters : Parameters) : M W (list Session) :=
  accounts <- invoke (call_accountManager_list deviceId)
                (accountManager_list this deviceId) ;;
  let hint := login_hint parameters in
  w <- read_world (fun w => w) ;;
  ret (map
         (fun ai : Account * DeviceAccountInfo =>
            let (account, info) := ai in
            {| account := account;
               s_info := info;
               selected :=
                 negb (prompt_is (prompt parameters) prompt_select_account)
                 && account_matchesHint hint account
                 && (fold_left
                       (fun acc a =>
                          acc + (if account_matchesHint hint (fst a)
                                 then 1 else 0))
                       accounts 0 =? 1);
               s_loginRequired :=
                 prompt_is (prompt parameters) prompt_login
                 || loginRequired w client parameters info;
               consentRequired :=
                 prompt_is (prompt parameters) prompt_consent
                 || negb (includes (authorizedClients info) (id client));
               matchesHint :=
                 match hint with
                 | None => true
                 | Some _ => account_matchesHint hint account
                 end |})
         accounts).

(** The catcher that [authorize] builds when the query has a
    [redirect_uri]. *)
Definition accessDeniedCatcher {A : Type}
    (query : OAuthAuthorizationRequestQuery) : option (Exn -> M W A) :=
  match query with
  | QueryParameters p =>
      match redirect_uri p with
      | Some _ =>
          Some (fun err =>
                  throw (AccessDeniedError_from p err (Some "invalid_request")))
      | None => None
      end
  | _ => None
  end.

(** The session that the automatic SSO of [authorize] picks: no prompt, a
    login hint, a single session matching it, which needs neither login
    nor consent. *)
Definition automatic_sso (parameters : Parameters) (sessions : list Session)
    : option Session :=
  match prompt parameters, login_hint parameters with
  | None, Some _ =>
      let ssoSessions := filter matchesHint sessions in
      if (length ssoSessions =? 1)%nat then
        match ssoSessions with
        | ssoSession :: _ =>
            if negb (s_loginRequired ssoSession)
               && negb (consentRequired ssoSession)
            then Some ssoSession else None
        | [] => None
        end
      else None
  | _, _ => None
  end.

(** [parameters.scope?.split(/\s+/).filter(Boolean).sort(...).map(...)]. *)
Definition scopeDetails_of (scope : option string) : option (list ScopeDetail) :=
  match scope with
  | Some s =>
      Some (map (fun scope => {| sd_scope := scope; sd_description := None |})
              (sort_by (localeCompare this)
                 (filter truthy_string (split_spaces s))))
  | None => None
  end.

(** The body of the [try] of [authorize]. *)
Definition authorize_body (client : Client) (clientAuth : ClientAuth)
    (parameters : Parameters) (uri : RequestUri) (deviceId : DeviceId)
    (deviceMetadata : RequestMetadata) : M W AuthorizationResult :=
  sessions <- getSessions client clientAuth deviceId parameters ;;
  if prompt_is (prompt parameters) prompt_none then
    let ssoSessions := filter matchesHint sessions in
    when (1 <? length ssoSessions)%nat
      (throw (new_parameters_error AccountSelectionRequiredError parameters
                None)) ;;;
    when (length ssoSessions <? 1)%nat
      (throw (new_parameters_error LoginRequiredError parameters None)) ;;;
    match ssoSessions with
    | ssoSession :: _ =>
        when (s_loginRequired ssoSession)
          (throw (new_parameters_error LoginRequiredError parameters None)) ;;;
        when (consentRequired ssoSession)
          (throw (new_parameters_error ConsentRequiredError parameters None)) ;;;
        code <- invoke (call_setAuthorized uri client (account ssoSession)
                          deviceId deviceMetadata)
                  (setAuthorized this uri client (account ssoSession) deviceId
                     deviceMetadata) ;;
        ret (ResultRedirect
               {| rr_issuer := issuer this; rr_client := Some client;
                  rr_parameters := parameters; redirect := RedirectCode code |})
    | [] =>
        (* ssoSessions[0] is then undefined; the tests above exclude it *)
        throw (JsError "Cannot read properties of undefined")
    end
  else
    (* Automatic SSO when a did was provided *)
    match automatic_sso parameters sessions with
    | Some ssoSession =>
        code <- invoke (call_setAuthorized uri client (account ssoSession)
                          deviceId deviceMetadata)
                  (setAuthorized this uri client (account ssoSession) deviceId
                     deviceMetadata) ;;
        ret (ResultRedirect
               {| rr_issuer := issuer this; rr_client := Some client;
                  rr_parameters := parameters; redirect := RedirectCode code |})
    | None =>
        ret (ResultAuthorize
               {| ra_issuer := issuer this; ra_client := client;
                  ra_parameters := parameters; ra_uri := uri;
                  sessions := sessions;
                  scopeDetails := scopeDetails_of (scope parameters) |})
    end.

(** [authorize(clientCredentials, query, deviceId, deviceMetadata)]. *)
Definition authorize (clientCredentials : Credentials)
    (query : OAuthAuthorizationRequestQuery) (deviceId : DeviceId)
    (deviceMetadata : RequestMetadata) : M W AuthorizationResult :=
  client <- catch_with
              (invoke (call_getClient (cred_client_id clientCredentials))
                 (getClient this (cred_client_id clientCredentials)))
              (accessDeniedCatcher query) ;;
  request <- catch_with (processAuthorizationRequest client deviceId query)
               (accessDeniedCatcher query) ;;
  let clientAuth := ri_clientAuth request in
  let parameters := ri_parameters request in
  let uri := uri request in
  try_catch
    (authorize_body client clientAuth parameters uri deviceId deviceMetadata)
    (fun err =>
       deleteRequest uri parameters ;;;
       (* "parameters" will most likely contain the redirect_uri *)
       throw (AccessDeniedError_from parameters err None)).

(** [acceptRequest({requestUri, deviceId, deviceMetadata}, sub)]. *)
Definition acceptRequest (requestUri : RequestUri) (deviceId : DeviceId)
    (deviceMetadata : RequestMetadata) (sub : string)
    : M W AuthorizationResultRedirect :=
  request <- invoke (call_requestManager_get requestUri deviceId None)
               (requestManager_get this requestUri deviceId None) ;;
  let parameters := ri_parameters request in
  let clientAuth := ri_clientAuth request in
  client <- invoke (call_getClient (clientId request))
              (getClient this (clientId request)) ;;
  try_catch
    (found <- invoke (call_accountManager_get deviceId sub)
                (accountManager_get this deviceId sub) ;;
     let (account, info) := found in
     (* The user is trying to authorize without a fresh login *)
     needsLogin <- read_world
                     (fun w => loginRequired w client parameters info) ;;
     when needsLogin
       (throw (new_parameters_error LoginRequiredError parameters
                 (Some "Account authentication required."))) ;;;
     code <- invoke (call_setAuthorized requestUri client account deviceId
                       deviceMetadata)
               (setAuthorized this requestUri client account deviceId
                  deviceMetadata) ;;
     invoke (call_addAuthorizedClient deviceId account client clientAuth)
       (addAuthorizedClient this deviceId account client clientAuth) ;;;
     ret {| rr_issuer := issuer this; rr_client := None;
            rr_parameters := parameters; redirect := RedirectCode code |})
    (fun err =>
       deleteRequest requestUri parameters ;;;
       throw (AccessDeniedError_from parameters err None)).

(** [rejectRequest({requestUri, deviceId})]. *)
Definition rejectRequest (requestUri : RequestUri) (deviceId : DeviceId)
    : M W AuthorizationResultRedirect :=
  request <- invoke (call_requestManager_get requestUri deviceId None)
               (requestManager_get this requestUri deviceId None) ;;
  let parameters := ri_parameters request in
  deleteRequest requestUri parameters ;;;
  ret {| rr_issuer := issuer this; rr_client := None;
         rr_parameters := parameters;
         redirect := RedirectError "access_denied" (Some "Access denied") |}.

(** The guard of [codeGrant] against the re-use of a PKCE challenge:
    [if (parameters.code_challenge) { ... }]. *)
Definition code_challenge_guard (parameters : Parameters) : M W unit :=
  match code_challenge parameters with
  | Some code_challenge =>
      when (truthy_string code_challenge)
        (unique <- invoke (call_uniqueCodeChallenge code_challenge)
                     (uniqueCodeChallenge this code_challenge) ;;
         when (negb unique)
           (throw (new_error InvalidGrantError "code_challenge"
                     (Some (StringValue "Code challenge already used")))))
  | None => ret tt
  end.

(** The body of the [try] of [codeGrant]. *)
Definition codeGrant_body (client : Client) (clientAuth : ClientAuth)
    (clientMetadata : RequestMetadata)
    (input : OAuthAuthorizationCodeGrantTokenRequest)
    (dpopJkt : option string) : M W OAuthTokenResponse :=
  code <- lift_outcome (codeSchema this (code input)) ;;
  found <- invoke (call_findCode client clientAuth code)
             (findCode this client clientAuth code) ;;
  let '(sub, deviceId, parameters) := found in
  code_challenge_guard parameters ;;;
  found <- invoke (call_accountManager_get deviceId sub)
             (accountManager_get this deviceId sub) ;;
  let (account, info) := found in
  invoke (call_tokenManager_create client clientAuth account deviceId
            parameters input dpopJkt)
    (tokenManager_create this client clientAuth clientMetadata account
       (deviceId, info) parameters input dpopJkt).

(** [codeGrant(client, clientAuth, clientMetadata, input, dpopJkt)]. *)
Definition codeGrant (client : Client) (clientAuth : ClientAuth)
    (clientMetadata : RequestMetadata)
    (input : OAuthAuthorizationCodeGrantTokenRequest)
    (dpopJkt : option string) : M W OAuthTokenResponse :=
  try_catch (codeGrant_body client clientAuth clientMetadata input dpopJkt)
    (fun err =>
       (* If a token is replayed, requestManager.findCode will throw. In that
          case, we need to revoke any token that was issued for this code. *)
       invoke (call_tokenManager_revoke (code input))
         (tokenManager_revoke this (code input)) ;;;
       throw err).

(** [refreshTokenGrant(client, clientAuth, clientMetadata, input,
    dpopJkt)]. *)
Definition refreshTokenGrant (client : Client) (clientAuth : ClientAuth)
    (clientMetadata : RequestMetadata)
    (input : OAuthRefreshTokenGrantTokenRequest) (dpopJkt : option string)
    : M W OAuthTokenResponse :=
  invoke (call_tokenManager_refresh client clientAuth input dpopJkt)
    (tokenManager_refresh this client clientAuth clientMetadata input dpopJkt).

(** [token(clientCredentials, clientMetadata, request, dpopJkt)]. *)
Definition token (clientCredentials : Credentials)
    (clientMetadata : RequestMetadata) (request : OAuthTokenRequest)
    (dpopJkt : option string) : M W OAuthTokenResponse :=
  authenticated <- authenticateClient clientCredentials ;;
  let (client, clientAuth) := authenticated in
  when (negb (match grant_types_supported this with
              | Some supported => includes supported (grant_type request)
              | None => false
              end))
    (throw (new_error InvalidGrantError
              ("Grant type " ++ dquote ++ grant_type request ++ dquote
               ++ " is not supported by the server") None)) ;;;
  when (negb (includes (grant_types (metadata client)) (grant_type request)))
    (throw (new_error InvalidGrantError
              (dquote ++ grant_type request ++ dquote
               ++ " grant type is not allowed for this client") None)) ;;;
  match request with
  | AuthorizationCodeRequest input =>
      codeGrant client clientAuth clientMetadata input dpopJkt
  | RefreshTokenRequest input =>
      refreshTokenGrant client clientAuth clientMetadata input dpopJkt
  | OtherRequest _ =>
      throw (new_error InvalidGrantError
               ("Grant type " ++ dquote ++ grant_type request ++ dquote
                ++ " not supported") None)
  end.

(** [revoke({token})]. *)
Definition revoke (identification : OAuthTokenIdentification) : M W unit :=
  invoke (call_tokenManager_revoke (presented_token identification))
    (tokenManager_revoke this (presented_token identification)).

(** The response of [introspect] for a token that is found. *)
Definition introspection_of (tokenInfo : TokenInfo) : OAuthIntrospectionResponse :=
  active
    {| it_scope := scope (td_parameters (data tokenInfo));
       it_client_id := td_clientId (data tokenInfo);
       username := preferred_username (ti_account tokenInfo);
       it_token_type :=
         if truthy (dpop_jkt (td_parameters (data tokenInfo)))
         then "DPoP" else "Bearer";
       authorization_details := details (data tokenInfo);
       it_aud := aud (ti_account tokenInfo);
       exp := dateToEpoch this (td_expiresAt (data tokenInfo));
       iat := dateToEpoch this (updatedAt (data tokenInfo));
       iss := signer_issuer this;
       it_jti := ti_id tokenInfo;
       it_sub := sub (ti_account tokenInfo) |}.

(** [introspect(credentials, {token})]. *)
Definition introspect (credentials : Credentials)
    (identification : OAuthTokenIdentification)
    : M W OAuthIntrospectionResponse :=
  authenticated <- authenticateClient credentials ;;
  let (client, clientAuth) := authenticated in
  when (String.eqb (method clientAuth) "none")
    (throw (new_error UnauthorizedClientError "Client authentication required"
              None)) ;;;
  start <- read_world (Date_now this) ;;
  try_catch
    (tokenInfo <- invoke (call_clientTokenInfo client clientAuth
                            (presented_token identification))
                    (clientTokenInfo this client clientAuth
                       (presented_token identification)) ;;
     ret (introspection_of tokenInfo))
    (fun err =>
       (* Prevent brute force & timing attack (only for inactive tokens) *)
       now <- read_world (Date_now this) ;;
       invoke_void (call_setTimeout (750 - (now - start)))
         (setTimeout this (750 - (now - start))) ;;;
       ret inactive).

(** ** The JSON endpoints of [buildRouter] *)

(** [onError?.(req, res, err, message)]. *)
Definition report (err : Exn) (msg : string) : M W unit :=
  match onError this with
  | Some handler => invoke_void (call_onError err msg) (handler err msg)
  | None => ret tt
  end.

(** The [corsHeaders] middleware, up to its call of [next]. *)
Definition corsHeaders : M W unit :=
  update_res (setHeader "Access-Control-Max-Age" "86400") ;;;
  update_res (setHeader "Access-Control-Allow-Origin" "*") ;;;
  update_res (setHeader "Access-Control-Allow-Methods" "*") ;;;
  update_res (setHeader "Access-Control-Allow-Headers" "Content-Type,DPoP").

(** [jsonHandler(buildJson)]: the handler sets the response headers and
    writes what [buildJson] returns, or the error it throws, as JSON. *)
Definition jsonHandler (buildJson : IncomingMessage -> M W (Json * option Z))
    (req : IncomingMessage) : M W unit :=
  update_res (setHeader "Cache-Control" "no-store") ;;;
  update_res (setHeader "Pragma" "no-cache") ;;;
  when (negb (negotiateContent this req ["application/json"]))
    (throw (HttpError 406 "Unsupported media type")) ;;;
  try_catch
    (built <- buildJson req ;;
     let (payload, status) := built in
     update_res (writeJson payload
                   (match status with Some s => s | None => 200 end)))
    (fun err =>
       report err "OAuth request error" ;;;
       sent <- read_res headersSent ;;
       if negb sent then
         update_res (writeJson (json_error (buildErrorPayload this err))
                       (buildErrorStatus this err))
       else update_res destroy).

(** [oauthHandler(buildOAuthResponse, status)]: [corsHeaders], then the
    JSON handler of the response, with the DPoP nonce and the
    [WWW-Authenticate] header. *)
Definition oauthHandler (buildOAuthResponse : IncomingMessage -> M W Json)
    (status : option Z) (req : IncomingMessage) : M W unit :=
  corsHeaders ;;;
  jsonHandler
    (fun req =>
       try_catch
         (dpopNonce <- (fun r : Run W =>
                          let (nonce, w') := nextDpopNonce this (world r) in
                          (Return nonce, step r call_nextDpopNonce w')) ;;
          when (truthy dpopNonce)
            (update_res (setHeader "DPoP-Nonce"
                           (match dpopNonce with
                            | Some n => n
                            | None => EmptyString
                            end)) ;;;
             update_res (appendHeader "Access-Control-Expose-Headers"
                           "DPoP-Nonce")) ;;;
          payload <- buildOAuthResponse req ;;
          ret (payload, status))
         (fun err =>
            sent <- read_res headersSent ;;
            match err with
            | WWWAuthenticateError _ _ wwwAuthenticateHeader =>
                when (negb sent)
                  (update_res (setHeader "WWW-Authenticate"
                                 wwwAuthenticateHeader) ;;;
                   update_res (appendHeader "Access-Control-Expose-Headers"
                                 "WWW-Authenticate"))
            | _ => ret tt
            end ;;;
            throw err))
    req.

(** [schema.parseAsync(payload).catch(thrower)]. *)
Definition parse_or {A : Type} (parsed : Outcome A) (thrower : Exn -> M W A)
    : M W A :=
  try_catch (lift_outcome parsed) thrower.

(** The handler of [POST /oauth/par]. *)
Definition par_endpoint : IncomingMessage -> M W unit :=
  oauthHandler
    (fun req =>
       payload <- invoke (call_parseHttpRequest req)
                    (parseHttpRequest this req ["json"; "urlencoded"]) ;;
       credentials <- parse_or (oauthClientCredentialsSchema this payload)
                        throwInvalidRequest ;;
       authorizationRequest <-
         parse_or (oauthAuthorizationRequestParSchema this payload)
           throwInvalidRequest ;;
       dpopJkt <- invoke (call_checkDpopProof (header req "dpop")
                            (req_method req) (req_url req))
                    (checkDpopProof this (header req "dpop") (req_method req)
                       (req_url req)) ;;
       response <- pushedAuthorizationRequest credentials authorizationRequest
                     dpopJkt ;;
       ret (json_par response))
    (Some 201).

(** The handler of [POST /oauth/token]. *)
Definition token_endpoint : IncomingMessage -> M W unit :=
  oauthHandler
    (fun req =>
       payload <- invoke (call_parseHttpRequest req)
                    (parseHttpRequest this req ["json"; "urlencoded"]) ;;
       clientMetadata <- invoke (call_getRequestMetadata req)
                           (getRequestMetadata this req) ;;
       clientCredentials <- parse_or (oauthClientCredentialsSchema this payload)
                              throwInvalidClient ;;
       tokenRequest <- parse_or (oauthTokenRequestSchema this payload)
                         throwInvalidGrant ;;
       dpopJkt <- invoke (call_checkDpopProof (header req "dpop")
                            (req_method req) (req_url req))
                    (checkDpopProof this (header req "dpop") (req_method req)
                       (req_url req)) ;;
       response <- token clientCredentials clientMetadata tokenRequest dpopJkt ;;
       ret (json_token response))
    None.

(** The handler of [POST /oauth/revoke]. *)
Definition revoke_endpoint : IncomingMessage -> M W unit :=
  oauthHandler
    (fun req =>
       payload <- invoke (call_parseHttpRequest req)
                    (parseHttpRequest this req ["json"; "urlencoded"]) ;;
       tokenIdentification <-
         parse_or (oauthTokenIdentificationSchema this payload)
           throwInvalidRequest ;;
       try_catch (revoke tokenIdentification)
         (fun err => report err "Failed to revoke token") ;;;
       ret json_object_empty)
    None.

(** The handler of [POST /oauth/introspect]. *)
Definition introspect_endpoint : IncomingMessage -> M W unit :=
  oauthHandler
    (fun req =>
       payload <- invoke (call_parseHttpRequest req)
                    (parseHttpRequest this req ["json"; "urlencoded"]) ;;
       credentials <- parse_or (oauthClientCredentialsSchema this payload)
                        throwInvalidRequest ;;
       tokenIdentification <-
         parse_or (oauthTokenIdentificationSchema this payload)
           throwInvalidRequest ;;
       response <- introspect credentials tokenIdentification ;;
       ret (json_introspection response))
    None.

End Provider.

(** ** An in-memory instance

    A small world on which the provider runs: a clock, a replay store
    that accepts a key once, one device with its accounts, one pending
    authorization request, issued codes and tokens, and a switch that
    makes the request and token stores fail. *)

Module Sample.

Record World : Type := {
  clock : Z;
  seen : list string;
  accounts : list (DeviceId * (Account * DeviceAccountInfo));
  pending : option RequestInfo;
  codes : list (Code * (string * DeviceId * Parameters));
  tokens : list (string * TokenInfo);
  revoked : list string;
  reported : list string;
  store_down : bool
}.

Definition web_client : Client :=
  {| id := "https://app.example/client-metadata.json";
     metadata := {| application_type := web;
                    grant_types := ["authorization_code"; "refresh_token"] |};
     info := {| isFirstParty := false |} |}.

Definition native_client : Client :=
  {| id := "https://native.example/client-metadata.json";
     metadata := {| application_type := native;
                    grant_types := ["authorization_code"; "refresh_token"] |};
     info := {| isFirstParty := false |} |}.

Definition private_key_jwt : ClientAuth :=
  {| method := "private_key_jwt"; kid := Some "key-1"; alg := Some "ES256";
     jkt := Some "thumbprint-1" |}.

Definition parameters_of (hint : option string) (p : option Prompt)
    : Parameters :=
  {| client_id := id web_client;
     redirect_uri := Some "https://app.example/cb";
     scope := Some "atproto";
     state := Some "s1";
     code_challenge := Some "E9Melhoa2OwvFrEMTJguCHaoeK1t8URWbuGJSstw-cM";
     login_hint := hint;
     prompt := p;
     dpop_jkt := None |}.

Definition alice : Account :=
  {| sub := "did:plc:alice"; preferred_username := Some "alice.example";
     aud := "did:web:pds.example" |}.

Definition bob : Account :=
  {| sub := "did:plc:bob"; preferred_username := Some "bob.example";
     aud := "did:web:pds.example" |}.

Definition device : DeviceId := "dev-1".

Definition deviceMetadata : RequestMetadata :=
  {| ipAddress := "192.0.2.1"; userAgent := Some "browser" |}.

Definition request_of (p : Parameters) : RequestInfo :=
  {| uri := "urn:ietf:params:oauth:request_uri:req-1";
     expiresAt := DateOf 300000;
     ri_parameters := p;
     clientId := client_id p;
     ri_clientAuth := clientAuth_none |}.

(** Accepts a key the first time it is seen. *)
Definition unique (key : string) : Eff World bool :=
  fun w =>
    if includes (seen w) key then (Return false, w)
    else
      (Return true,
       {| clock := clock w; seen := key :: seen w; accounts := accounts w;
          pending := pending w; codes := codes w; tokens := tokens w;
          revoked := revoked w; reported := reported w;
          store_down := store_down w |}).

Definition lookup {A : Type} (k : string) (l : list (string * A)) : option A :=
  match find (fun kv => String.eqb (fst kv) k) l with
  | Some kv => Some (snd kv)
  | None => None
  end.

Definition store_error : Exn := JsError "store unavailable".

Definition token_response : OAuthTokenResponse :=
  {| access_token := "tok-1"; token_type := "DPoP"; tr_scope := Some "atproto";
     tr_refresh_token := Some "ref-1"; expires_in := 3600 |}.

Definition required {A : Type} (field : string) (v : string) (a : A)
    : Outcome A :=
  if truthy_string v then Return a
  else Throw (ZodError [{| path := ["body"; field]; message := "Required" |}]).

Definition provider (maxAge : number) : OAuthProvider World :=
  {| issuer := "https://pds.example";
     signer_issuer := "https://pds.example";
     authenticationMaxAge := maxAge;
     grant_types_supported := Some ["authorization_code"; "refresh_token"];
     onError :=
       Some (fun _ msg w =>
               {| clock := clock w; seen := seen w; accounts := accounts w;
                  pending := pending w; codes := codes w; tokens := tokens w;
                  revoked := revoked w; reported := msg :: reported w;
                  store_down := store_down w |});
     Date_now := clock;
     setTimeout :=
       fun ms w =>
         {| clock := clock w + Z.max 0 ms; seen := seen w;
            accounts := accounts w; pending := pending w; codes := codes w;
            tokens := tokens w; revoked := revoked w; reported := reported w;
            store_down := store_down w |};
     getClient :=
       fun client_id w =>
         if String.eqb client_id (id web_client) then (Return web_client, w)
         else if String.eqb client_id (id native_client)
              then (Return native_client, w)
              else (Throw (new_error InvalidClientError "Unknown client" None),
                    w);
     verifyCredentials :=
       fun _ credentials _ w =>
         match client_assertion credentials with
         | Some assertion =>
             (* the assertion stands for its jti *)
             (Return (private_key_jwt, Some assertion), w)
         | None => (Return (clientAuth_none, None), w)
         end;
     decodeRequestObject :=
       fun _ request w =>
         (* the request object stands for its jti *)
         (Return (UnsignedRequestObject
                    {| jti := Some request; claims := request |}), w);
     authJwkThumbprint := fun key w => (Return key, w);
     uniqueAuth := fun nonce clientId => unique ("auth:" ++ clientId ++ ":" ++ nonce);
     uniqueJar := fun jti clientId => unique ("jar:" ++ clientId ++ ":" ++ jti);
     uniqueCodeChallenge := fun challenge => unique ("code_challenge:" ++ challenge);
     createAuthorizationRequest :=
       fun client clientAuth p _ _ w =>
         match redirect_uri p with
         | Some _ =>
             (Return {| uri := "urn:ietf:params:oauth:request_uri:req-1";
                        expiresAt := DateOf (clock w + 300000);
                        ri_parameters := p; clientId := id client;
                        ri_clientAuth := clientAuth |}, w)
         | None =>
             (Throw (new_parameters_error AccessDeniedError p
                       (Some "Missing redirect_uri")), w)
         end;
     requestManager_get :=
       fun requestUri _ _ w =>
         match pending w with
         | Some request =>
             if String.eqb (uri request) requestUri
             then (Return request, w)
             else (Throw (new_error InvalidGrantError "Unknown request_uri" None), w)
         | None =>
             (Throw (new_error InvalidGrantError "Unknown request_uri" None), w)
         end;
     setAuthorized := fun _ _ _ _ _ w => (Return "code-1", w);
     findCode :=
       fun _ _ code w =>
         match lookup code (codes w) with
         | Some found =>
             (Return found,
              {| clock := clock w; seen := seen w; accounts := accounts w;
                 pending := pending w;
                 codes := filter (fun kv => negb (String.eqb (fst kv) code))
                            (codes w);
                 tokens := tokens w; revoked := revoked w;
                 reported := reported w; store_down := store_down w |})
         | None => (Throw (new_error InvalidGrantError "Invalid code" None), w)
         end;
     requestManager_delete :=
       fun _ w =>
         if store_down w then (Throw store_error, w)
         else
           (Return tt,
            {| clock := clock w; seen := seen w; accounts := accounts w;
               pending := None; codes := codes w; tokens := tokens w;
               revoked := revoked w; reported := reported w;
               store_down := store_down w |});
     accountManager_list :=
       fun deviceId w =>
         (Return (map snd (filter (fun da => String.eqb (fst da) deviceId)
                             (accounts w))), w);
     accountManager_get :=
       fun deviceId subject w =>
         match find (fun da => String.eqb (fst da) deviceId
                               && String.eqb (sub (fst (snd da))) subject)
                 (accounts w) with
         | Some da => (Return (snd da), w)
         | None => (Throw (new_error InvalidRequestError "Account not found" None), w)
         end;
     addAuthorizedClient := fun _ _ _ _ w => (Return tt, w);
     tokenManager_create := fun _ _ _ _ _ _ _ _ w => (Return token_response, w);
     tokenManager_refresh := fun _ _ _ _ _ w => (Return token_response, w);
     tokenManager_revoke :=
       fun tokenOrCode w =>
         if store_down w then (Throw store_error, w)
         else
           (Return tt,
            {| clock := clock w; seen := seen w; accounts := accounts w;
               pending := pending w; codes := codes w; tokens := tokens w;
               revoked := tokenOrCode :: revoked w; reported := reported w;
               store_down := store_down w |});
     clientTokenInfo :=
       fun _ _ token w =>
         match lookup token (tokens w) with
         | Some tokenInfo => (Return tokenInfo, w)
         | None => (Throw (new_error InvalidGrantError "Invalid token" None), w)
         end;
     oauthAuthorizationRequestParametersSchema :=
       fun _ => Return (parameters_of None None);
     oauthAuthorizationRequestParSchema :=
       fun payload => Return (ParJar payload);
     oauthClientCredentialsSchema :=
       fun _ =>
         Return {| cred_client_id := id web_client;
                   client_assertion_type := None; client_assertion := None |};
     oauthTokenIdentificationSchema :=
       fun payload =>
         required "token" payload
           {| presented_token := payload; token_type_hint := None |};
     oauthTokenRequestSchema :=
       fun payload =>
         required "code" payload
           (AuthorizationCodeRequest
              {| code := payload; tr_redirect_uri := None;
                 code_verifier := None |});
     requestUriSchema := fun s => required "request_uri" s s;
     codeSchema := fun s => required "code" s s;
     dateToRelativeSeconds :=
       fun d w =>
         match d with
         | DateOf ms => (ms - clock w) / 1000
         | InvalidDate => 0
         end;
     dateToEpoch :=
       fun d => match d with DateOf ms => ms / 1000 | InvalidDate => 0 end;
     localeCompare :=
       fun a b =>
         match String.compare a b with Lt => -1 | Eq => 0 | Gt => 1 end;
     negotiateContent := fun _ _ => true;
     parseHttpRequest := fun req _ w => (Return (req_body req), w);
     getRequestMetadata := fun _ w => (Return deviceMetadata, w);
     checkDpopProof := fun _ _ _ w => (Return None, w);
     nextDpopNonce := fun w => (Some "nonce-1", w);
     buildErrorPayload :=
       fun e =>
         {| ep_error := match exn_error e with
                        | Some c => c
                        | None => "server_error"
                        end;
            ep_error_description := exn_error_description e |};
     buildErrorStatus := fun _ => 400 |}.

(** A session of [account] authenticated at [at_ms], with consent given
    to the clients [consented]. *)
Definition session_of (account : Account) (at_ms : Z) (consented : list string)
    : DeviceId * (Account * DeviceAccountInfo) :=
  (device, (account, {| authenticatedAt := DateOf at_ms;
                        authorizedClients := consented |})).

Definition world_of (now : Z)
    (sessions : list (DeviceId * (Account * DeviceAccountInfo)))
    (request : option RequestInfo) : World :=
  {| clock := now; seen := []; accounts := sessions; pending := request;
     codes := []; tokens := []; revoked := []; reported := [];
     store_down := false |}.

(** The same world with the replay keys [keys] already seen. *)
Definition with_seen (keys : list string) (w : World) : World :=
  {| clock := clock w; seen := keys; accounts := accounts w;
     pending := pending w; codes := codes w; tokens := tokens w;
     revoked := revoked w; reported := reported w;
     store_down := store_down w |}.

(** The same world with the authorization codes [issued]. *)
Definition with_codes (issued : list (Code * (string * DeviceId * Parameters)))
    (w : World) : World :=
  {| clock := clock w; seen := seen w; accounts := accounts w;
     pending := pending w; codes := issued; tokens := tokens w;
     revoked := revoked w; reported := reported w;
     store_down := store_down w |}.

(** The same world with the request and token stores failing. *)
Definition with_store_down (w : World) : World :=
  {| clock := clock w; seen := seen w; accounts := accounts w;
     pending := pending w; codes := codes w; tokens := tokens w;
     revoked := revoked w; reported := reported w; store_down := true |}.

Definition start (w : World) : Run World :=
  {| world := w; calls := []; res := fresh_response |}.

Definition credentials_of (client : Client) (assertion : option string)
    : Credentials :=
  {| cred_client_id := id client;
     client_assertion_type :=
       match assertion with
       | Some _ => Some CLIENT_ASSERTION_TYPE_JWT_BEARER
       | None => None
       end;
     client_assertion := assertion |}.

Definition code_request (c : string) : OAuthAuthorizationCodeGrantTokenRequest :=
  {| code := c; tr_redirect_uri := Some "https://app.example/cb";
     code_verifier := Some "dBjftJeZ4CVP-mB92K27uhbUJU1p1r_wW1gFWFOEjXk" |}.

Definition post (url content : string) : IncomingMessage :=
  {| req_method := "POST"; req_url := url;
     req_headers := [("accept", "application/json")]; req_body := content |}.

End Sample.

(** ** The redirect of a denied authorization *)

(** [!!cause] for a thrown value: every value but the empty string. *)
Definition truthy_exn (e : Exn) : bool :=
  match e with
  | StringValue s => truthy_string s
  | _ => true
  end.

Section Redirects.

Context {W : Type} (this : OAuthProvider W).

(** [accessDeniedToRedirectCatcher(req, res, err)] of [buildRouter]: an
    access-denied error whose parameters hold a [redirect_uri] becomes a
    redirect to the client, and its cause is reported; any other error is
    thrown again.

    Modelled from the spec: [err.toJSON()] is declared with the error
    classes, which are not among the sources; by section 6 the error body
    holds [error] and [error_description]. *)
Definition accessDeniedToRedirectCatcher (err : Exn)
    : M W AuthorizationResultRedirect :=
  match err with
  | OAuthError cls error error_description parameters cause =>
      if extends_AccessDeniedError cls then
        match parameters with
        | Some parameters =>
            if truthy (redirect_uri parameters) then
              match cause with
              | Some cause =>
                  when (truthy_exn cause) (report this cause "Access denied")
              | None => ret tt
              end ;;;
              ret {| rr_issuer := issuer this; rr_client := None;
                     rr_parameters := parameters;
                     redirect := RedirectError error error_description |}
            else throw err
        | None =>
            (* err.parameters is then undefined *)
            throw (JsError "Cannot read properties of undefined")
        end
      else throw err
  | _ => throw err
  end.

(** [server.authorize(...).catch((err) =>
    accessDeniedToRedirectCatcher(req, res, err))], the result that the
    handler of [GET /oauth/authorize] sends. *)
Definition authorize_or_redirect (clientCredentials : Credentials)
    (query : OAuthAuthorizationRequestQuery) (deviceId : DeviceId)
    (deviceMetadata : RequestMetadata) : M W AuthorizationResult :=
  try_catch (authorize this clientCredentials query deviceId deviceMetadata)
    (fun err =>
       redirected <- accessDeniedToRedirectCatcher err ;;
       ret (ResultRedirect redirected)).

(** [server.acceptRequest(ctx, sub).catch(...)], the result that the
    handler of [GET /oauth/authorize/accept] sends, once [account_sub] is
    read. *)
Definition acceptRequest_or_redirect (requestUri : RequestUri)
    (deviceId : DeviceId) (deviceMetadata : RequestMetadata) (sub : string)
    : M W AuthorizationResultRedirect :=
  try_catch (acceptRequest this requestUri deviceId deviceMetadata sub)
    accessDeniedToRedirectCatcher.

(** [server.rejectRequest(ctx).catch(...)], the result that the handler of
    [GET /oauth/authorize/reject] sends. *)
Definition rejectRequest_or_redirect (requestUri : RequestUri)
    (deviceId : DeviceId) : M W AuthorizationResultRedirect :=
  try_catch (rejectRequest this requestUri deviceId)
    accessDeniedToRedirectCatcher.

End Redirects.

(** ** The repository export of the PDS ([sync/getRepo.ts])

    The actor store, the repository reader and the availability check are
    collaborators; they are operations over an abstract world, and a run
    records the events in their order. *)

Module GetRepo.

(** The errors that [getCarStream] tells apart: the one of the reader, the
    one of the XRPC server, and the others. *)
Inductive Error : Type :=
| RepoRootNotFoundError
| InvalidRequestError (message : string)
| OtherError (message : string).

Inductive Result (A : Type) : Type :=
| Ok (a : A)
| Fail (e : Error).

Arguments Ok {A} a.
Arguments Fail {A} e.

Section WithDb.

Context {W Db Auth : Type}.

(** [closeDb], the listener that closes the database it was made for. *)
Inductive Listener : Type :=
| closeDb (actorDb : Db).

(** A readable stream, with the listeners of its [error] and [close]
    events. *)
Record Readable : Type := {
  source : string;
  on_error : list Listener;
  on_close : list Listener
}.

(** [stream.on(event, listener)]. *)
Definition on (event : string) (listener : Listener) (s : Readable)
    : Readable :=
  if String.eqb event "error" then
    {| source := source s; on_error := on_error s ++ [listener];
       on_close := on_close s |}
  else if String.eqb event "close" then
    {| source := source s; on_error := on_error s;
       on_close := on_close s ++ [listener] |}
  else s.

Inductive Event : Type :=
| ev_assertRepoAvailability (did : string) (isUserOrAdmin : bool)
| ev_openDb (did : string)
| ev_getCarStream (actorDb : Db) (since : option string)
| ev_close (actorDb : Db).

(** [AppContext], with what the module uses of it. *)
Record AppContext : Type := {
  isUserOrAdmin : Auth -> string -> bool;
  assertRepoAvailability : string -> bool -> W -> Result unit * W;
  openDb : string -> W -> Result Db * W;
  storage_getCarStream : Db -> option string -> W -> Result Readable * W;
  close : Db -> W -> Result unit * W
}.

Record Trace : Type := {
  state : W;
  events : list Event
}.

Definition log (t : Trace) (e : Event) (w : W) : Trace :=
  {| state := w; events := events t ++ [e] |}.

Record Params : Type := {
  did : string;
  since : option string
}.

Record Output : Type := {
  encoding : string;
  body : Readable
}.

Variable ctx : AppContext.

(** [getCarStream(ctx, did, since)]. *)
Definition getCarStream (did : string) (since : option string) (t : Trace)
    : Result Readable * Trace :=
  match openDb ctx did (state t) with
  | (Fail e, w1) => (Fail e, log t (ev_openDb did) w1)
  | (Ok actorDb, w1) =>
      let t1 := log t (ev_openDb did) w1 in
      match storage_getCarStream ctx actorDb since w1 with
      | (Fail err, w2) =>
          let t2 := log t1 (ev_getCarStream actorDb since) w2 in
          match close ctx actorDb w2 with
          | (Fail e, w3) => (Fail e, log t2 (ev_close actorDb) w3)
          | (Ok _, w3) =>
              (match err with
               | RepoRootNotFoundError =>
                   Fail (InvalidRequestError
                           ("Could not find repo for DID: " ++ did))
               | _ => Fail err
               end,
               log t2 (ev_close actorDb) w3)
          end
      | (Ok carStream, w2) =>
          (Ok (on "close" (closeDb actorDb)
                 (on "error" (closeDb actorDb) carStream)),
           log t1 (ev_getCarStream actorDb since) w2)
      end
  end.

(** The handler of [com.atproto.sync.getRepo]. *)
Definition handler (params : Params) (auth : Auth) (t : Trace)
    : Result Output * Trace :=
  match assertRepoAvailability ctx (did params)
          (isUserOrAdmin ctx auth (did params)) (state t) with
  | (Fail e, w1) =>
      (Fail e,
       log t (ev_assertRepoAvailability (did params)
                (isUserOrAdmin ctx auth (did params))) w1)
  | (Ok _, w1) =>
      match getCarStream (did params) (since params)
              (log t (ev_assertRepoAvailability (did params)
                        (isUserOrAdmin ctx auth (did params))) w1) with
      | (Fail e, t') => (Fail e, t')
      | (Ok carStream, t') =>
          (Ok {| encoding := "application/vnd.ipld.car"; body := carStream |},
           t')
      end
  end.

End WithDb.

Arguments Listener Db : clear implicits.
Arguments Readable Db : clear implicits.
Arguments Event Db : clear implicits.
Arguments AppContext W Db Auth : clear implicits.
Arguments Trace W Db : clear implicits.
Arguments Output Db : clear implicits.

(** An in-memory actor store: the repositories it holds, the databases
    that are open, and a switch that makes the reader fail. *)
Module Store.

Record World : Type := {
  repos : list string;
  taken_down : list string;
  open_dbs : list string;
  reader_down : bool
}.

Definition context : AppContext World string bool :=
  {| isUserOrAdmin := fun auth _ => auth;
     assertRepoAvailability :=
       fun did isUserOrAdmin w =>
         if existsb (String.eqb did) (taken_down w) && negb isUserOrAdmin
         then (Fail (InvalidRequestError "Repo has been takendown"), w)
         else (Ok tt, w);
     openDb :=
       fun did w =>
         (Ok did,
          {| repos := repos w; taken_down := taken_down w;
             open_dbs := did :: open_dbs w; reader_down := reader_down w |});
     storage_getCarStream :=
       fun actorDb _ w =>
         if reader_down w then (Fail (OtherError "database is locked"), w)
         else if existsb (String.eqb actorDb) (repos w)
              then (Ok {| source := actorDb; on_error := []; on_close := [] |},
                    w)
              else (Fail RepoRootNotFoundError, w);
     close :=
       fun actorDb w =>
         (Ok tt,
          {| repos := repos w; taken_down := taken_down w;
             open_dbs :=
               filter (fun d => negb (String.eqb d actorDb)) (open_dbs w);
             reader_down := reader_down w |}) |}.

Definition start (known : list string) : Trace World string :=
  {| state := {| repos := known; taken_down := []; open_dbs := [];
                 reader_down := false |};
     events := [] |}.

End Store.

End GetRepo.

(** ** More of the in-memory instance *)

Module SampleMore.

(** The same world with the tokens [issued]. *)
Definition with_tokens (issued : list (string * TokenInfo))
    (w : Sample.World) : Sample.World :=
  {| Sample.clock := Sample.clock w; Sample.seen := Sample.seen w;
     Sample.accounts := Sample.accounts w; Sample.pending := Sample.pending w;
     Sample.codes := Sample.codes w; Sample.tokens := issued;
     Sample.revoked := Sample.revoked w; Sample.reported := Sample.reported w;
     Sample.store_down := Sample.store_down w |}.

Definition token_of_alice : TokenInfo :=
  {| ti_id := "tok-1";
     data := {| td_parameters := Sample.parameters_of None None;
                td_clientId := id Sample.web_client;
                details := None;
                td_expiresAt := DateOf 3600000;
                updatedAt := DateOf 0 |};
     ti_account := Sample.alice |}.

(** The same provider, whose clients decode every request object as
    [result]. *)
Definition with_request_object (result : RequestObject)
    (p : OAuthProvider Sample.World) : OAuthProvider Sample.World :=
  {| issuer := issuer p;
     signer_issuer := signer_issuer p;
     authenticationMaxAge := authenticationMaxAge p;
     grant_types_supported := grant_types_supported p;
     onError := onError p;
     Date_now := Date_now p;
     setTimeout := setTimeout p;
     getClient := getClient p;
     verifyCredentials := verifyCredentials p;
     decodeRequestObject := fun _ _ w => (Return result, w);
     authJwkThumbprint := authJwkThumbprint p;
     uniqueAuth := uniqueAuth p;
     uniqueJar := uniqueJar p;
     uniqueCodeChallenge := uniqueCodeChallenge p;
     createAuthorizationRequest := createAuthorizationRequest p;
     requestManager_get := requestManager_get p;
     setAuthorized := setAuthorized p;
     findCode := findCode p;
     requestManager_delete := requestManager_delete p;
     accountManager_list := accountManager_list p;
     accountManager_get := accountManager_get p;
     addAuthorizedClient := addAuthorizedClient p;
     tokenManager_create := tokenManager_create p;
     tokenManager_refresh := tokenManager_refresh p;
     tokenManager_revoke := tokenManager_revoke p;
     clientTokenInfo := clientTokenInfo p;
     oauthAuthorizationRequestParametersSchema :=
       oauthAuthorizationRequestParametersSchema p;
     oauthAuthorizationRequestParSchema := oauthAuthorizationRequestParSchema p;
     oauthClientCredentialsSchema := oauthClientCredentialsSchema p;
     oauthTokenIdentificationSchema := oauthTokenIdentificationSchema p;
     oauthTokenRequestSchema := oauthTokenRequestSchema p;
     requestUriSchema := requestUriSchema p;
     codeSchema := codeSchema p;
     dateToRelativeSeconds := dateToRelativeSeconds p;
     dateToEpoch := dateToEpoch p;
     localeCompare := localeCompare p;
     negotiateContent := negotiateContent p;
     parseHttpRequest := parseHttpRequest p;
     getRequestMetadata := getRequestMetadata p;
     checkDpopProof := checkDpopProof p;
     nextDpopNonce := nextDpopNonce p;
     buildErrorPayload := buildErrorPayload p;
     buildErrorStatus := buildErrorStatus p |}.

(** The same provider, whose schema of client credentials is [schema]. *)
Definition with_credentials_schema (schema : string -> Outcome Credentials)
    (p : OAuthProvider Sample.World) : OAuthProvider Sample.World :=
  {| issuer := issuer p;
     signer_issuer := signer_issuer p;
     authenticationMaxAge := authenticationMaxAge p;
     grant_types_supported := grant_types_supported p;
     onError := onError p;
     Date_now := Date_now p;
     setTimeout := setTimeout p;
     getClient := getClient p;
     verifyCredentials := verifyCredentials p;
     decodeRequestObject := decodeRequestObject p;
     authJwkThumbprint := authJwkThumbprint p;
     uniqueAuth := uniqueAuth p;
     uniqueJar := uniqueJar p;
     uniqueCodeChallenge := uniqueCodeChallenge p;
     createAuthorizationRequest := createAuthorizationRequest p;
     requestManager_get := requestManager_get p;
     setAuthorized := setAuthorized p;
     findCode := findCode p;
     requestManager_delete := requestManager_delete p;
     accountManager_list := accountManager_list p;
     accountManager_get := accountManager_get p;
     addAuthorizedClient := addAuthorizedClient p;
     tokenManager_create := tokenManager_create p;
     tokenManager_refresh := tokenManager_refresh p;
     tokenManager_revoke := tokenManager_revoke p;
     clientTokenInfo := clientTokenInfo p;
     oauthAuthorizationRequestParametersSchema :=
       oauthAuthorizationRequestParametersSchema p;
     oauthAuthorizationRequestParSchema := oauthAuthorizationRequestParSchema p;
     oauthClientCredentialsSchema := schema;
     oauthTokenIdentificationSchema := oauthTokenIdentificationSchema p;
     oauthTokenRequestSchema := oauthTokenRequestSchema p;
     requestUriSchema := requestUriSchema p;
     codeSchema := codeSchema p;
     dateToRelativeSeconds := dateToRelativeSeconds p;
     dateToEpoch := dateToEpoch p;
     localeCompare := localeCompare p;
     negotiateContent := negotiateContent p;
     parseHttpRequest := parseHttpRequest p;
     getRequestMetadata := getRequestMetadata p;
     checkDpopProof := checkDpopProof p;
     nextDpopNonce := nextDpopNonce p;
     buildErrorPayload := buildErrorPayload p;
     buildErrorStatus := buildErrorStatus p |}.

(** A device with the sessions of alice, who has authorized the client,
    and of bob, who has not, and a pending request with the given hint and
    prompt. *)
Definition two_sessions (now : Z) (hint : option string) (p : option Prompt)
    : Run Sample.World :=
  Sample.start
    (Sample.world_of now
       [Sample.session_of Sample.alice 5000 [id Sample.web_client];
        Sample.session_of Sample.bob 6000 []]
       (Some (Sample.request_of (Sample.parameters_of hint p)))).

Definition request_uri_1 : string :=
  "urn:ietf:params:oauth:request_uri:req-1".

End SampleMore.

(** * Properties *)

(** Closes a goal that holds by running the definitions. *)
Ltac evaluate := first [reflexivity | lazy; reflexivity].

(** ** Running the monad *)

Lemma bind_Return {W A B : Type} (m : M W A) (k : A -> M W B) r a r' :
  m r = (Return a, r') -> bind m k r = k a r'.
Proof. intros H. unfold bind. rewrite H. reflexivity. Qed.

Lemma bind_Throw {W A B : Type} (m : M W A) (k : A -> M W B) r e r' :
  m r = (Throw e, r') -> bind m k r = (Throw e, r').
Proof. intros H. unfold bind. rewrite H. reflexivity. Qed.

Lemma try_catch_Return {W A : Type} (m : M W A) h r a r' :
  m r = (Return a, r') -> try_catch m h r = (Return a, r').
Proof. intros H. unfold try_catch. rewrite H. reflexivity. Qed.

Lemma try_catch_Throw {W A : Type} (m : M W A) h r e r' :
  m r = (Throw e, r') -> try_catch m h r = h e r'.
Proof. intros H. unfold try_catch. rewrite H. reflexivity. Qed.

Lemma invoke_run {W A : Type} (c : Call) (op : Eff W A) r o w' :
  op (world r) = (o, w') -> invoke c op r = (o, step r c w').
Proof. intros H. unfold invoke. rewrite H. reflexivity. Qed.

Lemma when_false {W : Type} (m : M W unit) r :
  when false m r = (Return tt, r).
Proof. reflexivity. Qed.

(** A failure inside a [try] reaches the handler with the run it left. *)
Lemma try_catch_inv {W A : Type} (m : M W A) h r e r' :
  try_catch m h r = (Throw e, r') ->
  exists err r1, m r = (Throw err, r1) /\ h err r1 = (Throw e, r').
Proof.
  unfold try_catch. destruct (m r) as [[a | err] r1]; intros H.
  - discriminate H.
  - exists err, r1. split; [reflexivity | exact H].
Qed.

(** ** Numbers *)

Lemma pow2_pos (e : Z) : (0 < pow2 e)%Q.
Proof. unfold pow2. apply Qpower_0_lt. reflexivity. Qed.

Lemma pow2_plus (x y : Z) : (pow2 (x + y) == pow2 x * pow2 y)%Q.
Proof. unfold pow2. apply Qpower_plus. discriminate. Qed.

Lemma pow2_inject (j : Z) : 0 <= j -> (pow2 j == inject_Z (2 ^ j))%Q.
Proof. intros H. unfold pow2. rewrite Zpower_Qpower by exact H. reflexivity. Qed.

Lemma pow2_ge_1 (j : Z) : 0 <= j -> (1 <= pow2 j)%Q.
Proof.
  intros H. rewrite (pow2_inject j H).
  change 1%Q with (inject_Z 1). rewrite <- Zle_Qle.
  pose proof (Z.pow_pos_nonneg 2 j ltac:(lia) H). lia.
Qed.

Lemma pow2_le (x y : Z) : x <= y -> (pow2 x <= pow2 y)%Q.
Proof.
  intros H. replace y with ((y - x) + x) by lia. rewrite pow2_plus.
  rewrite <- (Qmult_1_l (pow2 x)) at 1.
  apply Qmult_le_compat_r; [apply pow2_ge_1; lia |].
  apply Qlt_le_weak, pow2_pos.
Qed.

Lemma floor_log2_le (a : Q) : (0 < a)%Q -> (pow2 (floor_log2 a) <= a)%Q.
Proof.
  intros Ha. unfold floor_log2.
  destruct (Qle_bool _ a) eqn:Htest; [apply Qle_bool_iff; exact Htest |].
  destruct a as [n d]. cbn [Qnum Qden].
  assert (Hn : 0 < n) by (unfold Qlt in Ha; simpl in Ha; lia).
  destruct (Z.log2_spec n Hn) as [Hlow _].
  destruct (Z.log2_spec (Zpos d) ltac:(lia)) as [_ Hhigh].
  pose proof (Z.log2_nonneg n) as Hln.
  pose proof (Z.log2_nonneg (Zpos d)) as Hld.
  rewrite (Qmake_Qdiv n d).
  apply Qle_shift_div_l; [reflexivity |].
  apply Qle_trans with (pow2 (Z.log2 n - Z.log2 (Zpos d) - 1)
                        * pow2 (Z.log2 (Zpos d) + 1))%Q.
  - apply Qmult_le_l; [apply pow2_pos |].
    rewrite (pow2_inject (Z.log2 (Zpos d) + 1) ltac:(lia)).
    rewrite <- Zle_Qle. lia.
  - rewrite <- pow2_plus.
    replace (Z.log2 n - Z.log2 (Zpos d) - 1 + (Z.log2 (Zpos d) + 1))
      with (Z.log2 n) by lia.
    rewrite (pow2_inject _ Hln). rewrite <- Zle_Qle. exact Hlow.
Qed.

Lemma round_half_even_floor (y : Q) : Qfloor y <= round_half_even y.
Proof.
  unfold round_half_even.
  destruct (_ ?= _)%Q; [destruct (Z.even _) |..]; lia.
Qed.

(** The double of a positive rational is not below a power of two that the
    rational is not below. *)
Lemma double_of_positive_lower (a : Q) (k : Z) :
  (0 < a)%Q -> -1074 <= k -> (pow2 k <= a)%Q ->
  double_of_positive a = PInf \/
  exists v, double_of_positive a = Fin v /\ (pow2 k <= v)%Q.
Proof.
  intros Ha Hk Hlow. unfold double_of_positive.
  set (e := Z.max (floor_log2 a - 52) (-1074)).
  set (m := round_half_even (a / pow2 e)).
  destruct (Qle_bool _ _); [left; reflexivity | right].
  eexists. split; [reflexivity |]. rewrite Qred_correct.
  set (j := Z.max (k - e) 0).
  assert (Hscaled : (pow2 (j + e) <= a)%Q).
  { destruct (Z_le_gt_dec e k) as [Hek | Hek].
    - replace (j + e) with k by lia. exact Hlow.
    - apply Qle_trans with (pow2 (floor_log2 a)); [| apply floor_log2_le, Ha].
      apply pow2_le. lia. }
  assert (Hm : 2 ^ j <= m).
  { apply Z.le_trans with (Qfloor (a / pow2 e));
      [| apply round_half_even_floor].
    rewrite <- (Qfloor_Z (2 ^ j)). apply Qfloor_resp_le.
    rewrite <- (pow2_inject j ltac:(lia)).
    apply Qle_shift_div_l; [apply pow2_pos |].
    rewrite <- pow2_plus. exact Hscaled. }
  apply Qle_trans with (pow2 (j + e)); [apply pow2_le; lia |].
  rewrite pow2_plus. apply Qmult_le_compat_r.
  - rewrite (pow2_inject j ltac:(lia)). rewrite <- Zle_Qle. exact Hm.
  - apply Qlt_le_weak, pow2_pos.
Qed.

Lemma double_of_positive_nonneg (a : Q) :
  (0 < a)%Q ->
  double_of_positive a = PInf \/
  exists v, double_of_positive a = Fin v /\ (0 <= v)%Q.
Proof.
  intros Ha. unfold double_of_positive.
  set (e := Z.max (floor_log2 a - 52) (-1074)).
  destruct (Qle_bool _ _); [left; reflexivity | right].
  eexists. split; [reflexivity |]. rewrite Qred_correct.
  apply Qmult_le_0_compat; [| apply Qlt_le_weak, pow2_pos].
  change 0%Q with (inject_Z 0). rewrite <- Zle_Qle.
  apply Z.le_trans with (Qfloor (a / pow2 e)); [| apply round_half_even_floor].
  rewrite <- (Qfloor_Z 0). apply Qfloor_resp_le.
  apply Qle_shift_div_l; [apply pow2_pos |].
  rewrite Qmult_0_l. apply Qlt_le_weak, Ha.
Qed.

Lemma double_of_nonneg (q : Q) :
  (0 <= q)%Q ->
  double_of q = PInf \/ exists v, double_of q = Fin v /\ (0 <= v)%Q.
Proof.
  intros Hq. unfold double_of, Qsign.
  destruct (q ?= 0)%Q eqn:Hsign.
  - right. exists 0%Q. split; [reflexivity | apply Qle_refl].
  - exfalso. apply (Qlt_not_le q 0); [exact Hsign | exact Hq].
  - apply double_of_positive_nonneg. apply Qgt_alt in Hsign. exact Hsign.
Qed.

Lemma double_of_below (q : Q) (k : Z) :
  -1074 <= k -> (q <= - pow2 k)%Q ->
  double_of q = NInf \/ exists v, double_of q = Fin v /\ (v <= - pow2 k)%Q.
Proof.
  intros Hk Hq. unfold double_of, Qsign.
  assert (Hneg : (q < 0)%Q).
  { apply Qle_lt_trans with (- pow2 k)%Q; [exact Hq |].
    rewrite <- (Qopp_opp 0). apply Qopp_lt_compat. apply pow2_pos. }
  assert (Hsign : (q ?= 0)%Q = Lt) by exact Hneg.
  rewrite Hsign.
  assert (Hlow : (pow2 k <= - q)%Q).
  { rewrite <- (Qopp_opp (pow2 k)). apply Qopp_le_compat. exact Hq. }
  assert (Hpos : (0 < - q)%Q).
  { apply Qlt_le_trans with (pow2 k); [apply pow2_pos | exact Hlow]. }
  destruct (double_of_positive_lower (- q) k Hpos Hk Hlow)
    as [Hinf | [v [Hv Hle]]].
  - left. rewrite Hinf. reflexivity.
  - right. exists (- v)%Q. rewrite Hv. split; [reflexivity |].
    apply Qopp_le_compat. exact Hle.
Qed.

Lemma Qminus_inject_below (x y : Z) :
  (x < y)%Z -> (inject_Z x - inject_Z y <= - pow2 0)%Q.
Proof.
  intros H. unfold Qle, Qminus, Qplus, Qopp, inject_Z. simpl. lia.
Qed.

Lemma Qminus_inject_nonneg (x y : Z) :
  (y <= x)%Z -> (0 <= inject_Z x - inject_Z y)%Q.
Proof.
  intros H. unfold Qle, Qminus, Qplus, Qopp, inject_Z. simpl. lia.
Qed.

Lemma Qdiv_1000_below (a : Q) :
  (a <= - pow2 0)%Q -> (a / 1000 <= - pow2 (-10))%Q.
Proof.
  intros H. apply Qle_shift_div_r; [reflexivity |].
  apply Qle_trans with (- pow2 0)%Q; [exact H |]. discriminate.
Qed.

Lemma Qdiv_1000_nonneg (a : Q) : (0 <= a)%Q -> (0 <= a / 1000)%Q.
Proof.
  intros H. apply Qle_shift_div_l; [reflexivity |].
  rewrite Qmult_0_l. exact H.
Qed.

Lemma nlt_Fin (a b : Q) : nlt (Fin a) (Fin b) = true <-> (a < b)%Q.
Proof.
  unfold nlt. simpl. rewrite Qlt_alt.
  destruct (a ?= b)%Q; split; intros H; try reflexivity; discriminate H.
Qed.

Lemma nge_Fin (a b : Q) : nge (Fin a) (Fin b) = true <-> (b <= a)%Q.
Proof.
  unfold nge. simpl. rewrite Qle_alt.
  rewrite <- (Qcompare_antisym a b).
  destruct (a ?= b)%Q; simpl; split; intros H; try reflexivity;
    try discriminate H; try (intros H'; discriminate H');
    try (exfalso; apply H; reflexivity).
Qed.

Lemma nge_false_Fin (a b : Q) : nge (Fin a) (Fin b) = false <-> (a < b)%Q.
Proof.
  rewrite <- nlt_Fin. unfold nge, nlt. simpl.
  destruct (a ?= b)%Q; split; intros H; try reflexivity; discriminate H.
Qed.

(** The quotient by 1000 of a difference of time values: negative, or
    [-Infinity], when the first is the lesser, and else not negative, or
    [Infinity]; rounding does not reach the sign. *)
Lemma age_negative (now t : Z) :
  now < t ->
  let age := ndiv (nsub (number_of_Z now) (number_of_Z t)) (Fin 1000) in
  age = NInf \/ exists v, age = Fin v /\ (v < 0)%Q.
Proof.
  intros Hlt. unfold number_of_Z, nsub. cbv zeta.
  destruct (double_of_below (inject_Z now - inject_Z t) 0 ltac:(lia)
              (Qminus_inject_below now t Hlt)) as [Hinf | [v [Hv Hle]]].
  - left. rewrite Hinf. reflexivity.
  - rewrite Hv. change (ndiv (Fin v) (Fin 1000)) with (double_of (v / 1000)).
    destruct (double_of_below (v / 1000) (-10) ltac:(lia)
                (Qdiv_1000_below v Hle)) as [Hinf | [v' [Hv' Hle']]].
    + left. exact Hinf.
    + right. exists v'. split; [exact Hv' |].
      apply Qle_lt_trans with (- pow2 (-10))%Q; [exact Hle' | reflexivity].
Qed.

Lemma age_not_negative (now t : Z) :
  t <= now ->
  let age := ndiv (nsub (number_of_Z now) (number_of_Z t)) (Fin 1000) in
  age = PInf \/ exists v, age = Fin v /\ (0 <= v)%Q.
Proof.
  intros Hle. unfold number_of_Z, nsub. cbv zeta.
  destruct (double_of_nonneg (inject_Z now - inject_Z t)
              (Qminus_inject_nonneg now t Hle)) as [Hinf | [v [Hv Hpos]]].
  - left. rewrite Hinf. reflexivity.
  - rewrite Hv. change (ndiv (Fin v) (Fin 1000)) with (double_of (v / 1000)).
    apply double_of_nonneg, Qdiv_1000_nonneg, Hpos.
Qed.

(** ** Session freshness *)

Section Freshness.

Context {W : Type} (this : OAuthProvider W).

Lemma authAge_invalid (w : W) (info : DeviceAccountInfo) :
  authenticatedAt info = InvalidDate -> authAge this w info = NaN.
Proof. intros H. unfold authAge. rewrite H. reflexivity. Qed.

Lemma authAge_valid (w : W) (info : DeviceAccountInfo) (t : Z) :
  authenticatedAt info = DateOf t ->
  authAge this w info
  = ndiv (nsub (number_of_Z (Date_now this w)) (number_of_Z t)) (Fin 1000).
Proof. intros H. unfold authAge. rewrite H. reflexivity. Qed.

Lemma loginRequired_invalid_date (w : W) (client : Client)
    (parameters : Parameters) (info : DeviceAccountInfo) :
  authenticatedAt info = InvalidDate ->
  loginRequired this w client parameters info = true.
Proof.
  intros H. unfold loginRequired. rewrite (authAge_invalid w info H).
  reflexivity.
Qed.

Lemma loginRequired_future_date (w : W) (client : Client)
    (parameters : Parameters) (info : DeviceAccountInfo) (t : Z) :
  authenticatedAt info = DateOf t -> Date_now this w < t ->
  loginRequired this w client parameters info = true.
Proof.
  intros H Hlt. unfold loginRequired. rewrite (authAge_valid w info t H).
  destruct (age_negative (Date_now this w) t Hlt) as [Hinf | [v [Hv Hneg]]].
  - rewrite Hinf. reflexivity.
  - rewrite Hv. replace (nlt (Fin v) (Fin 0)) with true; [reflexivity |].
    symmetry. apply nlt_Fin. exact Hneg.
Qed.

(** C9. [loginRequired] answers [true] whenever the authentication age
    is not a finite number or is negative, which is the case of a session
    whose [authenticatedAt] is an invalid date or lies after the current
    time; the configured [authenticationMaxAge] plays no part. *)
Theorem loginRequired_foolproof (w : W) (client : Client)
    (parameters : Parameters) (info : DeviceAccountInfo) :
  Number_isFinite (authAge this w info) = false \/
  nlt (authAge this w info) (Fin 0) = true \/
  authenticatedAt info = InvalidDate \/
  (exists t, authenticatedAt info = DateOf t /\ Date_now this w < t) ->
  loginRequired this w client parameters info = true.
Proof.
  intros [H | [H | [H | [t [H Hlt]]]]].
  - unfold loginRequired. rewrite H. reflexivity.
  - unfold loginRequired. rewrite H, orb_true_r. reflexivity.
  - apply loginRequired_invalid_date. exact H.
  - apply (loginRequired_future_date w client parameters info t H Hlt).
Qed.

(** The guard of [loginRequired] lets through the valid dates that are
    not after the current time, but for an age that overflows. *)
Lemma loginRequired_past_date (w : W) (client : Client)
    (parameters : Parameters) (info : DeviceAccountInfo) (t : Z) :
  authenticatedAt info = DateOf t -> t <= Date_now this w ->
  authenticationMaxAge this <> NaN ->
  loginRequired this w client parameters info
  = nge (authAge this w info) (authenticationMaxAge this).
Proof.
  intros Hat Hpast Hnan. unfold loginRequired.
  rewrite (authAge_valid w info t Hat).
  destruct (age_not_negative (Date_now this w) t Hpast)
    as [Hinf | [v [Hv Hpos]]].
  - rewrite Hinf.
    destruct (authenticationMaxAge this); [contradiction | reflexivity..].
  - rewrite Hv. simpl Number_isFinite. simpl negb. rewrite orb_false_l.
    destruct (nlt (Fin v) (Fin 0)) eqn:Hneg; [| reflexivity].
    apply nlt_Fin in Hneg. exfalso. apply (Qlt_not_le _ _ Hneg). exact Hpos.
Qed.

Lemma nge_false_nlt (x y : number) :
  y <> NaN -> x <> NaN -> (nge x y = false <-> nlt x y = true).
Proof.
  intros Hy Hx. unfold nge, nlt.
  destruct x as [| | | a]; [contradiction |..];
    (destruct y as [| | | b]; [contradiction |..]); simpl;
    try (split; intros H; try reflexivity; discriminate H).
  destruct (a ?= b)%Q; split; intros H; try reflexivity; discriminate H.
Qed.

(** C5, as the code has it. For an [authenticationMaxAge] that is a
    number (not [NaN]), a session is fresh ([loginRequired] is [false])
    exactly when its [authenticatedAt] is a valid date, not after the
    current time, and the age that the code computes, the double quotient
    [(now - authenticatedAt) / 1e3], is below [authenticationMaxAge]; and
    a computed age of [authenticationMaxAge] or more gives
    [loginRequired = true]. *)
Theorem loginRequired_fresh_iff (w : W) (client : Client)
    (parameters : Parameters) (info : DeviceAccountInfo) :
  authenticationMaxAge this <> NaN ->
  (loginRequired this w client parameters info = false <->
   exists t, authenticatedAt info = DateOf t /\ t <= Date_now this w /\
             nlt (authAge this w info) (authenticationMaxAge this) = true)
  /\
  (nge (authAge this w info) (authenticationMaxAge this) = true ->
   loginRequired this w client parameters info = true).
Proof.
  intros Hnan.
  assert (Hage : forall t, authenticatedAt info = DateOf t ->
                           t <= Date_now this w ->
                           authAge this w info <> NaN).
  { intros t Hat Hpast. rewrite (authAge_valid w info t Hat).
    destruct (age_not_negative (Date_now this w) t Hpast)
      as [Hinf | [v [Hv _]]]; [rewrite Hinf | rewrite Hv]; discriminate. }
  split.
  - split.
    + intros Hfresh. destruct (authenticatedAt info) as [| t] eqn:Hat.
      * rewrite (loginRequired_invalid_date w client parameters info Hat)
          in Hfresh.
        discriminate Hfresh.
      * exists t. split; [reflexivity |].
        destruct (Z_lt_le_dec (Date_now this w) t) as [Hfut | Hpast].
        { rewrite (loginRequired_future_date w client parameters info t Hat
                     Hfut) in Hfresh.
          discriminate Hfresh. }
        split; [exact Hpast |].
        rewrite (loginRequired_past_date w client parameters info t Hat Hpast
                   Hnan) in Hfresh.
        apply (nge_false_nlt _ _ Hnan (Hage t eq_refl Hpast)). exact Hfresh.
    + intros [t [Hat [Hpast Hlt]]].
      rewrite (loginRequired_past_date w client parameters info t Hat Hpast
                 Hnan).
      apply (nge_false_nlt _ _ Hnan (Hage t Hat Hpast)). exact Hlt.
  - intros Hge. unfold loginRequired.
    destruct (negb _ || nlt _ _); [reflexivity | exact Hge].
Qed.

End Freshness.

(** ** Client authentication and request objects *)

Section Authentication.

Context {W : Type} (this : OAuthProvider W).

(** What is left of [authenticateClient] once the client is resolved and
    its credentials are verified. *)
Lemma authenticateClient_verified (credentials : Credentials) (r : Run W)
    (client : Client) (clientAuth : ClientAuth) (nonce : option string)
    (w1 w2 : W) :
  getClient this (cred_client_id credentials) (world r) = (Return client, w1) ->
  verifyCredentials this client credentials (issuer this) w1
  = (Return (clientAuth, nonce), w2) ->
  authenticateClient this credentials r
  = (when (is_native (application_type (metadata client))
           && negb (String.eqb (method clientAuth) "none"))
       (throw (new_error InvalidGrantError
                 ("Native clients must authenticate using " ++ dquote ++ "none"
                  ++ dquote ++ " method") None)) ;;;
     match nonce with
     | Some nonce =>
         unique <- invoke (call_uniqueAuth nonce (id client))
                     (uniqueAuth this nonce (id client)) ;;
         when (negb unique)
           (throw (new_error InvalidGrantError
                     (method clientAuth ++ " jti reused") None))
     | None => ret tt
     end ;;;
     ret (client, clientAuth))
      (step (step r (call_getClient (cred_client_id credentials)) w1)
         (call_verifyCredentials client credentials (issuer this)) w2).
Proof.
  intros Hclient Hverify. unfold authenticateClient.
  rewrite (bind_Return _ _ _ _ _ (invoke_run _ _ _ _ _ Hclient)).
  assert (Hverify' :
            verifyCredentials this client credentials (issuer this)
              (world (step r (call_getClient (cred_client_id credentials)) w1))
            = (Return (clientAuth, nonce), w2)) by exact Hverify.
  rewrite (bind_Return _ _ _ _ _ (invoke_run _ _ _ _ _ Hverify')).
  reflexivity.
Qed.

Lemma authenticateClient_native (credentials : Credentials) (r : Run W)
    (client : Client) (clientAuth : ClientAuth) (nonce : option string)
    (w1 w2 : W) :
  getClient this (cred_client_id credentials) (world r) = (Return client, w1) ->
  verifyCredentials this client credentials (issuer this) w1
  = (Return (clientAuth, nonce), w2) ->
  application_type (metadata client) = native ->
  method clientAuth <> "none" ->
  authenticateClient this credentials r
  = (Throw (new_error InvalidGrantError
              ("Native clients must authenticate using " ++ dquote ++ "none"
               ++ dquote ++ " method") None),
     step (step r (call_getClient (cred_client_id credentials)) w1)
       (call_verifyCredentials client credentials (issuer this)) w2).
Proof.
  intros Hclient Hverify Hnative Hmethod.
  rewrite (authenticateClient_verified _ _ _ _ _ _ _ Hclient Hverify).
  rewrite Hnative. simpl is_native.
  destruct (String.eqb_spec (method clientAuth) "none") as [Heq | _];
    [contradiction |].
  reflexivity.
Qed.

(** C3. A client whose metadata says [application_type = native] and
    whose verified credentials use a method other than [none] is rejected
    by [authenticateClient] with an [InvalidGrantError] ([invalid_grant]),
    before any replay check; the token endpoint, which authenticates the
    client first, fails with the same error. *)
Theorem native_client_must_use_none (credentials : Credentials)
    (clientMetadata : RequestMetadata) (request : OAuthTokenRequest)
    (dpopJkt : option string) (r : Run W) (client : Client)
    (clientAuth : ClientAuth) (nonce : option string) (w1 w2 : W) :
  getClient this (cred_client_id credentials) (world r) = (Return client, w1) ->
  verifyCredentials this client credentials (issuer this) w1
  = (Return (clientAuth, nonce), w2) ->
  application_type (metadata client) = native ->
  method clientAuth <> "none" ->
  exists e,
    authenticateClient this credentials r
    = (Throw e,
       step (step r (call_getClient (cred_client_id credentials)) w1)
         (call_verifyCredentials client credentials (issuer this)) w2) /\
    token this credentials clientMetadata request dpopJkt r
    = (Throw e,
       step (step r (call_getClient (cred_client_id credentials)) w1)
         (call_verifyCredentials client credentials (issuer this)) w2) /\
    exn_class e = Some InvalidGrantError /\
    exn_error e = Some "invalid_grant".
Proof.
  intros Hclient Hverify Hnative Hmethod.
  pose proof (authenticateClient_native credentials r client clientAuth nonce
                w1 w2 Hclient Hverify Hnative Hmethod) as Hauth.
  eexists. split; [exact Hauth |]. split.
  - unfold token. rewrite (bind_Throw _ _ _ _ _ Hauth). reflexivity.
  - split; reflexivity.
Qed.

Lemma authenticateClient_replay (credentials : Credentials) (r : Run W)
    (client : Client) (clientAuth : ClientAuth) (nonce : string)
    (w1 w2 w3 : W) :
  getClient this (cred_client_id credentials) (world r) = (Return client, w1) ->
  verifyCredentials this client credentials (issuer this) w1
  = (Return (clientAuth, Some nonce), w2) ->
  is_native (application_type (metadata client))
  && negb (String.eqb (method clientAuth) "none") = false ->
  uniqueAuth this nonce (id client) w2 = (Return false, w3) ->
  authenticateClient this credentials r
  = (Throw (new_error InvalidGrantError (method clientAuth ++ " jti reused")
              None),
     step (step (step r (call_getClient (cred_client_id credentials)) w1)
             (call_verifyCredentials client credentials (issuer this)) w2)
       (call_uniqueAuth nonce (id client)) w3).
Proof.
  intros Hclient Hverify Hguard Hunique.
  rewrite (authenticateClient_verified _ _ _ _ _ _ _ Hclient Hverify).
  rewrite Hguard. unfold bind at 1. rewrite when_false.
  unfold bind at 1. unfold bind at 1.
  unfold invoke. simpl world. rewrite Hunique. reflexivity.
Qed.

Lemma decodeJAR_replay (client : Client) (request : string) (r : Run W)
    (result : RequestObject) (payload : Parameters) (j : string) (w1 w2 : W) :
  decodeRequestObject this client request (world r) = (Return result, w1) ->
  oauthAuthorizationRequestParametersSchema this (claims (ro_payload result))
  = Return payload ->
  jti (ro_payload result) = Some j ->
  truthy_string j = true ->
  uniqueJar this j (id client) w1 = (Return false, w2) ->
  decodeJAR this client request r
  = (Throw (new_parameters_error InvalidParametersError payload
              (Some "Request object jti is not unique")),
     step (step r (call_decodeRequestObject client request) w1)
       (call_uniqueJar j (id client)) w2).
Proof.
  intros Hdecode Hschema Hjti Htruthy Hunique. unfold decodeJAR.
  rewrite (bind_Return _ _ _ _ _ (invoke_run _ _ _ _ _ Hdecode)).
  rewrite Hschema, Hjti, Htruthy.
  unfold bind at 1. unfold lift_outcome.
  unfold bind at 1. unfold ret at 1.
  unfold bind at 1. unfold invoke. simpl world. rewrite Hunique.
  reflexivity.
Qed.

End Authentication.

(** ** The authorization-code grant *)

Section CodeGrant.

Context {W : Type} (this : OAuthProvider W).

Variables (client : Client) (clientAuth : ClientAuth)
  (clientMetadata : RequestMetadata)
  (input : OAuthAuthorizationCodeGrantTokenRequest) (dpopJkt : option string).

(** The [catch] of [codeGrant]: revoke, then throw the error again. *)
Lemma codeGrant_catch (r r1 : Run W) (err : Exn) (o : Outcome unit) (w2 : W) :
  codeGrant_body this client clientAuth clientMetadata input dpopJkt r
  = (Throw err, r1) ->
  tokenManager_revoke this (code input) (world r1) = (o, w2) ->
  codeGrant this client clientAuth clientMetadata input dpopJkt r
  = (Throw (match o with Return _ => err | Throw e' => e' end),
     step r1 (call_tokenManager_revoke (code input)) w2).
Proof.
  intros Hbody Hrevoke. unfold codeGrant.
  rewrite (try_catch_Throw _ _ _ _ _ Hbody).
  unfold bind, invoke. rewrite Hrevoke. destruct o; reflexivity.
Qed.

Lemma codeGrant_body_invalid_code (r : Run W) (e : Exn) :
  codeSchema this (code input) = Throw e ->
  codeGrant_body this client clientAuth clientMetadata input dpopJkt r
  = (Throw e, r).
Proof.
  intros Hparse. unfold codeGrant_body. rewrite Hparse. reflexivity.
Qed.

Lemma codeGrant_body_findCode_fails (r : Run W) (c : Code) (e : Exn) (w1 : W) :
  codeSchema this (code input) = Return c ->
  findCode this client clientAuth c (world r) = (Throw e, w1) ->
  codeGrant_body this client clientAuth clientMetadata input dpopJkt r
  = (Throw e, step r (call_findCode client clientAuth c) w1).
Proof.
  intros Hparse Hfind. unfold codeGrant_body. rewrite Hparse.
  unfold bind at 1. unfold lift_outcome.
  rewrite (bind_Throw _ _ _ _ _ (invoke_run _ _ _ _ _ Hfind)). reflexivity.
Qed.

Lemma codeGrant_body_challenge_replay (r : Run W) (c : Code) (subject : string)
    (deviceId : DeviceId) (parameters : Parameters) (challenge : string)
    (w1 w2 : W) :
  codeSchema this (code input) = Return c ->
  findCode this client clientAuth c (world r)
  = (Return (subject, deviceId, parameters), w1) ->
  code_challenge parameters = Some challenge ->
  truthy_string challenge = true ->
  uniqueCodeChallenge this challenge w1 = (Return false, w2) ->
  codeGrant_body this client clientAuth clientMetadata input dpopJkt r
  = (Throw (new_error InvalidGrantError "code_challenge"
              (Some (StringValue "Code challenge already used"))),
     step (step r (call_findCode client clientAuth c) w1)
       (call_uniqueCodeChallenge challenge) w2).
Proof.
  intros Hparse Hfind Hchallenge Htruthy Hunique. unfold codeGrant_body.
  rewrite Hparse. unfold bind at 1. unfold lift_outcome.
  rewrite (bind_Return _ _ _ _ _ (invoke_run _ _ _ _ _ Hfind)).
  unfold code_challenge_guard. rewrite Hchallenge, Htruthy.
  unfold bind at 1. unfold when at 1. unfold bind at 1. unfold invoke.
  cbn [world step]. rewrite Hunique. reflexivity.
Qed.

Lemma codeGrant_body_account_fails (r r2 : Run W) (c : Code) (subject : string)
    (deviceId : DeviceId) (parameters : Parameters) (e : Exn) (w1 w3 : W) :
  codeSchema this (code input) = Return c ->
  findCode this client clientAuth c (world r)
  = (Return (subject, deviceId, parameters), w1) ->
  code_challenge_guard this parameters
    (step r (call_findCode client clientAuth c) w1) = (Return tt, r2) ->
  accountManager_get this deviceId subject (world r2) = (Throw e, w3) ->
  codeGrant_body this client clientAuth clientMetadata input dpopJkt r
  = (Throw e, step r2 (call_accountManager_get deviceId subject) w3).
Proof.
  intros Hparse Hfind Hguard Haccount. unfold codeGrant_body.
  rewrite Hparse. unfold bind at 1. unfold lift_outcome.
  rewrite (bind_Return _ _ _ _ _ (invoke_run _ _ _ _ _ Hfind)).
  rewrite (bind_Return _ _ _ _ _ Hguard).
  rewrite (bind_Throw _ _ _ _ _ (invoke_run _ _ _ _ _ Haccount)).
  reflexivity.
Qed.

Lemma codeGrant_body_create_fails (r r2 : Run W) (c : Code) (subject : string)
    (deviceId : DeviceId) (parameters : Parameters) (account : Account)
    (info : DeviceAccountInfo) (e : Exn) (w1 w3 w4 : W) :
  codeSchema this (code input) = Return c ->
  findCode this client clientAuth c (world r)
  = (Return (subject, deviceId, parameters), w1) ->
  code_challenge_guard this parameters
    (step r (call_findCode client clientAuth c) w1) = (Return tt, r2) ->
  accountManager_get this deviceId subject (world r2)
  = (Return (account, info), w3) ->
  tokenManager_create this client clientAuth clientMetadata account
    (deviceId, info) parameters input dpopJkt w3 = (Throw e, w4) ->
  codeGrant_body this client clientAuth clientMetadata input dpopJkt r
  = (Throw e,
     step (step r2 (call_accountManager_get deviceId subject) w3)
       (call_tokenManager_create client clientAuth account deviceId parameters
          input dpopJkt) w4).
Proof.
  intros Hparse Hfind Hguard Haccount Hcreate. unfold codeGrant_body.
  rewrite Hparse. unfold bind at 1. unfold lift_outcome.
  rewrite (bind_Return _ _ _ _ _ (invoke_run _ _ _ _ _ Hfind)).
  rewrite (bind_Return _ _ _ _ _ Hguard).
  rewrite (bind_Return _ _ _ _ _ (invoke_run _ _ _ _ _ Haccount)).
  unfold invoke. cbn [world step]. rewrite Hcreate. reflexivity.
Qed.

(** C10. [codeGrant] fails exactly when the body of its [try] fails (at
    any step: parsing the code, [findCode], the [code_challenge] guard,
    the account lookup, the creation of the token), and then
    [tokenManager.revoke] has been called on the presented code, as the last
    call before the error propagates: the error of the failed step, or the
    one of [revoke] when it fails itself. *)
Theorem codeGrant_failure_revokes (r r' : Run W) (e : Exn) :
  codeGrant this client clientAuth clientMetadata input dpopJkt r
  = (Throw e, r')
  <->
  exists err r1 o w2,
    codeGrant_body this client clientAuth clientMetadata input dpopJkt r
    = (Throw err, r1) /\
    tokenManager_revoke this (code input) (world r1) = (o, w2) /\
    r' = step r1 (call_tokenManager_revoke (code input)) w2 /\
    e = match o with Return _ => err | Throw e' => e' end.
Proof.
  split.
  - intros Hfail. unfold codeGrant in Hfail.
    apply try_catch_inv in Hfail. destruct Hfail as [err [r1 [Hbody Hcatch]]].
    destruct (tokenManager_revoke this (code input) (world r1)) as [o w2]
      eqn:Hrevoke.
    exists err, r1, o, w2. split; [exact Hbody |]. split; [exact Hrevoke |].
    unfold bind, invoke in Hcatch. rewrite Hrevoke in Hcatch.
    destruct o; injection Hcatch as He Hr; subst; split; reflexivity.
  - intros [err [r1 [o [w2 [Hbody [Hrevoke [Hr He]]]]]]]. subst.
    apply codeGrant_catch; assumption.
Qed.

End CodeGrant.

(** ** Replay detection *)

(** C1, as the code has it. When [uniqueAuth] answers [false],
    [authenticateClient] fails with an [InvalidGrantError]
    ([invalid_grant]); when [uniqueCodeChallenge] answers [false],
    [codeGrant] fails with an [InvalidGrantError] ([invalid_grant]) once
    [tokenManager.revoke] has returned; when [uniqueJar] answers [false],
    [decodeJAR] fails with an [InvalidParametersError], whose code is
    [invalid_request]. *)
Theorem replay_detected_errors {W : Type} (this : OAuthProvider W) :
  (forall credentials r client clientAuth nonce w1 w2 w3,
      getClient this (cred_client_id credentials) (world r)
      = (Return client, w1) ->
      verifyCredentials this client credentials (issuer this) w1
      = (Return (clientAuth, Some nonce), w2) ->
      is_native (application_type (metadata client))
      && negb (String.eqb (method clientAuth) "none") = false ->
      uniqueAuth this nonce (id client) w2 = (Return false, w3) ->
      exists e r',
        authenticateClient this credentials r = (Throw e, r') /\
        exn_class e = Some InvalidGrantError /\
        exn_error e = Some "invalid_grant")
  /\
  (forall client clientAuth clientMetadata input dpopJkt r c subject deviceId
          parameters challenge w1 w2 w3,
      codeSchema this (code input) = Return c ->
      findCode this client clientAuth c (world r)
      = (Return (subject, deviceId, parameters), w1) ->
      code_challenge parameters = Some challenge ->
      truthy_string challenge = true ->
      uniqueCodeChallenge this challenge w1 = (Return false, w2) ->
      tokenManager_revoke this (code input) w2 = (Return tt, w3) ->
      exists e r',
        codeGrant this client clientAuth clientMetadata input dpopJkt r
        = (Throw e, r') /\
        exn_class e = Some InvalidGrantError /\
        exn_error e = Some "invalid_grant")
  /\
  (forall client request r result payload j w1 w2,
      decodeRequestObject this client request (world r) = (Return result, w1) ->
      oauthAuthorizationRequestParametersSchema this
        (claims (ro_payload result)) = Return payload ->
      jti (ro_payload result) = Some j ->
      truthy_string j = true ->
      uniqueJar this j (id client) w1 = (Return false, w2) ->
      exists e r',
        decodeJAR this client request r = (Throw e, r') /\
        exn_class e = Some InvalidParametersError /\
        exn_error e = Some "invalid_request").
Proof.
  split; [| split].
  - intros credentials r client clientAuth nonce w1 w2 w3 H1 H2 H3 H4.
    eexists. eexists. split.
    + apply (authenticateClient_replay this credentials r client clientAuth
               nonce w1 w2 w3 H1 H2 H3 H4).
    + split; reflexivity.
  - intros client clientAuth clientMetadata input dpopJkt r c subject deviceId
      parameters challenge w1 w2 w3 H1 H2 H3 H4 H5 H6.
    eexists. eexists. split.
    + apply (codeGrant_catch this client clientAuth clientMetadata input
               dpopJkt r _ _ (Return tt) w3
               (codeGrant_body_challenge_replay this client clientAuth
                  clientMetadata input dpopJkt r c subject deviceId parameters
                  challenge w1 w2 H1 H2 H3 H4 H5)).
      exact H6.
    + split; reflexivity.
  - intros client request r result payload j w1 w2 H1 H2 H3 H4 H5.
    eexists. eexists. split.
    + apply (decodeJAR_replay this client request r result payload j w1 w2
               H1 H2 H3 H4 H5).
    + split; reflexivity.
Qed.

(** ** Pushed authorization requests *)

Section PushedAuthorizationRequest.

Context {W : Type} (this : OAuthProvider W).

(** Errors that are not access-denied errors leave
    [pushedAuthorizationRequest] as they are. *)
Lemma pushedAuthorizationRequest_rethrows (credentials : Credentials)
    (authorizationRequest : OAuthAuthorizationRequestPar)
    (dpopJkt : option string) (r r1 : Run W) (err : Exn) :
  pushedAuthorizationRequest_body this credentials authorizationRequest dpopJkt
    r = (Throw err, r1) ->
  instanceof_AccessDeniedError err = false ->
  pushedAuthorizationRequest this credentials authorizationRequest dpopJkt r
  = (Throw err, r1).
Proof.
  intros Hbody Hclass. unfold pushedAuthorizationRequest.
  rewrite (try_catch_Throw _ _ _ _ _ Hbody), Hclass. reflexivity.
Qed.

(** C6. An access-denied error ([AccessDeniedError] or one of its
    subclasses, such as [login_required] or [consent_required]) raised
    while a pushed authorization request is processed leaves
    [pushedAuthorizationRequest] as an [InvalidRequestError]
    ([invalid_request]) with the same description and the original error
    as its cause. *)
Theorem par_downgrades_access_denied (credentials : Credentials)
    (authorizationRequest : OAuthAuthorizationRequestPar)
    (dpopJkt : option string) (r r1 : Run W) (err : Exn) :
  pushedAuthorizationRequest_body this credentials authorizationRequest dpopJkt
    r = (Throw err, r1) ->
  instanceof_AccessDeniedError err = true ->
  pushedAuthorizationRequest this credentials authorizationRequest dpopJkt r
  = (Throw (OAuthError InvalidRequestError "invalid_request"
              (exn_error_description err) None (Some err)), r1).
Proof.
  intros Hbody Hclass. unfold pushedAuthorizationRequest.
  rewrite (try_catch_Throw _ _ _ _ _ Hbody), Hclass. reflexivity.
Qed.

End PushedAuthorizationRequest.

(** ** Introspection *)

Section Introspection.

Context {W : Type} (this : OAuthProvider W).

(** C4. Once the calling client is authenticated (with a method other
    than [none]), any error thrown while the presented token is looked up
    makes [introspect] return [{active: false}] and nothing else, after a
    wait that pads the elapsed time to 750 ms; the error itself is
    dropped. *)
Theorem introspect_error_is_inactive (credentials : Credentials)
    (identification : OAuthTokenIdentification) (r r1 : Run W)
    (client : Client) (clientAuth : ClientAuth) (err : Exn) (w2 : W) :
  authenticateClient this credentials r = (Return (client, clientAuth), r1) ->
  method clientAuth <> "none" ->
  clientTokenInfo this client clientAuth (presented_token identification)
    (world r1) = (Throw err, w2) ->
  introspect this credentials identification r
  = (Return inactive,
     step (step r1 (call_clientTokenInfo client clientAuth
                      (presented_token identification)) w2)
       (call_setTimeout (750 - (Date_now this w2 - Date_now this (world r1))))
       (setTimeout this (750 - (Date_now this w2 - Date_now this (world r1)))
          w2)).
Proof.
  intros Hauth Hmethod Hinfo. unfold introspect.
  rewrite (bind_Return _ _ _ _ _ Hauth).
  destruct (String.eqb_spec (method clientAuth) "none") as [Heq | _];
    [contradiction |].
  unfold bind at 1. rewrite when_false.
  unfold bind at 1. unfold read_world at 1.
  unfold try_catch.
  rewrite (bind_Throw _ _ _ _ _ (invoke_run _ _ _ _ _ Hinfo)).
  reflexivity.
Qed.

End Introspection.

(** ** Revocation *)

Section Revocation.

Context {W : Type} (this : OAuthProvider W).

(** C8. For a request whose body holds a token identification,
    [POST /oauth/revoke] answers with status 200 and the body [{}] whatever
    the outcome [o] of the revoke operation; a failure of [revoke] is passed
    to the error handler, when there is one, and to nothing else. *)
Theorem revoke_endpoint_always_200 (req : IncomingMessage) (r : Run W)
    (nonce : option string) (payload : string)
    (identification : OAuthTokenIdentification) (o : Outcome unit)
    (w1 w2 w3 : W) :
  negotiateContent this req ["application/json"] = true ->
  nextDpopNonce this (world r) = (nonce, w1) ->
  parseHttpRequest this req ["json"; "urlencoded"] w1 = (Return payload, w2) ->
  oauthTokenIdentificationSchema this payload = Return identification ->
  tokenManager_revoke this (presented_token identification) w2 = (o, w3) ->
  exists r',
    revoke_endpoint this req r = (Return tt, r') /\
    statusCode (res r') = Some 200 /\
    body (res r') = Some json_object_empty /\
    headersSent (res r') = true /\
    calls r'
    = (calls r
       ++ [call_nextDpopNonce; call_parseHttpRequest req;
           call_tokenManager_revoke (presented_token identification)]
       ++ match o, onError this with
          | Throw err, Some _ => [call_onError err "Failed to revoke token"]
          | _, _ => []
          end)%list.
Proof.
  intros Hneg Hnonce Hparse Hschema Hrevoke.
  unfold revoke_endpoint, oauthHandler, jsonHandler, corsHeaders, parse_or,
    revoke, report.
  rewrite Hneg.
  unfold bind, try_catch, when, update_res, read_res, ret, throw, invoke,
    invoke_void, lift_outcome.
  cbn [world calls res step negb].
  rewrite Hnonce.
  destruct (truthy nonce); cbn [world calls res step]; rewrite Hparse;
    cbn [world calls res step]; rewrite Hschema; cbn [world calls res step];
    rewrite Hrevoke; destruct o as [[] | err];
    try destruct (onError this) as [handler |];
    eexists; (split; [reflexivity |]); cbn [world calls res step writeJson
      statusCode body headersSent]; repeat split;
    repeat rewrite <- app_assoc; try rewrite app_nil_r; reflexivity.
Qed.
(** A request whose body is not a token identification does not reach
    [revoke]: the validation error is written as an error payload. *)
Lemma revoke_endpoint_invalid_request (req : IncomingMessage) (r : Run W)
    (nonce : option string) (payload : string) (err : Exn) (w1 w2 : W) :
  headersSent (res r) = false ->
  negotiateContent this req ["application/json"] = true ->
  nextDpopNonce this (world r) = (nonce, w1) ->
  parseHttpRequest this req ["json"; "urlencoded"] w1 = (Return payload, w2) ->
  oauthTokenIdentificationSchema this payload = Throw err ->
  exists r',
    revoke_endpoint this req r = (Return tt, r') /\
    body (res r')
    = Some (json_error
              (buildErrorPayload this
                 (new_error InvalidRequestError
                    (or_else (extractZodErrorMessage err)
                       "Input validation error") (Some err)))) /\
    statusCode (res r')
    = Some (buildErrorStatus this
              (new_error InvalidRequestError
                 (or_else (extractZodErrorMessage err)
                    "Input validation error") (Some err))) /\
    ~ In (call_tokenManager_revoke payload) (skipn (length (calls r)) (calls r')).
Proof.
  intros Hsent Hneg Hnonce Hparse Hschema.
  unfold revoke_endpoint, oauthHandler, jsonHandler, corsHeaders, parse_or,
    revoke, report, throwInvalidRequest.
  rewrite Hneg.
  unfold bind, try_catch, when, update_res, read_res, ret, throw, invoke,
    invoke_void, lift_outcome.
  cbn [world calls res step negb].
  rewrite Hnonce.
  destruct (truthy nonce); cbn [world calls res step]; rewrite Hparse;
    cbn [world calls res step]; rewrite Hschema;
    unfold new_error;
    destruct (onError this) as [handler |];
    cbn [world calls res step setHeader appendHeader headersSent];
    rewrite Hsent; cbn [negb];
    eexists; (split; [reflexivity |]);
    cbn [world calls res step writeJson statusCode body headersSent];
    (split; [reflexivity |]); (split; [reflexivity |]);
    repeat rewrite <- app_assoc;
    rewrite skipn_app, skipn_all, Nat.sub_diag; cbn [skipn app In];
    intuition discriminate.
Qed.

End Revocation.

(** ** The authorization endpoint *)

Section Authorize.

Context {W : Type} (this : OAuthProvider W).

Lemma catch_with_Return {A : Type} (m : M W A) catcher r a r' :
  m r = (Return a, r') -> catch_with m catcher r = (Return a, r').
Proof.
  intros H. destruct catcher as [h |]; simpl.
  - apply try_catch_Return. exact H.
  - exact H.
Qed.

(** [authorize], once the client is resolved and the request is loaded
    or created. *)
Lemma authorize_processed (clientCredentials : Credentials)
    (query : OAuthAuthorizationRequestQuery) (deviceId : DeviceId)
    (deviceMetadata : RequestMetadata) (r r2 : Run W) (client : Client)
    (w1 : W) (request : RequestInfo) :
  getClient this (cred_client_id clientCredentials) (world r)
  = (Return client, w1) ->
  processAuthorizationRequest this client deviceId query
    (step r (call_getClient (cred_client_id clientCredentials)) w1)
  = (Return request, r2) ->
  authorize this clientCredentials query deviceId deviceMetadata r
  = try_catch
      (authorize_body this client (ri_clientAuth request)
         (ri_parameters request) (uri request) deviceId deviceMetadata)
      (fun err =>
         deleteRequest this (uri request) (ri_parameters request) ;;;
         throw (AccessDeniedError_from (ri_parameters request) err None))
      r2.
Proof.
  intros Hclient Hrequest. unfold authorize.
  rewrite (bind_Return _ _ _ _ _
             (catch_with_Return _ _ _ _ _ (invoke_run _ _ _ _ _ Hclient))).
  rewrite (bind_Return _ _ _ _ _ (catch_with_Return _ _ _ _ _ Hrequest)).
  reflexivity.
Qed.

(** The [catch] of [authorize] on an error that is an access-denied error
    already, when the request is deleted. *)
Lemma authorize_catch {A : Type} (uri : RequestUri) (parameters : Parameters)
    (err : Exn) (r : Run W) (w' : W) :
  instanceof_AccessDeniedError err = true ->
  requestManager_delete this uri (world r) = (Return tt, w') ->
  (deleteRequest this uri parameters ;;;
   @throw W A (AccessDeniedError_from parameters err None)) r
  = (Throw err, step r (call_requestManager_delete uri) w').
Proof.
  intros Hclass Hdelete. unfold deleteRequest.
  rewrite (bind_Return _ _ _ _ _
             (try_catch_Return _ _ _ _ _ (invoke_run _ _ _ _ _ Hdelete))).
  unfold AccessDeniedError_from. rewrite Hclass. reflexivity.
Qed.

(** The [catch] of [authorize] when the deletion of the request fails: the
    error of the deletion takes the place of the original one. *)
Lemma authorize_catch_delete_fails {A : Type} (uri : RequestUri)
    (parameters : Parameters) (err failure : Exn) (r : Run W) (w' : W) :
  requestManager_delete this uri (world r) = (Throw failure, w') ->
  (deleteRequest this uri parameters ;;;
   @throw W A (AccessDeniedError_from parameters err None)) r
  = (Throw (AccessDeniedError_from parameters failure None),
     step r (call_requestManager_delete uri) w').
Proof.
  intros Hdelete. unfold deleteRequest.
  apply bind_Throw.
  rewrite (try_catch_Throw _ _ _ _ _ (invoke_run _ _ _ _ _ Hdelete)).
  reflexivity.
Qed.

(** The body of [authorize] under [prompt=none], after [getSessions]. *)
Lemma authorize_body_prompt_none (client : Client) (clientAuth : ClientAuth)
    (parameters : Parameters) (uri : RequestUri) (deviceId : DeviceId)
    (deviceMetadata : RequestMetadata) (r r3 : Run W)
    (sessions : list Session) :
  prompt parameters = Some prompt_none ->
  getSessions this client clientAuth deviceId parameters r = (Return sessions, r3) ->
  authorize_body this client clientAuth parameters uri deviceId deviceMetadata r
  = (when (1 <? length (filter matchesHint sessions))%nat
       (throw (new_parameters_error AccountSelectionRequiredError parameters
                 None)) ;;;
     when (length (filter matchesHint sessions) <? 1)%nat
       (throw (new_parameters_error LoginRequiredError parameters None)) ;;;
     match filter matchesHint sessions with
     | ssoSession :: _ =>
         when (s_loginRequired ssoSession)
           (throw (new_parameters_error LoginRequiredError parameters None)) ;;;
         when (consentRequired ssoSession)
           (throw (new_parameters_error ConsentRequiredError parameters None)) ;;;
         code <- invoke (call_setAuthorized uri client (account ssoSession)
                           deviceId deviceMetadata)
                   (setAuthorized this uri client (account ssoSession) deviceId
                      deviceMetadata) ;;
         ret (ResultRedirect
                {| rr_issuer := issuer this; rr_client := Some client;
                   rr_parameters := parameters;
                   redirect := RedirectCode code |})
     | [] => throw (JsError "Cannot read properties of undefined")
     end) r3.
Proof.
  intros Hprompt Hsessions. unfold authorize_body.
  rewrite (bind_Return _ _ _ _ _ Hsessions). rewrite Hprompt. reflexivity.
Qed.

(** The four outcomes of the body under [prompt=none]. *)
Lemma authorize_body_none_redirect (client : Client) (clientAuth : ClientAuth)
    (parameters : Parameters) (uri : RequestUri) (deviceId : DeviceId)
    (deviceMetadata : RequestMetadata) (r r3 : Run W)
    (sessions : list Session) (s : Session) (code : Code) (w4 : W) :
  prompt parameters = Some prompt_none ->
  getSessions this client clientAuth deviceId parameters r = (Return sessions, r3) ->
  filter matchesHint sessions = [s] ->
  s_loginRequired s = false ->
  consentRequired s = false ->
  setAuthorized this uri client (account s) deviceId deviceMetadata (world r3)
  = (Return code, w4) ->
  authorize_body this client clientAuth parameters uri deviceId deviceMetadata r
  = (Return (ResultRedirect
               {| rr_issuer := issuer this; rr_client := Some client;
                  rr_parameters := parameters; redirect := RedirectCode code |}),
     step r3 (call_setAuthorized uri client (account s) deviceId deviceMetadata)
       w4).
Proof.
  intros Hprompt Hsessions Hone Hlogin Hconsent Hset.
  rewrite (authorize_body_prompt_none _ _ _ _ _ _ _ _ _ Hprompt Hsessions).
  rewrite Hone, Hlogin, Hconsent. simpl length.
  change (1 <? 1)%nat with false.
  unfold bind, when, ret, invoke. rewrite Hset. reflexivity.
Qed.

Lemma authorize_body_none_selection (client : Client) (clientAuth : ClientAuth)
    (parameters : Parameters) (uri : RequestUri) (deviceId : DeviceId)
    (deviceMetadata : RequestMetadata) (r r3 : Run W)
    (sessions : list Session) :
  prompt parameters = Some prompt_none ->
  getSessions this client clientAuth deviceId parameters r = (Return sessions, r3) ->
  (1 < length (filter matchesHint sessions))%nat ->
  authorize_body this client clientAuth parameters uri deviceId deviceMetadata r
  = (Throw (new_parameters_error AccountSelectionRequiredError parameters None),
     r3).
Proof.
  intros Hprompt Hsessions Hmany.
  rewrite (authorize_body_prompt_none _ _ _ _ _ _ _ _ _ Hprompt Hsessions).
  apply Nat.ltb_lt in Hmany. rewrite Hmany. reflexivity.
Qed.

Lemma authorize_body_none_login (client : Client) (clientAuth : ClientAuth)
    (parameters : Parameters) (uri : RequestUri) (deviceId : DeviceId)
    (deviceMetadata : RequestMetadata) (r r3 : Run W)
    (sessions : list Session) :
  prompt parameters = Some prompt_none ->
  getSessions this client clientAuth deviceId parameters r = (Return sessions, r3) ->
  (filter matchesHint sessions = [] \/
   exists s, filter matchesHint sessions = [s] /\ s_loginRequired s = true) ->
  authorize_body this client clientAuth parameters uri deviceId deviceMetadata r
  = (Throw (new_parameters_error LoginRequiredError parameters None), r3).
Proof.
  intros Hprompt Hsessions Hcase.
  rewrite (authorize_body_prompt_none _ _ _ _ _ _ _ _ _ Hprompt Hsessions).
  destruct Hcase as [Hnone | [s [Hone Hlogin]]].
  - rewrite Hnone. reflexivity.
  - rewrite Hone, Hlogin. reflexivity.
Qed.

Lemma authorize_body_none_consent (client : Client) (clientAuth : ClientAuth)
    (parameters : Parameters) (uri : RequestUri) (deviceId : DeviceId)
    (deviceMetadata : RequestMetadata) (r r3 : Run W)
    (sessions : list Session) (s : Session) :
  prompt parameters = Some prompt_none ->
  getSessions this client clientAuth deviceId parameters r = (Return sessions, r3) ->
  filter matchesHint sessions = [s] ->
  s_loginRequired s = false ->
  consentRequired s = true ->
  authorize_body this client clientAuth parameters uri deviceId deviceMetadata r
  = (Throw (new_parameters_error ConsentRequiredError parameters None), r3).
Proof.
  intros Hprompt Hsessions Hone Hlogin Hconsent.
  rewrite (authorize_body_prompt_none _ _ _ _ _ _ _ _ _ Hprompt Hsessions).
  rewrite Hone, Hlogin, Hconsent. reflexivity.
Qed.

Lemma automatic_sso_single (parameters : Parameters) (sessions : list Session)
    (hint : string) (s : Session) :
  prompt parameters = None ->
  login_hint parameters = Some hint ->
  filter matchesHint sessions = [s] ->
  s_loginRequired s = false ->
  consentRequired s = false ->
  automatic_sso parameters sessions = Some s.
Proof.
  intros Hprompt Hhint Hone Hlogin Hconsent. unfold automatic_sso.
  rewrite Hprompt, Hhint, Hone, Hlogin, Hconsent. reflexivity.
Qed.

(** C2, as the code has it. In [authorize] with [prompt=none], once the
    client and the request are resolved and [getSessions] has returned the
    sessions of the device: a single session matching the hint that needs
    neither login nor consent gives a redirect carrying the code that
    [setAuthorized] returns.  In the other cases the request is deleted
    first.  When the deletion succeeds, more than one matching session
    fails with [account_selection_required], no matching session or a
    single one that needs login fails with [login_required], and a single
    one that needs consent fails with [consent_required].  When the
    deletion fails, its error takes the place of these, made an
    access-denied error by [AccessDeniedError.from]: [access_denied],
    unless it is an access-denied error of its own. *)
Theorem authorize_prompt_none (clientCredentials : Credentials)
    (query : OAuthAuthorizationRequestQuery) (deviceId : DeviceId)
    (deviceMetadata : RequestMetadata) (r r2 r3 : Run W) (client : Client)
    (w1 : W) (request : RequestInfo) (sessions : list Session) :
  getClient this (cred_client_id clientCredentials) (world r)
  = (Return client, w1) ->
  processAuthorizationRequest this client deviceId query
    (step r (call_getClient (cred_client_id clientCredentials)) w1)
  = (Return request, r2) ->
  prompt (ri_parameters request) = Some prompt_none ->
  getSessions this client (ri_clientAuth request) deviceId
    (ri_parameters request) r2 = (Return sessions, r3) ->
  (forall s code w4,
      filter matchesHint sessions = [s] ->
      s_loginRequired s = false ->
      consentRequired s = false ->
      setAuthorized this (uri request) client (account s) deviceId
        deviceMetadata (world r3) = (Return code, w4) ->
      authorize this clientCredentials query deviceId deviceMetadata r
      = (Return (ResultRedirect
                   {| rr_issuer := issuer this; rr_client := Some client;
                      rr_parameters := ri_parameters request;
                      redirect := RedirectCode code |}),
         step r3 (call_setAuthorized (uri request) client (account s) deviceId
                    deviceMetadata) w4))
  /\
  (forall o w4,
      requestManager_delete this (uri request) (world r3) = (o, w4) ->
      ((1 < length (filter matchesHint sessions))%nat ->
       exists e,
         authorize this clientCredentials query deviceId deviceMetadata r
         = (Throw e, step r3 (call_requestManager_delete (uri request)) w4) /\
         match o with
         | Return _ => exn_error e = Some "account_selection_required"
         | Throw failure =>
             e = AccessDeniedError_from (ri_parameters request) failure None /\
             (instanceof_AccessDeniedError failure = false ->
              exn_error e = Some "access_denied")
         end)
      /\
      (filter matchesHint sessions = [] \/
       (exists s, filter matchesHint sessions = [s] /\
                  s_loginRequired s = true) ->
       exists e,
         authorize this clientCredentials query deviceId deviceMetadata r
         = (Throw e, step r3 (call_requestManager_delete (uri request)) w4) /\
         match o with
         | Return _ => exn_error e = Some "login_required"
         | Throw failure =>
             e = AccessDeniedError_from (ri_parameters request) failure None /\
             (instanceof_AccessDeniedError failure = false ->
              exn_error e = Some "access_denied")
         end)
      /\
      (forall s,
          filter matchesHint sessions = [s] ->
          s_loginRequired s = false ->
          consentRequired s = true ->
          exists e,
         authorize this clientCredentials query deviceId deviceMetadata r
         = (Throw e, step r3 (call_requestManager_delete (uri request)) w4) /\
         match o with
         | Return _ => exn_error e = Some "consent_required"
         | Throw failure =>
             e = AccessDeniedError_from (ri_parameters request) failure None /\
             (instanceof_AccessDeniedError failure = false ->
              exn_error e = Some "access_denied")
         end)).
Proof.
  intros Hclient Hrequest Hprompt Hsessions.
  rewrite (authorize_processed _ _ _ deviceMetadata _ _ _ _ _ Hclient Hrequest).
  assert (Hcatch :
            forall (cls : OAuthErrorClass) (code : string) o w4,
              extends_AccessDeniedError cls = true ->
              class_error cls = code ->
              requestManager_delete this (uri request) (world r3) = (o, w4) ->
              authorize_body this client (ri_clientAuth request)
                (ri_parameters request) (uri request) deviceId deviceMetadata
                r2
              = (Throw (new_parameters_error cls (ri_parameters request) None),
                 r3) ->
              exists e,
                try_catch
                  (authorize_body this client (ri_clientAuth request)
                     (ri_parameters request) (uri request) deviceId
                     deviceMetadata)
                  (fun err =>
                     deleteRequest this (uri request) (ri_parameters request) ;;;
                     throw (AccessDeniedError_from (ri_parameters request) err
                              None))
                  r2
                = (Throw e,
                   step r3 (call_requestManager_delete (uri request)) w4) /\
                match o with
                | Return _ => exn_error e = Some code
                | Throw failure =>
                    e = AccessDeniedError_from (ri_parameters request) failure
                          None /\
                    (instanceof_AccessDeniedError failure = false ->
                     exn_error e = Some "access_denied")
                end).
  { intros cls code o w4 Hcls Hcode Hdelete Hbody.
    rewrite (try_catch_Throw _ _ _ _ _ Hbody).
    destruct o as [[] | failure]; eexists; split.
    - apply authorize_catch; [exact Hcls | exact Hdelete].
    - rewrite <- Hcode. reflexivity.
    - apply authorize_catch_delete_fails. exact Hdelete.
    - split; [reflexivity |]. intros Hfailure.
      unfold AccessDeniedError_from. rewrite Hfailure. reflexivity. }
  split.
  - intros s code w4 Hone Hlogin Hconsent Hset.
    apply try_catch_Return.
    apply (authorize_body_none_redirect _ _ _ _ _ _ _ _ _ s code w4 Hprompt
             Hsessions Hone Hlogin Hconsent Hset).
  - intros o w4 Hdelete. split; [| split].
    + intros Hmany.
      apply (Hcatch AccountSelectionRequiredError _ o w4 eq_refl eq_refl
               Hdelete).
      apply (authorize_body_none_selection _ _ _ _ _ _ _ _ _ Hprompt
               Hsessions Hmany).
    + intros Hcase.
      apply (Hcatch LoginRequiredError _ o w4 eq_refl eq_refl Hdelete).
      apply (authorize_body_none_login _ _ _ _ _ _ _ _ _ Hprompt Hsessions
               Hcase).
    + intros s Hone Hlogin Hconsent.
      apply (Hcatch ConsentRequiredError _ o w4 eq_refl eq_refl Hdelete).
      apply (authorize_body_none_consent _ _ _ _ _ _ _ _ _ s Hprompt
               Hsessions Hone Hlogin Hconsent).
Qed.

(** C7. In [authorize] with no [prompt] and a [login_hint], once the
    client and the request are resolved and [getSessions] has returned the
    sessions of the device: when a single session matches the hint and it
    needs neither login nor consent, [setAuthorized] is called for its
    account and the result is a redirect carrying the code it returns, not
    the authorize page. *)
Theorem authorize_automatic_sso (clientCredentials : Credentials)
    (query : OAuthAuthorizationRequestQuery) (deviceId : DeviceId)
    (deviceMetadata : RequestMetadata) (r r2 r3 : Run W) (client : Client)
    (w1 w4 : W) (request : RequestInfo) (sessions : list Session)
    (hint : string) (s : Session) (code : Code) :
  getClient this (cred_client_id clientCredentials) (world r)
  = (Return client, w1) ->
  processAuthorizationRequest this client deviceId query
    (step r (call_getClient (cred_client_id clientCredentials)) w1)
  = (Return request, r2) ->
  prompt (ri_parameters request) = None ->
  login_hint (ri_parameters request) = Some hint ->
  getSessions this client (ri_clientAuth request) deviceId
    (ri_parameters request) r2 = (Return sessions, r3) ->
  filter matchesHint sessions = [s] ->
  s_loginRequired s = false ->
  consentRequired s = false ->
  setAuthorized this (uri request) client (account s) deviceId deviceMetadata
    (world r3) = (Return code, w4) ->
  authorize this clientCredentials query deviceId deviceMetadata r
  = (Return (ResultRedirect
               {| rr_issuer := issuer this; rr_client := Some client;
                  rr_parameters := ri_parameters request;
                  redirect := RedirectCode code |}),
     step r3 (call_setAuthorized (uri request) client (account s) deviceId
                deviceMetadata) w4).
Proof.
  intros Hclient Hrequest Hprompt Hhint Hsessions Hone Hlogin Hconsent Hset.
  rewrite (authorize_processed _ _ _ deviceMetadata _ _ _ _ _ Hclient Hrequest).
  apply try_catch_Return. unfold authorize_body.
  rewrite (bind_Return _ _ _ _ _ Hsessions). rewrite Hprompt.
  change (prompt_is None prompt_none) with false.
  rewrite (automatic_sso_single _ _ hint s Hprompt Hhint Hone Hlogin Hconsent).
  cbv beta iota.
  rewrite (bind_Return _ _ _ _ _ (invoke_run _ _ _ _ _ Hset)). reflexivity.
Qed.

End Authorize.

(** * The properties on the in-memory instance *)

(** C9 on a session authenticated five seconds after the current time, with
    no bound on the authentication age. *)
Lemma loginRequired_foolproof_witness :
  loginRequired (Sample.provider PInf) (Sample.world_of 0 [] None)
    Sample.web_client (Sample.parameters_of None None)
    {| authenticatedAt := DateOf 5000; authorizedClients := [] |} = true.
Proof.
  apply loginRequired_foolproof. right. right. right.
  exists 5000. split; reflexivity.
Defined.

(** C5 as stated fails on a session authenticated five seconds after the
    current time: its age, -5 s, is below the maximum age of 3600 s, and
    the session is not fresh. *)
Lemma fresh_iff_fails_for_future_date :
  let this := Sample.provider (Fin 3600) in
  let w := Sample.world_of 0 [] None in
  let info := {| authenticatedAt := DateOf 5000; authorizedClients := [] |} in
  authenticationMaxAge this = Fin 3600 /\
  ((inject_Z (Date_now this w) - inject_Z 5000) / 1000 < 3600)%Q /\
  nlt (authAge this w info) (authenticationMaxAge this) = true /\
  loginRequired this w Sample.web_client (Sample.parameters_of None None) info
  = true.
Proof.
  split; [reflexivity |]. split; [vm_compute; reflexivity |].
  split; reflexivity.
Defined.

(** C5, as the code has it, on a session authenticated five seconds
    before the current time, with a maximum age of one hour. *)
Lemma loginRequired_fresh_iff_witness :
  let this := Sample.provider (Fin 3600) in
  let w := Sample.world_of 10000 [] None in
  let info := {| authenticatedAt := DateOf 5000; authorizedClients := [] |} in
  (loginRequired this w Sample.web_client (Sample.parameters_of None None) info
   = false <->
   exists t, authenticatedAt info = DateOf t /\ t <= Date_now this w /\
             nlt (authAge this w info) (authenticationMaxAge this) = true)
  /\
  (nge (authAge this w info) (authenticationMaxAge this) = true ->
   loginRequired this w Sample.web_client (Sample.parameters_of None None) info
   = true).
Proof.
  intros this w info.
  apply (loginRequired_fresh_iff this w Sample.web_client
           (Sample.parameters_of None None) info).
  discriminate.
Defined.

(** C3 on a native client that presents a client assertion at the token
    endpoint. *)
Lemma native_client_must_use_none_witness :
  exists e r',
    token (Sample.provider (Fin 3600))
      (Sample.credentials_of Sample.native_client (Some "assertion-1"))
      Sample.deviceMetadata
      (AuthorizationCodeRequest (Sample.code_request "code-1")) None
      (Sample.start (Sample.world_of 0 [] None)) = (Throw e, r') /\
    exn_error e = Some "invalid_grant".
Proof.
  edestruct (native_client_must_use_none (Sample.provider (Fin 3600))
               (Sample.credentials_of Sample.native_client (Some "assertion-1"))
               Sample.deviceMetadata
               (AuthorizationCodeRequest (Sample.code_request "code-1")) None
               (Sample.start (Sample.world_of 0 [] None)))
    as [e [_ [Htoken [_ Hcode]]]];
    [reflexivity | reflexivity | reflexivity | discriminate |].
  exists e. eexists. split; [exact Htoken | exact Hcode].
Defined.

(** C1 as stated fails on a replayed request object: the second use of a
    [jti] makes [uniqueJar] answer [false], and [decodeJAR] then throws an
    [InvalidParametersError], which is not an [invalid_grant] error; the
    pushed authorization request that encloses it fails with
    [invalid_request]. *)
Lemma jar_replay_is_not_invalid_grant :
  let this := Sample.provider (Fin 3600) in
  let client := Sample.web_client in
  let w := Sample.with_seen ["jar:" ++ id client ++ ":jti-1"]
             (Sample.world_of 0 [] None) in
  uniqueJar this "jti-1" (id client) w = (Return false, w) /\
  (exists e r',
      decodeJAR this client "jti-1" (Sample.start w) = (Throw e, r') /\
      exn_class e = Some InvalidParametersError /\
      exn_class e <> Some InvalidGrantError /\
      exn_error e <> Some "invalid_grant") /\
  (exists e r',
      pushedAuthorizationRequest this (Sample.credentials_of client None)
        (ParJar "jti-1") None (Sample.start w) = (Throw e, r') /\
      exn_error e = Some "invalid_request" /\
      exn_error e <> Some "invalid_grant").
Proof.
  split; [reflexivity |]. split.
  - eexists. eexists. split; [reflexivity |].
    split; [reflexivity |]. split; discriminate.
  - eexists. eexists. split; [reflexivity |].
    split; [reflexivity | discriminate].
Defined.

(** C1, as the code has it, on a reused client assertion, a reused PKCE
    challenge and a reused request object. *)
Lemma replay_detected_errors_witness :
  let this := Sample.provider (Fin 3600) in
  let client := Sample.web_client in
  let parameters := Sample.parameters_of None None in
  let w0 := Sample.world_of 0 [] None in
  (exists e r',
      authenticateClient this (Sample.credentials_of client (Some "assertion-1"))
        (Sample.start
           (Sample.with_seen ["auth:" ++ id client ++ ":assertion-1"] w0))
      = (Throw e, r') /\
      exn_class e = Some InvalidGrantError /\
      exn_error e = Some "invalid_grant")
  /\
  (exists e r',
      codeGrant this client clientAuth_none Sample.deviceMetadata
        (Sample.code_request "code-1") None
        (Sample.start
           (Sample.with_codes
              [("code-1", ("did:plc:alice", Sample.device, parameters))]
              (Sample.with_seen
                 ["code_challenge:E9Melhoa2OwvFrEMTJguCHaoeK1t8URWbuGJSstw-cM"]
                 w0)))
      = (Throw e, r') /\
      exn_class e = Some InvalidGrantError /\
      exn_error e = Some "invalid_grant")
  /\
  (exists e r',
      decodeJAR this client "jti-1"
        (Sample.start (Sample.with_seen ["jar:" ++ id client ++ ":jti-1"] w0))
      = (Throw e, r') /\
      exn_class e = Some InvalidParametersError /\
      exn_error e = Some "invalid_request").
Proof.
  intros this client parameters w0.
  destruct (replay_detected_errors this) as [Hauth [Hcode Hjar]].
  split; [| split].
  - eapply Hauth; reflexivity.
  - eapply Hcode; reflexivity.
  - eapply Hjar; reflexivity.
Defined.

(** C10 on a code that [findCode] does not know. *)
Lemma codeGrant_failure_revokes_witness :
  let this := Sample.provider (Fin 3600) in
  exists e r',
    codeGrant this Sample.web_client clientAuth_none Sample.deviceMetadata
      (Sample.code_request "code-0") None
      (Sample.start (Sample.world_of 0 [] None)) = (Throw e, r') /\
    calls r'
    = [call_findCode Sample.web_client clientAuth_none "code-0";
       call_tokenManager_revoke "code-0"] /\
    Sample.revoked (world r') = ["code-0"].
Proof.
  intros this. eexists. eexists. split.
  - apply (proj2 (codeGrant_failure_revokes this Sample.web_client
                    clientAuth_none Sample.deviceMetadata
                    (Sample.code_request "code-0") None
                    (Sample.start (Sample.world_of 0 [] None)) _ _)).
    eexists. eexists. eexists. eexists.
    split; [reflexivity |]. split; [reflexivity |].
    split; reflexivity.
  - split; reflexivity.
Defined.

(** C6 on pushed parameters that the request manager refuses with an
    access-denied error. *)
Lemma par_downgrades_access_denied_witness :
  let this := Sample.provider (Fin 3600) in
  exists e r',
    pushedAuthorizationRequest this
      (Sample.credentials_of Sample.web_client None)
      (ParParameters
         {| client_id := id Sample.web_client; redirect_uri := None;
            scope := Some "atproto"; state := None; code_challenge := None;
            login_hint := None; prompt := None; dpop_jkt := None |})
      None (Sample.start (Sample.world_of 0 [] None)) = (Throw e, r') /\
    exn_class e = Some InvalidRequestError /\
    exn_error e = Some "invalid_request" /\
    exn_error_description e = Some "Missing redirect_uri".
Proof.
  intros this. eexists. eexists. split.
  - eapply par_downgrades_access_denied; reflexivity.
  - split; [reflexivity |]. split; reflexivity.
Defined.

(** C4 on a token that the token manager does not know. *)
Lemma introspect_error_is_inactive_witness :
  let this := Sample.provider (Fin 3600) in
  exists r',
    introspect this (Sample.credentials_of Sample.web_client (Some "assertion-1"))
      {| presented_token := "tok-0"; token_type_hint := None |}
      (Sample.start (Sample.world_of 0 [] None)) = (Return inactive, r') /\
    Sample.clock (world r') = 750.
Proof.
  intros this. eexists. split.
  - eapply introspect_error_is_inactive;
      [reflexivity | discriminate | reflexivity].
  - reflexivity.
Defined.

(** C8 on a revocation whose token store fails. *)
Lemma revoke_endpoint_always_200_witness :
  let this := Sample.provider (Fin 3600) in
  let w := Sample.with_store_down (Sample.world_of 0 [] None) in
  tokenManager_revoke this "tok-1" w = (Throw Sample.store_error, w) /\
  exists r',
    revoke_endpoint this (Sample.post "/oauth/revoke" "tok-1") (Sample.start w)
    = (Return tt, r') /\
    statusCode (res r') = Some 200 /\
    body (res r') = Some json_object_empty /\
    Sample.reported (world r') = ["Failed to revoke token"].
Proof.
  intros this w. split; [reflexivity |].
  edestruct (revoke_endpoint_always_200 this
               (Sample.post "/oauth/revoke" "tok-1") (Sample.start w))
    as [r' [Hrun [Hstatus [Hbody _]]]];
    [reflexivity | reflexivity | reflexivity | reflexivity | reflexivity |].
  exists r'. split; [exact Hrun |]. split; [exact Hstatus |].
  split; [exact Hbody |].
  assert (Hr' : snd (revoke_endpoint this (Sample.post "/oauth/revoke" "tok-1")
                       (Sample.start w)) = r') by (rewrite Hrun; reflexivity).
  rewrite <- Hr'. reflexivity.
Defined.

(** C2 as stated fails when the request store cannot delete the request:
    on a device without session, where no session matches, a silent
    request fails with [access_denied], not with [login_required]. *)
Lemma prompt_none_fails_with_access_denied :
  let this := Sample.provider (Fin 3600) in
  let parameters := Sample.parameters_of None (Some prompt_none) in
  let w :=
    Sample.with_store_down
      (Sample.world_of 10000 [] (Some (Sample.request_of parameters))) in
  prompt parameters = Some prompt_none /\
  accountManager_list this Sample.device w = (Return [], w) /\
  requestManager_delete this (uri (Sample.request_of parameters)) w
  = (Throw Sample.store_error, w) /\
  exists e r',
    authorize this (Sample.credentials_of Sample.web_client None)
      (QueryUri "urn:ietf:params:oauth:request_uri:req-1") Sample.device
      Sample.deviceMetadata (Sample.start w) = (Throw e, r') /\
    e = AccessDeniedError_from parameters Sample.store_error None /\
    exn_error e = Some "access_denied" /\
    exn_error e <> Some "login_required".
Proof.
  intros this parameters w.
  split; [reflexivity |]. split; [reflexivity |]. split; [reflexivity |].
  eexists. eexists. split; [evaluate |].
  split; [reflexivity |]. split; [reflexivity | discriminate].
Defined.

(** C2, as the code has it, on a device with two sessions, alice (who has
    consented to the client) and bob (who has not): a hint for alice gives
    the redirect, no hint matches both sessions, a hint for bob needs
    consent and a hint for an account without a session needs login; and
    when the request store is down, the last case gives [access_denied]. *)
Lemma authorize_prompt_none_witness :
  let this := Sample.provider (Fin 3600) in
  let credentials := Sample.credentials_of Sample.web_client None in
  let query := QueryUri "urn:ietf:params:oauth:request_uri:req-1" in
  let sessions_of hint :=
    Sample.world_of 10000
      [Sample.session_of Sample.alice 5000 [id Sample.web_client];
       Sample.session_of Sample.bob 6000 []]
      (Some (Sample.request_of
               (Sample.parameters_of hint (Some prompt_none)))) in
  let at_start hint := Sample.start (sessions_of hint) in
  (exists r',
      authorize this credentials query Sample.device Sample.deviceMetadata
        (at_start (Some "did:plc:alice"))
      = (Return (ResultRedirect
                   {| rr_issuer := issuer this;
                      rr_client := Some Sample.web_client;
                      rr_parameters :=
                        Sample.parameters_of (Some "did:plc:alice")
                          (Some prompt_none);
                      redirect := RedirectCode "code-1" |}), r'))
  /\
  (exists e r',
      authorize this credentials query Sample.device Sample.deviceMetadata
        (at_start None) = (Throw e, r') /\
      exn_error e = Some "account_selection_required")
  /\
  (exists e r',
      authorize this credentials query Sample.device Sample.deviceMetadata
        (at_start (Some "did:plc:carol")) = (Throw e, r') /\
      exn_error e = Some "login_required")
  /\
  (exists e r',
      authorize this credentials query Sample.device Sample.deviceMetadata
        (at_start (Some "did:plc:bob")) = (Throw e, r') /\
      exn_error e = Some "consent_required")
  /\
  (exists e r',
      authorize this credentials query Sample.device Sample.deviceMetadata
        (Sample.start
           (Sample.with_store_down (sessions_of (Some "did:plc:carol"))))
      = (Throw e, r') /\
      exn_error e = Some "access_denied").
Proof.
  intros this credentials query sessions_of at_start.
  split; [| split; [| split; [| split]]].
  - edestruct (authorize_prompt_none this credentials query Sample.device
                 Sample.deviceMetadata (at_start (Some "did:plc:alice")))
      as [Hredirect _];
      [evaluate | evaluate | evaluate | evaluate |].
    eexists. eapply Hredirect; evaluate.
  - edestruct (authorize_prompt_none this credentials query Sample.device
                 Sample.deviceMetadata (at_start None))
      as [_ Hfail];
      [evaluate | evaluate | evaluate | evaluate |].
    edestruct Hfail as [Hselection _]; [evaluate |].
    destruct Hselection as [e [Hrun Hcode]];
      [vm_compute; reflexivity |].
    exists e. eexists. split; [exact Hrun | exact Hcode].
  - edestruct (authorize_prompt_none this credentials query Sample.device
                 Sample.deviceMetadata (at_start (Some "did:plc:carol")))
      as [_ Hfail];
      [evaluate | evaluate | evaluate | evaluate |].
    edestruct Hfail as [_ [Hlogin _]]; [evaluate |].
    destruct Hlogin as [e [Hrun Hcode]]; [left; evaluate |].
    exists e. eexists. split; [exact Hrun | exact Hcode].
  - edestruct (authorize_prompt_none this credentials query Sample.device
                 Sample.deviceMetadata (at_start (Some "did:plc:bob")))
      as [_ Hfail];
      [evaluate | evaluate | evaluate | evaluate |].
    edestruct Hfail as [_ [_ Hconsent]]; [evaluate |].
    edestruct Hconsent as [e [Hrun Hcode]];
      [evaluate | evaluate | evaluate |].
    exists e. eexists. split; [exact Hrun | exact Hcode].
  - edestruct (authorize_prompt_none this credentials query Sample.device
                 Sample.deviceMetadata
                 (Sample.start
                    (Sample.with_store_down
                       (sessions_of (Some "did:plc:carol")))))
      as [_ Hfail];
      [evaluate | evaluate | evaluate | evaluate |].
    edestruct Hfail as [_ [Hlogin _]]; [evaluate |].
    destruct Hlogin as [e [Hrun [_ Hcode]]]; [left; evaluate |].
    exists e. eexists. split; [exact Hrun | apply Hcode; reflexivity].
Defined.

(** C7 on the same device, with a hint for alice and no prompt. *)
Lemma authorize_automatic_sso_witness :
  let this := Sample.provider (Fin 3600) in
  let parameters := Sample.parameters_of (Some "did:plc:alice") None in
  exists r',
    authorize this (Sample.credentials_of Sample.web_client None)
      (QueryUri "urn:ietf:params:oauth:request_uri:req-1") Sample.device
      Sample.deviceMetadata
      (Sample.start
         (Sample.world_of 10000
            [Sample.session_of Sample.alice 5000 [id Sample.web_client];
             Sample.session_of Sample.bob 6000 []]
            (Some (Sample.request_of parameters))))
    = (Return (ResultRedirect
                 {| rr_issuer := issuer this;
                    rr_client := Some Sample.web_client;
                    rr_parameters := parameters;
                    redirect := RedirectCode "code-1" |}), r') /\
    last (calls r') call_nextDpopNonce
    = call_setAuthorized "urn:ietf:params:oauth:request_uri:req-1"
        Sample.web_client Sample.alice Sample.device Sample.deviceMetadata.
Proof.
  intros this parameters. eexists. split.
  - refine (authorize_automatic_sso this _ _ _ _ _ _ _ Sample.web_client _ _
              (Sample.request_of parameters) _ "did:plc:alice" _ "code-1"
              _ _ _ _ _ _ _ _ _); evaluate.
  - evaluate.
Defined.

(** ** Runs of the in-memory instance *)

Example split_spaces_pieces :
  split_spaces " transition:generic  atproto "
  = [EmptyString; "transition:generic"; "atproto"; EmptyString].
Proof. reflexivity. Qed.

Example scopeDetails_sorted :
  scopeDetails_of (Sample.provider (Fin 3600))
    (Some " transition:generic  atproto ")
  = Some [{| sd_scope := "atproto"; sd_description := None |};
          {| sd_scope := "transition:generic"; sd_description := None |}].
Proof. reflexivity. Qed.

(** A session as old as the maximum age needs a login; one millisecond
    younger does not. *)
Example loginRequired_at_max_age :
  let this := Sample.provider (Fin 3600) in
  let info := {| authenticatedAt := DateOf 5000; authorizedClients := [] |} in
  loginRequired this (Sample.world_of 3605000 [] None) Sample.web_client
    (Sample.parameters_of None None) info = true /\
  loginRequired this (Sample.world_of 3604999 [] None) Sample.web_client
    (Sample.parameters_of None None) info = false.
Proof. split; reflexivity. Qed.

(** The quotient and the difference round as the binary64 operations of
    the library's specification of IEEE 754 do. *)
Example quotient_rounds_as_binary64 :
  ndiv (Fin 100) (Fin 1000) = Fin (3602879701896397 # 36028797018963968) /\
  ndiv (Fin 100) (Fin 1000)
  = number_of_spec_float
      (SpecFloat.SFdiv 53 1024 (binary64_of_Z 100) (binary64_of_Z 1000)) /\
  ndiv (Fin 1) (Fin 3)
  = number_of_spec_float
      (SpecFloat.SFdiv 53 1024 (binary64_of_Z 1) (binary64_of_Z 3)) /\
  ndiv (Fin (-7)) (Fin 1000)
  = number_of_spec_float
      (SpecFloat.SFdiv 53 1024 (binary64_of_Z (-7)) (binary64_of_Z 1000)) /\
  ndiv (Fin 1730000000123) (Fin 1000)
  = number_of_spec_float
      (SpecFloat.SFdiv 53 1024 (binary64_of_Z 1730000000123)
         (binary64_of_Z 1000)) /\
  ndiv (Fin 3605000) (Fin 1000) = Fin 3605.
Proof. repeat split; vm_compute; reflexivity. Qed.

Example difference_rounds_as_binary64 :
  nsub (Fin 1730000000123) (Fin 1729999990000) = Fin 10123 /\
  nsub (number_of_Z (2 ^ 53 + 4)) (number_of_Z (- (2 ^ 53 + 2)))
  = number_of_Z (2 ^ 54 + 8) /\
  nsub (number_of_Z (2 ^ 53 + 4)) (number_of_Z (- (2 ^ 53 + 2)))
  = number_of_spec_float
      (SpecFloat.SFsub 53 1024 (binary64_of_Z (2 ^ 53 + 4))
         (binary64_of_Z (- (2 ^ 53 + 2)))).
Proof. repeat split; vm_compute; reflexivity. Qed.

(** Ties go to the even significand, the least positive double is
    [2 ^ -1074], and the first value that rounds to [Infinity] is half an
    ulp above the greatest double. *)
Example double_of_limits :
  double_of (inject_Z (2 ^ 53 + 1)) = Fin (inject_Z (2 ^ 53)) /\
  double_of (inject_Z (2 ^ 53 + 3)) = Fin (inject_Z (2 ^ 53 + 4)) /\
  double_of (pow2 (-1075)) = Fin 0 /\
  double_of (3 * pow2 (-1075)) = Fin (Qred (pow2 (-1073))) /\
  double_of (pow2 1024 - pow2 970) = PInf /\
  double_of (pow2 1024 - pow2 970 - 1) = Fin (Qred (pow2 1024 - pow2 971)).
Proof. repeat split; vm_compute; reflexivity. Qed.

(** The age is the rounded quotient: with a maximum age of [0.1], the
    double next to one tenth, a session that is 100 ms old has an age of
    that very double and needs a login, although one tenth is less. *)
Example loginRequired_rounds_the_age :
  let tenth := (3602879701896397 # 36028797018963968)%Q in
  let this := Sample.provider (Fin tenth) in
  let w := Sample.world_of 100 [] None in
  let info := {| authenticatedAt := DateOf 0; authorizedClients := [] |} in
  ndiv (Fin 1) (Fin 10) = Fin tenth /\
  ((inject_Z 100 - inject_Z 0) / 1000 < tenth)%Q /\
  authAge this w info = Fin tenth /\
  loginRequired this w Sample.web_client (Sample.parameters_of None None) info
  = true.
Proof. repeat split; vm_compute; reflexivity. Qed.

(** An invalid date needs a login even without a bound on the age. *)
Example loginRequired_invalid_date_unbounded :
  loginRequired (Sample.provider PInf) (Sample.world_of 0 [] None)
    Sample.web_client (Sample.parameters_of None None)
    {| authenticatedAt := InvalidDate; authorizedClients := [] |} = true.
Proof. reflexivity. Qed.

(** The first use of a client assertion is accepted, the second is not. *)
Example client_assertion_accepted_once :
  let this := Sample.provider (Fin 3600) in
  let credentials :=
    Sample.credentials_of Sample.web_client (Some "assertion-1") in
  fst ((authenticateClient this credentials ;;;
        authenticateClient this credentials)
         (Sample.start (Sample.world_of 0 [] None)))
  = Throw (new_error InvalidGrantError "private_key_jwt jti reused" None).
Proof. reflexivity. Qed.

(** A revocation request without a token is answered with an error. *)
Example revoke_endpoint_without_token :
  let this := Sample.provider (Fin 3600) in
  let r' := snd (revoke_endpoint this (Sample.post "/oauth/revoke" EmptyString)
                   (Sample.start (Sample.world_of 0 [] None))) in
  statusCode (res r') = Some 400 /\
  calls r' = [call_nextDpopNonce;
              call_parseHttpRequest (Sample.post "/oauth/revoke" EmptyString);
              call_onError
                (new_error InvalidRequestError
                   ("Validation of " ++ dquote ++ "token" ++ dquote
                    ++ " body parameter failed: Required")
                   (Some (ZodError [{| path := ["body"; "token"];
                                       message := "Required" |}])))
                "OAuth request error"].
Proof. split; reflexivity. Qed.

(** * Further properties of the provider *)

(** ** Reading a run backwards *)

Lemma bind_inv_Return {W A B : Type} (m : M W A) (k : A -> M W B) r b r' :
  bind m k r = (Return b, r') ->
  exists a r1, m r = (Return a, r1) /\ k a r1 = (Return b, r').
Proof.
  unfold bind. destruct (m r) as [[a | e] r1]; intros H.
  - exists a, r1. split; [reflexivity | exact H].
  - discriminate H.
Qed.

Lemma bind_inv_Throw {W A B : Type} (m : M W A) (k : A -> M W B) r e r' :
  bind m k r = (Throw e, r') ->
  m r = (Throw e, r') \/
  exists a r1, m r = (Return a, r1) /\ k a r1 = (Throw e, r').
Proof.
  unfold bind. destruct (m r) as [[a | e1] r1]; intros H.
  - right. exists a, r1. split; [reflexivity | exact H].
  - left. injection H as He Hr. subst. reflexivity.
Qed.

Lemma invoke_inv {W A : Type} (c : Call) (op : Eff W A) r o r' :
  invoke c op r = (o, r') ->
  exists w', op (world r) = (o, w') /\ r' = step r c w'.
Proof.
  unfold invoke. destruct (op (world r)) as [o1 w1]. intros H.
  injection H as Ho Hr. subst. exists w1. split; reflexivity.
Qed.

Lemma try_catch_inv_Return {W A : Type} (m : M W A) h r a r' :
  try_catch m h r = (Return a, r') ->
  m r = (Return a, r') \/
  exists err r1, m r = (Throw err, r1) /\ h err r1 = (Return a, r').
Proof.
  unfold try_catch. destruct (m r) as [[a1 | err] r1]; intros H.
  - left. exact H.
  - right. exists err, r1. split; [reflexivity | exact H].
Qed.

Lemma when_inv_Return {W : Type} (b : bool) (e : Exn) (r r' : Run W) u :
  when b (throw e) r = (Return u, r') -> b = false /\ r' = r.
Proof.
  destruct b; simpl; unfold throw, ret; intros H.
  - discriminate H.
  - injection H as _ Hr. split; [reflexivity | symmetry; exact Hr].
Qed.

Lemma when_inv_Throw {W : Type} (b : bool) (e e' : Exn) (r r' : Run W) :
  when b (throw e) r = (Throw e', r') -> b = true /\ e' = e /\ r' = r.
Proof.
  destruct b; simpl; unfold throw, ret; intros H.
  - injection H as He Hr. subst. repeat split.
  - discriminate H.
Qed.

Lemma ret_inv {W A : Type} (a b : A) (r r' : Run W) :
  ret a r = (Return b, r') -> b = a /\ r' = r.
Proof.
  unfold ret. intros H. injection H as Ha Hr. subst. split; reflexivity.
Qed.

Lemma step_calls {W : Type} (r : Run W) (c : Call) (w : W) :
  calls (step r c w) = (calls r ++ [c])%list.
Proof. reflexivity. Qed.

(** ** The token endpoint *)

Section Token.

Context {W : Type} (this : OAuthProvider W).

(** X1. Whenever [token] returns a response, the client was
    authenticated, the grant type is one that the server supports and that
    the metadata of the client allows, and it is [authorization_code] or
    [refresh_token]. *)
Theorem token_returns_checked_grant (clientCredentials : Credentials)
    (clientMetadata : RequestMetadata) (request : OAuthTokenRequest)
    (dpopJkt : option string) (r r' : Run W) (response : OAuthTokenResponse) :
  token this clientCredentials clientMetadata request dpopJkt r
  = (Return response, r') ->
  exists client clientAuth r1 supported,
    authenticateClient this clientCredentials r
    = (Return (client, clientAuth), r1) /\
    grant_types_supported this = Some supported /\
    includes supported (grant_type request) = true /\
    includes (grant_types (metadata client)) (grant_type request) = true /\
    (grant_type request = "authorization_code" \/
     grant_type request = "refresh_token").
Proof.
  intros H. unfold token in H.
  apply bind_inv_Return in H. destruct H as [[client clientAuth] [r1 [Hauth H]]].
  apply bind_inv_Return in H. destruct H as [u1 [r2 [Hserver H]]].
  apply when_inv_Return in Hserver. destruct Hserver as [Hserver Hr2].
  apply bind_inv_Return in H. destruct H as [u2 [r3 [Hclient H]]].
  apply when_inv_Return in Hclient. destruct Hclient as [Hclient Hr3].
  apply negb_false_iff in Hserver. apply negb_false_iff in Hclient.
  destruct (grant_types_supported this) as [supported |] eqn:Hsupported;
    [| discriminate Hserver].
  exists client, clientAuth, r1, supported.
  split; [exact Hauth |]. split; [reflexivity |].
  split; [exact Hserver |]. split; [exact Hclient |].
  destruct request as [input | input | g].
  - left. reflexivity.
  - right. reflexivity.
  - discriminate H.
Qed.

(** X2. A token request for the password or the client-credentials grant
    never gets a response, whatever the stores answer. *)
Theorem token_other_grant_never_succeeds (clientCredentials : Credentials)
    (clientMetadata : RequestMetadata) (g : OtherGrantType)
    (dpopJkt : option string) (r r' : Run W) (response : OAuthTokenResponse) :
  token this clientCredentials clientMetadata (OtherRequest g) dpopJkt r
  <> (Return response, r').
Proof.
  intros H. unfold token in H.
  apply bind_inv_Return in H. destruct H as [[client clientAuth] [r1 [_ H]]].
  apply bind_inv_Return in H. destruct H as [u1 [r2 [_ H]]].
  apply bind_inv_Return in H. destruct H as [u2 [r3 [_ H]]].
  discriminate H.
Qed.

(** X3. For a refresh-token grant that the server supports and the client
    is allowed, [token] ends as [tokenManager.refresh] does: its response
    or its error is passed on as it is, and nothing is revoked by the
    provider. *)
Theorem token_refresh_passes_through (clientCredentials : Credentials)
    (clientMetadata : RequestMetadata)
    (input : OAuthRefreshTokenGrantTokenRequest) (dpopJkt : option string)
    (r r1 : Run W) (client : Client) (clientAuth : ClientAuth)
    (supported : list string) (o : Outcome OAuthTokenResponse) (w2 : W) :
  authenticateClient this clientCredentials r
  = (Return (client, clientAuth), r1) ->
  grant_types_supported this = Some supported ->
  includes supported "refresh_token" = true ->
  includes (grant_types (metadata client)) "refresh_token" = true ->
  tokenManager_refresh this client clientAuth clientMetadata input dpopJkt
    (world r1) = (o, w2) ->
  token this clientCredentials clientMetadata (RefreshTokenRequest input)
    dpopJkt r
  = (o, step r1 (call_tokenManager_refresh client clientAuth input dpopJkt) w2).
Proof.
  intros Hauth Hsupported Hserver Hclient Hrefresh. unfold token.
  rewrite (bind_Return _ _ _ _ _ Hauth).
  rewrite Hsupported. simpl grant_type. rewrite Hserver, Hclient.
  simpl negb. unfold bind at 1. rewrite when_false.
  unfold bind at 1. rewrite when_false.
  unfold refreshTokenGrant. apply invoke_run. exact Hrefresh.
Qed.

End Token.

(** ** Client authentication and request objects, read backwards *)

Section AuthenticationReturns.

Context {W : Type} (this : OAuthProvider W).

(** X4. Whenever [authenticateClient] returns a client and its
    authentication, the credentials were verified for that client, a
    native client was authenticated with the [none] method, and the nonce
    of the credentials, when there is one, was accepted by the replay
    store as its last call. *)
Theorem authenticateClient_returns (credentials : Credentials) (r r' : Run W)
    (client : Client) (clientAuth : ClientAuth) :
  authenticateClient this credentials r = (Return (client, clientAuth), r') ->
  exists nonce w1 w2,
    getClient this (cred_client_id credentials) (world r)
    = (Return client, w1) /\
    verifyCredentials this client credentials (issuer this) w1
    = (Return (clientAuth, nonce), w2) /\
    (application_type (metadata client) = native ->
     method clientAuth = "none") /\
    match nonce with
    | Some n =>
        uniqueAuth this n (id client) w2 = (Return true, world r') /\
        calls r'
        = (calls r
           ++ [call_getClient (cred_client_id credentials);
               call_verifyCredentials client credentials (issuer this);
               call_uniqueAuth n (id client)])%list
    | None =>
        world r' = w2 /\
        calls r'
        = (calls r
           ++ [call_getClient (cred_client_id credentials);
               call_verifyCredentials client credentials (issuer this)])%list
    end.
Proof.
  intros H. unfold authenticateClient in H.
  apply bind_inv_Return in H. destruct H as [client0 [r1 [Hclient H]]].
  apply invoke_inv in Hclient. destruct Hclient as [w1 [Hclient Hr1]].
  apply bind_inv_Return in H.
  destruct H as [[clientAuth0 nonce] [r2 [Hverify H]]].
  apply invoke_inv in Hverify. destruct Hverify as [w2 [Hverify Hr2]].
  apply bind_inv_Return in H. destruct H as [u1 [r3 [Hnative H]]].
  apply when_inv_Return in Hnative. destruct Hnative as [Hnative Hr3].
  apply bind_inv_Return in H. destruct H as [u2 [r4 [Hnonce H]]].
  apply ret_inv in H. destruct H as [Hpair Hr']. injection Hpair as Hc Ha.
  subst client0 clientAuth0 r' r3 r2 r1.
  exists nonce, w1, w2. split; [exact Hclient |]. split; [exact Hverify |].
  split.
  - intros Happ. rewrite Happ in Hnative. simpl in Hnative.
    apply negb_false_iff in Hnative. apply String.eqb_eq. exact Hnative.
  - destruct nonce as [n |].
    + apply bind_inv_Return in Hnonce.
      destruct Hnonce as [unique [r5 [Hunique Hwhen]]].
      apply invoke_inv in Hunique. destruct Hunique as [w3 [Hunique Hr5]].
      apply when_inv_Return in Hwhen. destruct Hwhen as [Hb Hr4].
      apply negb_false_iff in Hb. subst unique r4 r5. split.
      * exact Hunique.
      * simpl. repeat rewrite <- app_assoc. reflexivity.
    + apply ret_inv in Hnonce. destruct Hnonce as [_ Hr4]. subst r4. split.
      * reflexivity.
      * simpl. repeat rewrite <- app_assoc. reflexivity.
Qed.

End AuthenticationReturns.

Section RequestObjects.

Context {W : Type} (this : OAuthProvider W).

(** X5. A request object whose payload has no [jti] (or an empty one) is
    refused with an [InvalidParametersError] before the replay store is
    asked anything. *)
Theorem decodeJAR_missing_jti (client : Client) (request : string)
    (r : Run W) (result : RequestObject) (payload : Parameters) (w1 : W) :
  decodeRequestObject this client request (world r) = (Return result, w1) ->
  oauthAuthorizationRequestParametersSchema this (claims (ro_payload result))
  = Return payload ->
  truthy (jti (ro_payload result)) = false ->
  decodeJAR this client request r
  = (Throw (new_parameters_error InvalidParametersError payload
              (Some "Request object must contain a jti claim")),
     step r (call_decodeRequestObject client request) w1).
Proof.
  intros Hdecode Hschema Hjti. unfold decodeJAR.
  rewrite (bind_Return _ _ _ _ _ (invoke_run _ _ _ _ _ Hdecode)).
  rewrite Hschema. unfold bind at 1. unfold lift_outcome.
  destruct (jti (ro_payload result)) as [j |]; simpl in Hjti.
  - rewrite Hjti. reflexivity.
  - reflexivity.
Qed.

(** X6. A signed request object whose protected header has no [kid] is
    refused with an [InvalidParametersError], after its [jti] was recorded
    by the replay store and before the thumbprint of its key is computed. *)
Theorem decodeJAR_missing_kid (client : Client) (request : string)
    (r : Run W) (payload : Parameters) (claimed : JarPayload)
    (protectedHeader : ProtectedHeader) (key j : string) (w1 w2 : W) :
  decodeRequestObject this client request (world r)
  = (Return (SignedRequestObject claimed protectedHeader key), w1) ->
  oauthAuthorizationRequestParametersSchema this (claims claimed)
  = Return payload ->
  jti claimed = Some j ->
  truthy_string j = true ->
  uniqueJar this j (id client) w1 = (Return true, w2) ->
  truthy (ph_kid protectedHeader) = false ->
  decodeJAR this client request r
  = (Throw (new_parameters_error InvalidParametersError payload
              (Some ("Missing " ++ dquote ++ "kid" ++ dquote ++ " in header"))),
     step (step r (call_decodeRequestObject client request) w1)
       (call_uniqueJar j (id client)) w2).
Proof.
  intros Hdecode Hschema Hjti Htruthy Hunique Hkid. unfold decodeJAR.
  rewrite (bind_Return _ _ _ _ _ (invoke_run _ _ _ _ _ Hdecode)).
  simpl ro_payload. rewrite Hschema, Hjti, Htruthy.
  unfold bind at 1. unfold lift_outcome.
  unfold bind at 1. unfold ret at 1.
  unfold bind at 1. unfold invoke at 1. cbn [world step].
  rewrite Hunique. cbn [negb]. unfold bind at 1. rewrite when_false.
  rewrite Hkid. reflexivity.
Qed.


(** X7. Whenever [decodeJAR] returns, the request object held a non-empty
    [jti] that the replay store accepted for this client, and the result
    has a protected header exactly when it has a key thumbprint, the header
    then holding a non-empty [kid]. *)
Theorem decodeJAR_returns (client : Client) (request : string) (r r' : Run W)
    (decoded : DecodedJAR) :
  decodeJAR this client request r = (Return decoded, r') ->
  exists result j w1 w2,
    decodeRequestObject this client request (world r) = (Return result, w1) /\
    oauthAuthorizationRequestParametersSchema this (claims (ro_payload result))
    = Return (jar_payload decoded) /\
    jti (ro_payload result) = Some j /\
    truthy_string j = true /\
    uniqueJar this j (id client) w1 = (Return true, w2) /\
    match jar_protectedHeader decoded, jar_jkt decoded with
    | Some protectedHeader, Some _ => truthy (ph_kid protectedHeader) = true
    | None, None => True
    | _, _ => False
    end.
Proof.
  intros H. unfold decodeJAR in H.
  apply bind_inv_Return in H. destruct H as [result [r1 [Hdecode H]]].
  apply invoke_inv in Hdecode. destruct Hdecode as [w1 [Hdecode Hr1]].
  apply bind_inv_Return in H. destruct H as [payload [r2 [Hschema H]]].
  unfold lift_outcome in Hschema. injection Hschema as Hschema Hr2.
  apply bind_inv_Return in H. destruct H as [j [r3 [Hjti H]]].
  apply bind_inv_Return in H. destruct H as [unique [r4 [Hunique H]]].
  apply invoke_inv in Hunique. destruct Hunique as [w2 [Hunique Hr4]].
  apply bind_inv_Return in H. destruct H as [u [r5 [Hwhen H]]].
  apply when_inv_Return in Hwhen. destruct Hwhen as [Hb Hr5].
  apply negb_false_iff in Hb. subst unique.
  destruct (jti (ro_payload result)) as [j0 |] eqn:Hj; [| discriminate Hjti].
  destruct (truthy_string j0) eqn:Htruthy; [| discriminate Hjti].
  apply ret_inv in Hjti. destruct Hjti as [Hj0 Hr3]. subst j r3 r2 r1.
  exists result, j0, w1, w2.
  assert (Hpayload : jar_payload decoded = payload /\
            match jar_protectedHeader decoded, jar_jkt decoded with
            | Some protectedHeader, Some _ =>
                truthy (ph_kid protectedHeader) = true
            | None, None => True
            | _, _ => False
            end).
  { destruct result as [claimed protectedHeader key | claimed].
    - apply bind_inv_Return in H. destruct H as [u1 [r6 [Hkid H]]].
      apply when_inv_Return in Hkid. destruct Hkid as [Hkid Hr6].
      apply negb_false_iff in Hkid.
      apply bind_inv_Return in H. destruct H as [thumbprint [r7 [_ H]]].
      apply ret_inv in H. destruct H as [Hd _]. subst decoded.
      split; [reflexivity | exact Hkid].
    - apply ret_inv in H. destruct H as [Hd _]. subst decoded.
      split; [reflexivity | exact I]. }
  destruct Hpayload as [Hp Hheader]. rewrite Hp.
  split; [exact Hdecode |]. split; [exact Hschema |].
  split; [exact Hj |]. split; [exact Htruthy |].
  split; [exact Hunique | exact Hheader].
Qed.

End RequestObjects.

(** ** Pushed authorization requests, read backwards *)

Section PushedReturns.

Context {W : Type} (this : OAuthProvider W).

(** X8. [pushedAuthorizationRequest] never fails with an access-denied
    error: what leaves it is either the [InvalidRequestError] that
    replaces one, or an error of another kind. *)
Theorem par_never_access_denied (credentials : Credentials)
    (authorizationRequest : OAuthAuthorizationRequestPar)
    (dpopJkt : option string) (r r' : Run W) (e : Exn) :
  pushedAuthorizationRequest this credentials authorizationRequest dpopJkt r
  = (Throw e, r') ->
  instanceof_AccessDeniedError e = false.
Proof.
  intros H. unfold pushedAuthorizationRequest in H.
  apply try_catch_inv in H. destruct H as [err [r1 [_ H]]].
  destruct (instanceof_AccessDeniedError err) eqn:Hclass;
    unfold throw in H; injection H as He _; subst e.
  - reflexivity.
  - exact Hclass.
Qed.

(** X9. Whenever [pushedAuthorizationRequest] returns, its last call
    created the authorization request for the authenticated client, bound
    to no device and to the DPoP key of the request, and the response
    holds the [uri] of that request. *)
Theorem par_returns (credentials : Credentials)
    (authorizationRequest : OAuthAuthorizationRequestPar)
    (dpopJkt : option string) (r r' : Run W) (response : OAuthParResponse) :
  pushedAuthorizationRequest this credentials authorizationRequest dpopJkt r
  = (Return response, r') ->
  exists client clientAuth parameters created r1 r2,
    authenticateClient this credentials r = (Return (client, clientAuth), r1) /\
    createAuthorizationRequest this client clientAuth parameters None dpopJkt
      (world r2) = (Return created, world r') /\
    r' = step r2 (call_createAuthorizationRequest client clientAuth parameters
                    None dpopJkt) (world r') /\
    request_uri response = uri created /\
    par_expires_in response
    = dateToRelativeSeconds this (expiresAt created) (world r') /\
    match authorizationRequest with
    | ParParameters p => parameters = p /\ r2 = r1
    | ParJar request =>
        exists decoded,
          decodeJAR this client request r1 = (Return decoded, r2) /\
          parameters = jar_payload decoded
    end.
Proof.
  intros H. unfold pushedAuthorizationRequest in H.
  apply try_catch_inv_Return in H. destruct H as [H | [err [r0 [_ H]]]].
  - unfold pushedAuthorizationRequest_body in H.
    apply bind_inv_Return in H.
    destruct H as [[client clientAuth] [r1 [Hauth H]]].
    apply bind_inv_Return in H. destruct H as [parameters [r2 [Hparams H]]].
    apply bind_inv_Return in H. destruct H as [created [r3 [Hcreate H]]].
    apply invoke_inv in Hcreate. destruct Hcreate as [w3 [Hcreate Hr3]].
    apply bind_inv_Return in H. destruct H as [expires [r4 [Hexpires H]]].
    unfold read_world in Hexpires. injection Hexpires as Hexpires Hr4.
    apply ret_inv in H. destruct H as [Hresponse Hr']. subst.
    exists client, clientAuth, parameters, created, r1, r2.
    split; [exact Hauth |]. split; [exact Hcreate |].
    split; [reflexivity |]. split; [reflexivity |]. split; [reflexivity |].
    destruct authorizationRequest as [p | request].
    + apply ret_inv in Hparams. destruct Hparams as [Hp Hr2].
      split; assumption.
    + apply bind_inv_Return in Hparams.
      destruct Hparams as [decoded [r5 [Hjar Hret]]].
      apply ret_inv in Hret. destruct Hret as [Hp Hr2]. subst.
      exists decoded. split; [exact Hjar | reflexivity].
  - destruct (instanceof_AccessDeniedError err); discriminate H.
Qed.

End PushedReturns.

(** ** The request of the authorization endpoint *)

Section ProcessRequest.

Context {W : Type} (this : OAuthProvider W).


(** A [request_uri] that the schema refuses makes
    [processAuthorizationRequest] fail with an [InvalidRequestError] that
    keeps the schema error as its cause; the request store is not asked. *)
Lemma processAuthorizationRequest_invalid_uri (client : Client)
    (deviceId : DeviceId) (request_uri : string) (r : Run W) (err : Exn) :
  requestUriSchema this request_uri = Throw err ->
  processAuthorizationRequest this client deviceId (QueryUri request_uri) r
  = (Throw (new_error InvalidRequestError
              (or_else (extractZodErrorMessage err) "Input validation error")
              (Some err)), r).
Proof.
  intros Hparse. unfold processAuthorizationRequest. rewrite Hparse.
  reflexivity.
Qed.

End ProcessRequest.

(** ** The sessions of a device *)

Lemma count_matching {A : Type} (p : A -> bool) (l : list A) (z : Z) :
  fold_left (fun acc a => acc + (if p a then 1 else 0)) l z
  = z + Z.of_nat (length (filter p l)).
Proof.
  revert z. induction l as [| a l IH]; intros z; simpl.
  - lia.
  - rewrite IH. destruct (p a); simpl length; lia.
Qed.

Lemma filter_map_commute {A B : Type} (f : A -> B) (p : B -> bool)
    (l : list A) :
  filter p (map f l) = map f (filter (fun a => p (f a)) l).
Proof.
  induction l as [| a l IH]; simpl; [reflexivity |].
  destruct (p (f a)); simpl; rewrite IH; reflexivity.
Qed.

Lemma filter_length_le {A : Type} (p q : A -> bool) (l : list A) :
  (forall a, p a = true -> q a = true) ->
  (length (filter p l) <= length (filter q l))%nat.
Proof.
  intros Himp. induction l as [| a l IH]; simpl; [lia |].
  destruct (p a) eqn:Hp.
  - rewrite (Himp a Hp). simpl. lia.
  - destruct (q a); simpl; lia.
Qed.

Lemma filter_none {A : Type} (p : A -> bool) (l : list A) :
  (forall a, p a = false) -> filter p l = [].
Proof.
  intros Hp. induction l as [| a l IH]; simpl; [reflexivity |].
  rewrite (Hp a). exact IH.
Qed.

Section Sessions.

Context {W : Type} (this : OAuthProvider W).

Variables (client : Client) (clientAuth : ClientAuth) (deviceId : DeviceId)
  (parameters : Parameters).

(** What [getSessions] returns: one session for each account that the
    account manager lists, in the same order. *)
Lemma getSessions_inv (r r' : Run W) (sessions : list Session) :
  getSessions this client clientAuth deviceId parameters r
  = (Return sessions, r') ->
  exists accounts,
    accountManager_list this deviceId (world r) = (Return accounts, world r') /\
    r' = step r (call_accountManager_list deviceId) (world r') /\
    sessions
    = map
        (fun ai : Account * DeviceAccountInfo =>
           {| account := fst ai;
              s_info := snd ai;
              selected :=
                negb (prompt_is (prompt parameters) prompt_select_account)
                && account_matchesHint (login_hint parameters) (fst ai)
                && (fold_left
                      (fun acc a =>
                         acc + (if account_matchesHint (login_hint parameters)
                                     (fst a)
                                then 1 else 0))
                      accounts 0 =? 1);
              s_loginRequired :=
                prompt_is (prompt parameters) prompt_login
                || loginRequired this (world r') client parameters (snd ai);
              consentRequired :=
                prompt_is (prompt parameters) prompt_consent
                || negb (includes (authorizedClients (snd ai)) (id client));
              matchesHint :=
                match login_hint parameters with
                | None => true
                | Some _ =>
                    account_matchesHint (login_hint parameters) (fst ai)
                end |})
        accounts.
Proof.
  intros H. unfold getSessions in H.
  apply bind_inv_Return in H. destruct H as [accounts [r1 [Hlist H]]].
  apply invoke_inv in Hlist. destruct Hlist as [w1 [Hlist Hr1]]. subst r1.
  apply bind_inv_Return in H. destruct H as [w [r2 [Hw H]]].
  unfold read_world in Hw. injection Hw as Hw Hr2. subst w r2.
  apply ret_inv in H. destruct H as [Hsessions Hr']. subst r'.
  exists accounts. split; [exact Hlist |]. split; [reflexivity |].
  rewrite Hsessions. apply map_ext. intros [a i]. reflexivity.
Qed.

(** A selected session matches a hint that the request has. *)
Lemma getSessions_selected_inv (r r' : Run W) (sessions : list Session) :
  getSessions this client clientAuth deviceId parameters r
  = (Return sessions, r') ->
  forall s, In s sessions -> selected s = true ->
            matchesHint s = true /\
            login_hint parameters <> None /\
            prompt parameters <> Some prompt_select_account.
Proof.
  intros H. apply getSessions_inv in H.
  destruct H as [accounts [_ [_ Hsessions]]]. subst sessions.
  intros s Hin Hselected. apply in_map_iff in Hin.
  destruct Hin as [ai [Hs _]]. subst s. cbn [selected matchesHint] in *.
  apply andb_true_iff in Hselected. destruct Hselected as [Hselected _].
  apply andb_true_iff in Hselected. destruct Hselected as [Hprompt Hmatch].
  assert (Hhint : login_hint parameters <> None).
  { intros Hnone. rewrite Hnone in Hmatch.
    unfold account_matchesHint, strict_eq_opt in Hmatch.
    rewrite andb_false_r in Hmatch. simpl in Hmatch.
    rewrite andb_comm in Hmatch.
    destruct (preferred_username (fst ai)); discriminate Hmatch. }
  split; [| split].
  - destruct (login_hint parameters); [exact Hmatch | reflexivity].
  - exact Hhint.
  - intros Hselect. rewrite Hselect in Hprompt. discriminate Hprompt.
Qed.

(** X11. Among the sessions that [getSessions] returns, at most one is
    selected, and a selected session matches the login hint of a request
    that has one and does not ask for [select_account]. *)
Theorem getSessions_at_most_one_selected (r r' : Run W)
    (sessions : list Session) :
  getSessions this client clientAuth deviceId parameters r
  = (Return sessions, r') ->
  (length (filter selected sessions) <= 1)%nat /\
  forall s, In s sessions -> selected s = true ->
            matchesHint s = true /\
            login_hint parameters <> None /\
            prompt parameters <> Some prompt_select_account.
Proof.
  intros H. split; [| exact (getSessions_selected_inv r r' sessions H)].
  apply getSessions_inv in H.
  destruct H as [accounts [_ [_ Hsessions]]]. subst sessions.
  rewrite filter_map_commute, length_map. cbn [selected].
  rewrite count_matching. rewrite Z.add_0_l.
  destruct (Z.of_nat
              (length
                 (filter
                    (fun a => account_matchesHint (login_hint parameters)
                                (fst a)) accounts)) =? 1) eqn:Hcount.
  - apply Z.eqb_eq in Hcount.
    assert (Hone : length
                     (filter
                        (fun a => account_matchesHint (login_hint parameters)
                                    (fst a)) accounts) = 1%nat) by lia.
    rewrite <- Hone. apply filter_length_le. intros a Ha.
    rewrite andb_true_r in Ha. apply andb_true_iff in Ha. apply Ha.
  - rewrite filter_none; [simpl; lia |].
    intros a. rewrite andb_false_r. reflexivity.
Qed.

(** X12. The prompt of the request overrides the state of the sessions
    that [getSessions] returns: with [prompt=login] every session needs a
    login, with [prompt=consent] every session needs consent, and with
    [prompt=select_account] no session is selected. *)
Theorem getSessions_prompt_forces (r r' : Run W) (sessions : list Session) :
  getSessions this client clientAuth deviceId parameters r
  = (Return sessions, r') ->
  (prompt parameters = Some prompt_login ->
   forall s, In s sessions -> s_loginRequired s = true) /\
  (prompt parameters = Some prompt_consent ->
   forall s, In s sessions -> consentRequired s = true) /\
  (prompt parameters = Some prompt_select_account ->
   forall s, In s sessions -> selected s = false).
Proof.
  intros H. apply getSessions_inv in H.
  destruct H as [accounts [_ [_ Hsessions]]]. subst sessions.
  split; [| split]; intros Hprompt s Hin; apply in_map_iff in Hin;
    destruct Hin as [ai [Hs _]]; subst s; rewrite Hprompt; reflexivity.
Qed.

(** Without a login hint, every session that [getSessions] returns
    matches and none is selected. *)
Lemma getSessions_without_hint (r r' : Run W) (sessions : list Session) :
  getSessions this client clientAuth deviceId parameters r
  = (Return sessions, r') ->
  login_hint parameters = None ->
  forall s, In s sessions -> matchesHint s = true /\ selected s = false.
Proof.
  intros H Hhint s Hin.
  pose proof (getSessions_selected_inv r r' sessions H) as Hselected.
  split.
  - apply getSessions_inv in H.
    destruct H as [accounts [_ [_ Hsessions]]]. subst sessions.
    apply in_map_iff in Hin. destruct Hin as [ai [Hs _]]. subst s.
    cbn [matchesHint]. rewrite Hhint. reflexivity.
  - destruct (selected s) eqn:Hs; [| reflexivity].
    destruct (Hselected s Hin Hs) as [_ [Hsome _]]. contradiction.
Qed.

(** X13. A session that [getSessions] reports as needing no login belongs
    to a request without [prompt=login] and is fresh by [loginRequired]; one
    that it reports as needing no consent belongs to a request without
    [prompt=consent] and to an account that has authorized the client,
    whether the client is first party or not. *)
Theorem getSessions_eligibility (r r' : Run W) (sessions : list Session) :
  getSessions this client clientAuth deviceId parameters r
  = (Return sessions, r') ->
  forall s, In s sessions ->
    (s_loginRequired s = false ->
     prompt parameters <> Some prompt_login /\
     loginRequired this (world r') client parameters (s_info s) = false) /\
    (consentRequired s = false ->
     prompt parameters <> Some prompt_consent /\
     includes (authorizedClients (s_info s)) (id client) = true).
Proof.
  intros H s Hin. apply getSessions_inv in H.
  destruct H as [accounts [_ [_ Hsessions]]]. subst sessions.
  apply in_map_iff in Hin. destruct Hin as [ai [Hs _]]. subst s.
  cbn [s_loginRequired consentRequired s_info]. split; intros Hfalse;
    apply orb_false_iff in Hfalse; destruct Hfalse as [Hprompt Hrest].
  - split; [| exact Hrest].
    intros Heq. rewrite Heq in Hprompt. discriminate Hprompt.
  - split; [| apply negb_false_iff; exact Hrest].
    intros Heq. rewrite Heq in Hprompt. discriminate Hprompt.
Qed.

End Sessions.

(** ** The authorization endpoint, read backwards *)

Section AuthorizeReturns.

Context {W : Type} (this : OAuthProvider W).

Lemma catch_with_accessDeniedCatcher_inv {A : Type} (m : M W A)
    (query : OAuthAuthorizationRequestQuery) (r r' : Run W) (a : A) :
  catch_with m (accessDeniedCatcher query) r = (Return a, r') ->
  m r = (Return a, r').
Proof.
  unfold accessDeniedCatcher.
  destruct query as [p | jar | request_uri]; simpl; try (intros H; exact H).
  destruct (redirect_uri p); simpl; [| intros H; exact H].
  intros H. apply try_catch_inv_Return in H.
  destruct H as [H | [err [r1 [_ H]]]]; [exact H | discriminate H].
Qed.

(** A result of [authorize] is a result of the body of its [try]. *)
Lemma authorize_inv_Return (clientCredentials : Credentials)
    (query : OAuthAuthorizationRequestQuery) (deviceId : DeviceId)
    (deviceMetadata : RequestMetadata) (r r' : Run W)
    (result : AuthorizationResult) :
  authorize this clientCredentials query deviceId deviceMetadata r
  = (Return result, r') ->
  exists client request w1 r2,
    getClient this (cred_client_id clientCredentials) (world r)
    = (Return client, w1) /\
    processAuthorizationRequest this client deviceId query
      (step r (call_getClient (cred_client_id clientCredentials)) w1)
    = (Return request, r2) /\
    authorize_body this client (ri_clientAuth request) (ri_parameters request)
      (uri request) deviceId deviceMetadata r2 = (Return result, r').
Proof.
  intros H. unfold authorize in H.
  apply bind_inv_Return in H. destruct H as [client [r1 [Hclient H]]].
  apply catch_with_accessDeniedCatcher_inv in Hclient.
  apply invoke_inv in Hclient. destruct Hclient as [w1 [Hclient Hr1]].
  subst r1.
  apply bind_inv_Return in H. destruct H as [request [r2 [Hrequest H]]].
  apply catch_with_accessDeniedCatcher_inv in Hrequest.
  apply try_catch_inv_Return in H. destruct H as [H | [err [r3 [_ H]]]].
  - exists client, request, w1, r2.
    split; [exact Hclient |]. split; [exact Hrequest | exact H].
  - apply bind_inv_Return in H. destruct H as [u [r4 [_ H]]].
    discriminate H.
Qed.

(** The three ways in which the body of [authorize] returns. *)
Lemma authorize_body_inv_Return (client : Client) (clientAuth : ClientAuth)
    (parameters : Parameters) (uri : RequestUri) (deviceId : DeviceId)
    (deviceMetadata : RequestMetadata) (r r' : Run W)
    (result : AuthorizationResult) :
  authorize_body this client clientAuth parameters uri deviceId deviceMetadata r
  = (Return result, r') ->
  exists sessions r3,
    getSessions this client clientAuth deviceId parameters r
    = (Return sessions, r3) /\
    ((exists s code,
         (prompt parameters = Some prompt_none \/
          (prompt parameters = None /\ login_hint parameters <> None)) /\
         filter matchesHint sessions = [s] /\
         s_loginRequired s = false /\
         consentRequired s = false /\
         setAuthorized this uri client (account s) deviceId deviceMetadata
           (world r3) = (Return code, world r') /\
         r' = step r3 (call_setAuthorized uri client (account s) deviceId
                         deviceMetadata) (world r') /\
         result
         = ResultRedirect
             {| rr_issuer := issuer this; rr_client := Some client;
                rr_parameters := parameters; redirect := RedirectCode code |})
     \/
     (prompt parameters <> Some prompt_none /\
      automatic_sso parameters sessions = None /\
      r' = r3 /\
      result
      = ResultAuthorize
          {| ra_issuer := issuer this; ra_client := client;
             ra_parameters := parameters; ra_uri := uri;
             sessions := sessions;
             scopeDetails := scopeDetails_of this (scope parameters) |})).
Proof.
  intros H. unfold authorize_body in H.
  apply bind_inv_Return in H. destruct H as [sessions [r3 [Hsessions H]]].
  exists sessions, r3. split; [exact Hsessions |].
  destruct (prompt_is (prompt parameters) prompt_none) eqn:Hprompt.
  - left.
    assert (Hnone : prompt parameters = Some prompt_none).
    { destruct (prompt parameters) as [[| | |] |]; try discriminate Hprompt.
      reflexivity. }
    apply bind_inv_Return in H. destruct H as [u1 [r4 [Hmany H]]].
    apply when_inv_Return in Hmany. destruct Hmany as [Hmany Hr4]. subst r4.
    apply bind_inv_Return in H. destruct H as [u2 [r5 [Hfew H]]].
    apply when_inv_Return in Hfew. destruct Hfew as [Hfew Hr5]. subst r5.
    destruct (filter matchesHint sessions) as [| s rest] eqn:Hfilter;
      [discriminate H |].
    destruct rest as [| s' rest]; [| discriminate Hmany].
    apply bind_inv_Return in H. destruct H as [u3 [r6 [Hlogin H]]].
    apply when_inv_Return in Hlogin. destruct Hlogin as [Hlogin Hr6]. subst r6.
    apply bind_inv_Return in H. destruct H as [u4 [r7 [Hconsent H]]].
    apply when_inv_Return in Hconsent. destruct Hconsent as [Hconsent Hr7].
    subst r7.
    apply bind_inv_Return in H. destruct H as [code [r8 [Hset H]]].
    apply invoke_inv in Hset. destruct Hset as [w4 [Hset Hr8]]. subst r8.
    apply ret_inv in H. destruct H as [Hresult Hr']. subst r' result.
    exists s, code. split; [left; exact Hnone |].
    split; [reflexivity |]. split; [exact Hlogin |].
    split; [exact Hconsent |]. split; [exact Hset |].
    split; reflexivity.
  - assert (Hnot : prompt parameters <> Some prompt_none).
    { intros Heq. rewrite Heq in Hprompt. discriminate Hprompt. }
    destruct (automatic_sso parameters sessions) as [s |] eqn:Hsso.
    + left.
      apply bind_inv_Return in H. destruct H as [code [r8 [Hset H]]].
      apply invoke_inv in Hset. destruct Hset as [w4 [Hset Hr8]]. subst r8.
      apply ret_inv in H. destruct H as [Hresult Hr']. subst r' result.
      unfold automatic_sso in Hsso.
      destruct (prompt parameters) as [p |] eqn:Hp; [discriminate Hsso |].
      destruct (login_hint parameters) as [hint |] eqn:Hhint;
        [| discriminate Hsso].
      destruct (filter matchesHint sessions) as [| s0 rest] eqn:Hfilter;
        [discriminate Hsso |].
      destruct rest as [| s1 rest]; [| discriminate Hsso].
      simpl in Hsso.
      destruct (s_loginRequired s0) eqn:Hlogin; [discriminate Hsso |].
      destruct (consentRequired s0) eqn:Hconsent; [discriminate Hsso |].
      simpl in Hsso. injection Hsso as Hs. subst s0.
      exists s, code. split; [right; split; [reflexivity | discriminate] |].
      split; [reflexivity |]. split; [exact Hlogin |].
      split; [exact Hconsent |]. split; [exact Hset |].
      split; reflexivity.
    + right. apply ret_inv in H. destruct H as [Hresult Hr'].
      split; [exact Hnot |]. split; [reflexivity |].
      split; assumption.
Qed.

(** X14. [authorize] never issues a code without a fresh, consented
    session: whenever it returns a redirect, the request has
    [prompt=none], or no prompt and a login hint; the redirect carries the
    code that [setAuthorized], its last call, returned; the account it was
    called for is one that the account manager lists for the device; its
    session is fresh by [loginRequired]; and it has authorized the client. *)
Theorem authorize_redirect_is_safe (clientCredentials : Credentials)
    (query : OAuthAuthorizationRequestQuery) (deviceId : DeviceId)
    (deviceMetadata : RequestMetadata) (r r' : Run W)
    (redirected : AuthorizationResultRedirect) :
  authorize this clientCredentials query deviceId deviceMetadata r
  = (Return (ResultRedirect redirected), r') ->
  exists client request accounts acc info code r2 r3,
    accountManager_list this deviceId (world r2) = (Return accounts, world r3) /\
    In (acc, info) accounts /\
    loginRequired this (world r3) client (ri_parameters request) info = false /\
    includes (authorizedClients info) (id client) = true /\
    (prompt (ri_parameters request) = Some prompt_none \/
     (prompt (ri_parameters request) = None /\
      login_hint (ri_parameters request) <> None)) /\
    setAuthorized this (uri request) client acc deviceId deviceMetadata
      (world r3) = (Return code, world r') /\
    r' = step r3 (call_setAuthorized (uri request) client acc deviceId
                    deviceMetadata) (world r') /\
    redirected
    = {| rr_issuer := issuer this; rr_client := Some client;
         rr_parameters := ri_parameters request;
         redirect := RedirectCode code |}.
Proof.
  intros H. apply authorize_inv_Return in H.
  destruct H as [client [request [w1 [r2 [_ [_ H]]]]]].
  apply authorize_body_inv_Return in H.
  destruct H as [sessions [r3 [Hsessions [Hredirect | Hpage]]]].
  - destruct Hredirect
      as [s [code [Hprompt [Hone [Hlogin [Hconsent [Hset [Hr' Hresult]]]]]]]].
    injection Hresult as Hresult.
    assert (Hin : In s sessions).
    { apply (proj1 (filter_In matchesHint s sessions)). rewrite Hone.
      left. reflexivity. }
    apply getSessions_inv in Hsessions.
    destruct Hsessions as [accounts [Hlist [_ Hmap]]]. subst sessions.
    apply in_map_iff in Hin. destruct Hin as [[acc info] [Hs Hin]].
    subst s. cbn [s_loginRequired consentRequired account fst snd] in *.
    apply orb_false_iff in Hlogin. destruct Hlogin as [_ Hlogin].
    apply orb_false_iff in Hconsent. destruct Hconsent as [_ Hconsent].
    apply negb_false_iff in Hconsent.
    exists client, request, accounts, acc, info, code, r2, r3.
    split; [exact Hlist |]. split; [exact Hin |]. split; [exact Hlogin |].
    split; [exact Hconsent |]. split; [exact Hprompt |].
    split; [exact Hset |]. split; [exact Hr' | exact Hresult].
  - destruct Hpage as [_ [_ [_ Hresult]]]. discriminate Hresult.
Qed.


(** The [catch] of [authorize], whatever the deletion of the request
    gives. *)
Lemma authorize_catch_run {A : Type} (uri : RequestUri)
    (parameters : Parameters) (err : Exn) (r : Run W) (o : Outcome unit)
    (w' : W) :
  requestManager_delete this uri (world r) = (o, w') ->
  (deleteRequest this uri parameters ;;;
   @throw W A (AccessDeniedError_from parameters err None)) r
  = (Throw (AccessDeniedError_from parameters
              (match o with Return _ => err | Throw failure => failure end)
              None),
     step r (call_requestManager_delete uri) w').
Proof.
  intros Hdelete. destruct o as [[] | failure].
  - unfold deleteRequest.
    rewrite (bind_Return _ _ _ _ _
               (try_catch_Return _ _ _ _ _ (invoke_run _ _ _ _ _ Hdelete))).
    reflexivity.
  - unfold deleteRequest. apply bind_Throw.
    rewrite (try_catch_Throw _ _ _ _ _ (invoke_run _ _ _ _ _ Hdelete)).
    reflexivity.
Qed.

(** X16. Once the client and the request are resolved, [authorize] fails
    exactly when the body of its [try] fails, and then the request has been
    deleted from the request store, as the last call before the error
    leaves: the error of the body, or the one of the deletion when it
    fails, made an access-denied error by [AccessDeniedError.from]. *)
Theorem authorize_failure_deletes_request (clientCredentials : Credentials)
    (query : OAuthAuthorizationRequestQuery) (deviceId : DeviceId)
    (deviceMetadata : RequestMetadata) (r r2 r' : Run W) (client : Client)
    (w1 : W) (request : RequestInfo) (e : Exn) :
  getClient this (cred_client_id clientCredentials) (world r)
  = (Return client, w1) ->
  processAuthorizationRequest this client deviceId query
    (step r (call_getClient (cred_client_id clientCredentials)) w1)
  = (Return request, r2) ->
  (authorize this clientCredentials query deviceId deviceMetadata r
   = (Throw e, r')
   <->
   exists err r3 o w4,
     authorize_body this client (ri_clientAuth request) (ri_parameters request)
       (uri request) deviceId deviceMetadata r2 = (Throw err, r3) /\
     requestManager_delete this (uri request) (world r3) = (o, w4) /\
     r' = step r3 (call_requestManager_delete (uri request)) w4 /\
     e = AccessDeniedError_from (ri_parameters request)
           (match o with Return _ => err | Throw failure => failure end)
           None).
Proof.
  intros Hclient Hrequest.
  rewrite (authorize_processed this _ _ _ deviceMetadata _ _ _ _ _ Hclient
             Hrequest).
  split.
  - intros H. apply try_catch_inv in H. destruct H as [err [r3 [Hbody H]]].
    destruct (requestManager_delete this (uri request) (world r3))
      as [o w4] eqn:Hdelete.
    rewrite (authorize_catch_run _ _ _ _ _ _ Hdelete) in H.
    injection H as He Hr'. exists err, r3, o, w4.
    split; [exact Hbody |]. split; [exact Hdelete |].
    split; symmetry; assumption.
  - intros [err [r3 [o [w4 [Hbody [Hdelete [Hr' He]]]]]]]. subst r' e.
    rewrite (try_catch_Throw _ _ _ _ _ Hbody).
    apply authorize_catch_run. exact Hdelete.
Qed.

End AuthorizeReturns.

(** ** Accepting and rejecting a request *)

Section AcceptReject.

Context {W : Type} (this : OAuthProvider W).

Variables (requestUri : RequestUri) (deviceId : DeviceId)
  (deviceMetadata : RequestMetadata).

(** X17. Accepting a request for an account whose session is not fresh
    fails with [login_required]: the request is deleted, and neither
    [setAuthorized] nor [addAuthorizedClient] is called. *)
Theorem acceptRequest_stale_session (subject : string) (r : Run W)
    (request : RequestInfo) (client : Client) (acc : Account)
    (info : DeviceAccountInfo) (w1 w2 w3 w4 : W) :
  requestManager_get this requestUri deviceId None (world r)
  = (Return request, w1) ->
  getClient this (clientId request) w1 = (Return client, w2) ->
  accountManager_get this deviceId subject w2 = (Return (acc, info), w3) ->
  loginRequired this w3 client (ri_parameters request) info = true ->
  requestManager_delete this requestUri w3 = (Return tt, w4) ->
  acceptRequest this requestUri deviceId deviceMetadata subject r
  = (Throw (new_parameters_error LoginRequiredError (ri_parameters request)
              (Some "Account authentication required.")),
     step (step (step (step r
                         (call_requestManager_get requestUri deviceId None) w1)
                   (call_getClient (clientId request)) w2)
             (call_accountManager_get deviceId subject) w3)
       (call_requestManager_delete requestUri) w4).
Proof.
  intros Hget Hclient Haccount Hstale Hdelete. unfold acceptRequest.
  rewrite (bind_Return _ _ _ _ _ (invoke_run _ _ _ _ _ Hget)).
  assert (Hclient' :
            getClient this (clientId request)
              (world (step r (call_requestManager_get requestUri deviceId None)
                        w1)) = (Return client, w2)) by exact Hclient.
  rewrite (bind_Return _ _ _ _ _ (invoke_run _ _ _ _ _ Hclient')).
  match goal with
  | |- try_catch ?m ?h ?r0 = _ =>
      assert (Hbody :
                m r0
                = (Throw (new_parameters_error LoginRequiredError
                            (ri_parameters request)
                            (Some "Account authentication required.")),
                   step r0 (call_accountManager_get deviceId subject) w3))
  end.
  { assert (Haccount' :
              accountManager_get this deviceId subject
                (world (step (step r (call_requestManager_get requestUri
                                        deviceId None) w1)
                          (call_getClient (clientId request)) w2))
              = (Return (acc, info), w3)) by exact Haccount.
    rewrite (bind_Return _ _ _ _ _ (invoke_run _ _ _ _ _ Haccount')).
    unfold bind at 1. unfold read_world. cbn [world step].
    rewrite Hstale. reflexivity. }
  rewrite (try_catch_Throw _ _ _ _ _ Hbody).
  apply (authorize_catch this); [reflexivity | exact Hdelete].
Qed.

(** X18. Whenever [acceptRequest] returns, the request was loaded for
    the device, the account is the one that the account manager holds for
    the device under the given [sub], its session was fresh by
    [loginRequired], [setAuthorized] returned the code of the redirect, and
    the client was then recorded as authorized for the account, as the last
    call. *)
Theorem acceptRequest_returns (subject : string) (r r' : Run W)
    (redirected : AuthorizationResultRedirect) :
  acceptRequest this requestUri deviceId deviceMetadata subject r
  = (Return redirected, r') ->
  exists request client acc info code w1 w2 w3 w4,
    requestManager_get this requestUri deviceId None (world r)
    = (Return request, w1) /\
    getClient this (clientId request) w1 = (Return client, w2) /\
    accountManager_get this deviceId subject w2 = (Return (acc, info), w3) /\
    loginRequired this w3 client (ri_parameters request) info = false /\
    setAuthorized this requestUri client acc deviceId deviceMetadata w3
    = (Return code, w4) /\
    addAuthorizedClient this deviceId acc client (ri_clientAuth request) w4
    = (Return tt, world r') /\
    calls r'
    = (calls r
       ++ [call_requestManager_get requestUri deviceId None;
           call_getClient (clientId request);
           call_accountManager_get deviceId subject;
           call_setAuthorized requestUri client acc deviceId deviceMetadata;
           call_addAuthorizedClient deviceId acc client
             (ri_clientAuth request)])%list /\
    redirected
    = {| rr_issuer := issuer this; rr_client := None;
         rr_parameters := ri_parameters request;
         redirect := RedirectCode code |}.
Proof.
  intros H. unfold acceptRequest in H.
  apply bind_inv_Return in H. destruct H as [request [r1 [Hget H]]].
  apply invoke_inv in Hget. destruct Hget as [w1 [Hget Hr1]]. subst r1.
  apply bind_inv_Return in H. destruct H as [client [r2 [Hclient H]]].
  apply invoke_inv in Hclient. destruct Hclient as [w2 [Hclient Hr2]].
  subst r2.
  apply try_catch_inv_Return in H. destruct H as [H | [err [r0 [_ H]]]].
  - apply bind_inv_Return in H. destruct H as [[acc info] [r3 [Haccount H]]].
    apply invoke_inv in Haccount. destruct Haccount as [w3 [Haccount Hr3]].
    subst r3.
    apply bind_inv_Return in H. destruct H as [needsLogin [r4 [Hneeds H]]].
    unfold read_world in Hneeds. injection Hneeds as Hneeds Hr4. subst r4.
    apply bind_inv_Return in H. destruct H as [u [r5 [Hwhen H]]].
    apply when_inv_Return in Hwhen. destruct Hwhen as [Hfresh Hr5].
    subst r5 needsLogin.
    apply bind_inv_Return in H. destruct H as [code [r6 [Hset H]]].
    apply invoke_inv in Hset. destruct Hset as [w4 [Hset Hr6]]. subst r6.
    apply bind_inv_Return in H. destruct H as [[] [r7 [Hadd H]]].
    apply invoke_inv in Hadd. destruct Hadd as [w5 [Hadd Hr7]]. subst r7.
    apply ret_inv in H. destruct H as [Hredirected Hr']. subst r' redirected.
    exists request, client, acc, info, code, w1, w2, w3, w4.
    split; [exact Hget |]. split; [exact Hclient |].
    split; [exact Haccount |]. split; [exact Hfresh |].
    split; [exact Hset |]. split; [exact Hadd |].
    split; [| reflexivity].
    simpl. repeat rewrite <- app_assoc. reflexivity.
  - apply bind_inv_Return in H. destruct H as [u [r4 [_ H]]].
    discriminate H.
Qed.

(** X19. Whenever [rejectRequest] returns, the request was loaded for the
    device and then deleted, as the last call, and the result is a redirect
    carrying the [access_denied] error with the parameters of the
    request. *)
Theorem rejectRequest_returns (r r' : Run W)
    (redirected : AuthorizationResultRedirect) :
  rejectRequest this requestUri deviceId r = (Return redirected, r') ->
  exists request w1,
    requestManager_get this requestUri deviceId None (world r)
    = (Return request, w1) /\
    requestManager_delete this requestUri w1 = (Return tt, world r') /\
    calls r'
    = (calls r
       ++ [call_requestManager_get requestUri deviceId None;
           call_requestManager_delete requestUri])%list /\
    redirected
    = {| rr_issuer := issuer this; rr_client := None;
         rr_parameters := ri_parameters request;
         redirect := RedirectError "access_denied" (Some "Access denied") |}.
Proof.
  intros H. unfold rejectRequest in H.
  apply bind_inv_Return in H. destruct H as [request [r1 [Hget H]]].
  apply invoke_inv in Hget. destruct Hget as [w1 [Hget Hr1]]. subst r1.
  apply bind_inv_Return in H. destruct H as [[] [r2 [Hdelete H]]].
  unfold deleteRequest in Hdelete.
  apply try_catch_inv_Return in Hdelete.
  destruct Hdelete as [Hdelete | [err [r0 [_ Hthrow]]]];
    [| discriminate Hthrow].
  apply invoke_inv in Hdelete. destruct Hdelete as [w2 [Hdelete Hr2]].
  subst r2.
  apply ret_inv in H. destruct H as [Hredirected Hr']. subst r' redirected.
  exists request, w1. split; [exact Hget |]. split; [exact Hdelete |].
  split; [| reflexivity].
  simpl. repeat rewrite <- app_assoc. reflexivity.
Qed.

End AcceptReject.

(** ** Introspection, beyond inactive tokens *)

Section IntrospectionMore.

Context {W : Type} (this : OAuthProvider W).

(** X20. A client authenticated with the [none] method cannot introspect:
    [introspect] fails with an [UnauthorizedClientError] and the token is
    not looked up. *)
Theorem introspect_requires_client_authentication (credentials : Credentials)
    (identification : OAuthTokenIdentification) (r r1 : Run W)
    (client : Client) (clientAuth : ClientAuth) :
  authenticateClient this credentials r = (Return (client, clientAuth), r1) ->
  method clientAuth = "none" ->
  introspect this credentials identification r
  = (Throw (new_error UnauthorizedClientError "Client authentication required"
              None), r1).
Proof.
  intros Hauth Hmethod. unfold introspect.
  rewrite (bind_Return _ _ _ _ _ Hauth). rewrite Hmethod. reflexivity.
Qed.

(** X21. For a token that the token manager finds for the authenticated
    client, [introspect] answers at once, without the wait of the inactive
    case, with an active response read from the token: its [jti] is the
    token id, its [sub] and [aud] are the account's, its [iss] is the
    issuer of the signer, and its type is [DPoP] exactly when the token is
    bound to a key. *)
Theorem introspect_active (credentials : Credentials)
    (identification : OAuthTokenIdentification) (r r1 : Run W)
    (client : Client) (clientAuth : ClientAuth) (tokenInfo : TokenInfo)
    (w2 : W) :
  authenticateClient this credentials r = (Return (client, clientAuth), r1) ->
  method clientAuth <> "none" ->
  clientTokenInfo this client clientAuth (presented_token identification)
    (world r1) = (Return tokenInfo, w2) ->
  exists t,
    introspect this credentials identification r
    = (Return (active t),
       step r1 (call_clientTokenInfo client clientAuth
                  (presented_token identification)) w2) /\
    it_jti t = ti_id tokenInfo /\
    it_sub t = sub (ti_account tokenInfo) /\
    it_aud t = aud (ti_account tokenInfo) /\
    it_client_id t = td_clientId (data tokenInfo) /\
    iss t = signer_issuer this /\
    (it_token_type t = "DPoP" <->
     truthy (dpop_jkt (td_parameters (data tokenInfo))) = true).
Proof.
  intros Hauth Hmethod Hinfo. unfold introspect.
  rewrite (bind_Return _ _ _ _ _ Hauth).
  destruct (String.eqb_spec (method clientAuth) "none") as [Heq | _];
    [contradiction |].
  unfold bind at 1. rewrite when_false.
  unfold bind at 1. unfold read_world at 1.
  rewrite (try_catch_Return _ _ _ _
             (step r1 (call_clientTokenInfo client clientAuth
                         (presented_token identification)) w2)
             (bind_Return _ _ _ _ _ (invoke_run _ _ _ _ _ Hinfo))).
  eexists. split; [reflexivity |]. cbn.
  repeat (split; [reflexivity |]).
  destruct (truthy (dpop_jkt (td_parameters (data tokenInfo)))); split;
    intros H; try reflexivity; discriminate H.
Qed.

(** X22. Once the client is authenticated with a method other than
    [none], [introspect] never fails, whatever the token manager does. *)
Theorem introspect_never_fails (credentials : Credentials)
    (identification : OAuthTokenIdentification) (r r1 r' : Run W)
    (client : Client) (clientAuth : ClientAuth) (e : Exn) :
  authenticateClient this credentials r = (Return (client, clientAuth), r1) ->
  method clientAuth <> "none" ->
  introspect this credentials identification r <> (Throw e, r').
Proof.
  intros Hauth Hmethod H. unfold introspect in H.
  rewrite (bind_Return _ _ _ _ _ Hauth) in H.
  destruct (String.eqb_spec (method clientAuth) "none") as [Heq | _];
    [contradiction |].
  unfold bind at 1 in H. rewrite when_false in H.
  unfold bind at 1 in H. unfold read_world at 1 in H.
  apply try_catch_inv in H. destruct H as [err [r2 [_ H]]].
  discriminate H.
Qed.

End IntrospectionMore.

(** ** The JSON handlers *)

Section JsonHandlers.

Context {W : Type} (this : OAuthProvider W).

(** X23. When the request accepts JSON, [jsonHandler] never throws,
    whatever [buildJson] does: it returns, and the response has then been
    sent, with the payload, with the error, or before the error when
    [buildJson] had started it. *)
Theorem jsonHandler_always_answers
    (buildJson : IncomingMessage -> M W (Json * option Z))
    (req : IncomingMessage) (r : Run W) :
  negotiateContent this req ["application/json"] = true ->
  exists r',
    jsonHandler this buildJson req r = (Return tt, r') /\
    headersSent (res r') = true.
Proof.
  intros Hneg. unfold jsonHandler. rewrite Hneg.
  unfold bind, try_catch, when, update_res, read_res, ret, report.
  cbn [negb world calls res].
  destruct (buildJson req _) as [[[payload status] | err] r1].
  - eexists. split; reflexivity.
  - destruct (onError this) as [handler |];
      unfold invoke_void, ret; cbn [res step world calls];
      destruct (headersSent (res r1)) eqn:Hsent; cbn [negb];
      eexists; (split; [reflexivity |]); cbn [res destroy writeJson headersSent];
      try reflexivity; exact Hsent.
Qed.

(** When the request does not accept JSON, [jsonHandler] throws the
    406 error of [http-errors] after setting the two cache headers:
    [buildJson] is not run and nothing is written. *)
Lemma jsonHandler_not_acceptable
    (buildJson : IncomingMessage -> M W (Json * option Z))
    (req : IncomingMessage) (r : Run W) :
  negotiateContent this req ["application/json"] = false ->
  jsonHandler this buildJson req r
  = (Throw (HttpError 406 "Unsupported media type"),
     {| world := world r; calls := calls r;
        res := setHeader "Pragma" "no-cache"
                 (setHeader "Cache-Control" "no-store" (res r)) |}).
Proof.
  intros Hneg. unfold jsonHandler. rewrite Hneg. reflexivity.
Qed.

(** X24. At [POST /oauth/token], a body whose client credentials the
    schema refuses is answered with the payload of an [InvalidClientError],
    and a body whose token request the schema refuses with the payload of
    an [InvalidGrantError]; in both cases the schema error is kept as the
    cause, the error is given to [onError], and nothing else is called once
    the request is read: the client is not authenticated. *)
Theorem token_endpoint_schema_errors (req : IncomingMessage) (r : Run W)
    (nonce : option string) (payload : string)
    (clientMetadata : RequestMetadata) (w1 w2 w3 : W) :
  headersSent (res r) = false ->
  negotiateContent this req ["application/json"] = true ->
  nextDpopNonce this (world r) = (nonce, w1) ->
  parseHttpRequest this req ["json"; "urlencoded"] w1 = (Return payload, w2) ->
  getRequestMetadata this req w2 = (Return clientMetadata, w3) ->
  (forall err,
      oauthClientCredentialsSchema this payload = Throw err ->
      let e :=
        new_error InvalidClientError
          (or_else (extractZodErrorMessage err) "Client authentication failed")
          (Some err) in
      exists r',
        token_endpoint this req r = (Return tt, r') /\
        body (res r') = Some (json_error (buildErrorPayload this e)) /\
        world r' = match onError this with
                   | Some handler => handler e "OAuth request error" w3
                   | None => w3
                   end /\
        calls r'
        = (calls r
           ++ [call_nextDpopNonce; call_parseHttpRequest req;
               call_getRequestMetadata req]
           ++ match onError this with
              | Some _ => [call_onError e "OAuth request error"]
              | None => []
              end)%list)
  /\
  (forall credentials err,
      oauthClientCredentialsSchema this payload = Return credentials ->
      oauthTokenRequestSchema this payload = Throw err ->
      let e :=
        new_error InvalidGrantError
          (or_else (extractZodErrorMessage err) "Invalid grant") (Some err) in
      exists r',
        token_endpoint this req r = (Return tt, r') /\
        body (res r') = Some (json_error (buildErrorPayload this e)) /\
        world r' = match onError this with
                   | Some handler => handler e "OAuth request error" w3
                   | None => w3
                   end /\
        calls r'
        = (calls r
           ++ [call_nextDpopNonce; call_parseHttpRequest req;
               call_getRequestMetadata req]
           ++ match onError this with
              | Some _ => [call_onError e "OAuth request error"]
              | None => []
              end)%list).
Proof.
  intros Hsent Hneg Hnonce Hparse Hmetadata. split.
  - intros err Hschema e. subst e.
    unfold token_endpoint, oauthHandler, jsonHandler, corsHeaders, parse_or,
      report, throwInvalidClient.
    rewrite Hneg.
    unfold bind, try_catch, when, update_res, read_res, ret, throw, invoke,
      invoke_void, lift_outcome.
    cbn [world calls res step negb]. rewrite Hnonce.
    destruct (truthy nonce); cbn [world calls res step]; rewrite Hparse;
      cbn [world calls res step]; rewrite Hmetadata;
      cbn [world calls res step]; rewrite Hschema;
      unfold new_error; destruct (onError this) as [handler |];
      cbn [world calls res step setHeader appendHeader headersSent];
      rewrite Hsent; cbn [negb]; eexists;
      (split; [reflexivity |]); (split; [reflexivity |]);
      (split; [reflexivity |]); unfold step; cbn [calls];
      rewrite <- ?app_assoc; reflexivity.
  - intros credentials err Hcredentials Hschema e. subst e.
    unfold token_endpoint, oauthHandler, jsonHandler, corsHeaders, parse_or,
      report, throwInvalidGrant.
    rewrite Hneg.
    unfold bind, try_catch, when, update_res, read_res, ret, throw, invoke,
      invoke_void, lift_outcome.
    cbn [world calls res step negb]. rewrite Hnonce.
    destruct (truthy nonce); cbn [world calls res step]; rewrite Hparse;
      cbn [world calls res step]; rewrite Hmetadata;
      cbn [world calls res step]; rewrite Hcredentials;
      cbn [world calls res step]; rewrite Hschema;
      unfold new_error; destruct (onError this) as [handler |];
      cbn [world calls res step setHeader appendHeader headersSent];
      rewrite Hsent; cbn [negb]; eexists;
      (split; [reflexivity |]); (split; [reflexivity |]);
      (split; [reflexivity |]); unfold step; cbn [calls];
      rewrite <- ?app_assoc; reflexivity.
Qed.

End JsonHandlers.

(** ** Scope details *)

Lemma list_ascii_of_string_app (s : string) (c : ascii) :
  list_ascii_of_string (s ++ String c EmptyString)
  = (list_ascii_of_string s ++ [c])%list.
Proof.
  induction s as [| a s IH]; simpl; [reflexivity |].
  rewrite IH. reflexivity.
Qed.

(** The pieces that [split_spaces] cuts hold no white space. *)
Lemma split_spaces_from_no_space (s cur : string) (in_run : bool) :
  (forall c, In c (list_ascii_of_string cur) -> is_space c = false) ->
  forall piece, In piece (split_spaces_from cur in_run s) ->
  forall c, In c (list_ascii_of_string piece) -> is_space c = false.
Proof.
  revert cur in_run. induction s as [| a s IH]; intros cur in_run Hcur piece.
  - simpl. intros [Hpiece | []]. subst piece. exact Hcur.
  - simpl. destruct (is_space a) eqn:Ha.
    + destruct in_run.
      * apply IH. exact Hcur.
      * intros [Hpiece | Hin].
        { subst piece. exact Hcur. }
        { revert Hin. apply IH. intros c []. }
    + apply IH. intros c Hc. rewrite list_ascii_of_string_app in Hc.
      apply in_app_or in Hc. destruct Hc as [Hc | [Hc | []]].
      * apply Hcur. exact Hc.
      * subst c. exact Ha.
Qed.

Lemma insert_by_count (cmp : string -> string -> Z) (x y : string)
    (l : list string) :
  count_occ string_dec (insert_by cmp y l) x
  = count_occ string_dec (y :: l) x.
Proof.
  induction l as [| z l IH]; [reflexivity |].
  simpl insert_by. destruct (0 <? cmp z y); [reflexivity |].
  simpl count_occ in *. rewrite IH.
  destruct (string_dec z x); destruct (string_dec y x); reflexivity.
Qed.

Lemma sort_by_count_from (cmp : string -> string -> Z) (x : string)
    (l acc : list string) :
  count_occ string_dec (fold_left (fun acc y => insert_by cmp y acc) l acc) x
  = (count_occ string_dec l x + count_occ string_dec acc x)%nat.
Proof.
  revert acc. induction l as [| y l IH]; intros acc; [reflexivity |].
  simpl fold_left. rewrite IH, insert_by_count. simpl count_occ.
  destruct (string_dec y x); lia.
Qed.

(** Sorting neither drops nor repeats an entry. *)
Lemma sort_by_count (cmp : string -> string -> Z) (x : string)
    (l : list string) :
  count_occ string_dec (sort_by cmp l) x = count_occ string_dec l x.
Proof.
  unfold sort_by. rewrite sort_by_count_from. simpl. lia.
Qed.

Section ScopeDetails.

Context {W : Type} (this : OAuthProvider W).

(** X25. The scope details of the authorize page list the scopes of the
    request: each detail has a scope that is not empty and holds no white
    space, and no description; every word of the scope parameter is listed
    as many times as it occurs in it and nothing else is, whatever
    [localeCompare] answers. *)
Theorem scopeDetails_lists_scopes (scope : string)
    (details : list ScopeDetail) :
  scopeDetails_of this (Some scope) = Some details ->
  (forall d, In d details ->
     truthy_string (sd_scope d) = true /\
     sd_description d = None /\
     forall c, In c (list_ascii_of_string (sd_scope d)) -> is_space c = false)
  /\
  (forall word,
     count_occ string_dec (map sd_scope details) word
     = count_occ string_dec (filter truthy_string (split_spaces scope)) word).
Proof.
  intros H. unfold scopeDetails_of in H. injection H as H. subst details.
  split.
  - intros d Hin. apply in_map_iff in Hin. destruct Hin as [word [Hd Hin]].
    subst d. cbn [sd_scope sd_description].
    assert (Hword : In word (filter truthy_string (split_spaces scope))).
    { apply (count_occ_In string_dec).
      rewrite <- (sort_by_count (localeCompare this)).
      apply (count_occ_In string_dec). exact Hin. }
    apply filter_In in Hword. destruct Hword as [Hpiece Htruthy].
    split; [exact Htruthy |]. split; [reflexivity |].
    apply (split_spaces_from_no_space scope EmptyString false);
      [intros c [] | exact Hpiece].
  - intros word. rewrite map_map. cbn [sd_scope]. rewrite map_id.
    apply sort_by_count.
Qed.

End ScopeDetails.

(** ** Redirects of denied authorizations *)

Section RedirectProperties.

Context {W : Type} (this : OAuthProvider W).

(** X26. [accessDeniedToRedirectCatcher] turns an error into a redirect
    only when it is an access-denied error whose parameters hold a
    [redirect_uri]; the redirect then goes with the parameters, the [error]
    code and the description of that error.  Any error that is not an
    access-denied error is thrown again as it is, and nothing is
    reported. *)
Theorem accessDeniedToRedirectCatcher_redirects (err : Exn) (r : Run W) :
  (forall redirected r',
      accessDeniedToRedirectCatcher this err r = (Return redirected, r') ->
      exists cls error description parameters cause,
        err = OAuthError cls error description (Some parameters) cause /\
        extends_AccessDeniedError cls = true /\
        truthy (redirect_uri parameters) = true /\
        redirected
        = {| rr_issuer := issuer this; rr_client := None;
             rr_parameters := parameters;
             redirect := RedirectError error description |})
  /\
  (instanceof_AccessDeniedError err = false ->
   accessDeniedToRedirectCatcher this err r = (Throw err, r)).
Proof.
  split.
  - intros redirected r' H. unfold accessDeniedToRedirectCatcher in H.
    destruct err as [s | msg | status msg | issues | code d h
                    | cls error description parameters cause];
      try discriminate H.
    destruct (extends_AccessDeniedError cls) eqn:Hcls; [| discriminate H].
    destruct parameters as [parameters |]; [| discriminate H].
    destruct (truthy (redirect_uri parameters)) eqn:Hredirect;
      [| discriminate H].
    apply bind_inv_Return in H. destruct H as [u [r1 [_ H]]].
    apply ret_inv in H. destruct H as [Hredirected _].
    exists cls, error, description, parameters, cause.
    split; [reflexivity |]. split; [exact Hcls |].
    split; [exact Hredirect | exact Hredirected].
  - intros Hclass. unfold accessDeniedToRedirectCatcher.
    destruct err as [s | msg | status msg | issues | code d h
                    | cls error description parameters cause];
      try reflexivity.
    simpl in Hclass. rewrite Hclass. reflexivity.
Qed.

(** X27. Silent authorization without a session: with [prompt=none], when
    no session of the device matches the hint, the request is deleted and,
    its parameters holding a [redirect_uri], what [GET /oauth/authorize]
    sends is a redirect to the client carrying the [login_required] error
    and the parameters of the request. *)
Theorem authorize_or_redirect_login_required (clientCredentials : Credentials)
    (query : OAuthAuthorizationRequestQuery) (deviceId : DeviceId)
    (deviceMetadata : RequestMetadata) (r r2 r3 : Run W) (client : Client)
    (w1 w4 : W) (request : RequestInfo) (sessions : list Session) :
  getClient this (cred_client_id clientCredentials) (world r)
  = (Return client, w1) ->
  processAuthorizationRequest this client deviceId query
    (step r (call_getClient (cred_client_id clientCredentials)) w1)
  = (Return request, r2) ->
  prompt (ri_parameters request) = Some prompt_none ->
  truthy (redirect_uri (ri_parameters request)) = true ->
  getSessions this client (ri_clientAuth request) deviceId
    (ri_parameters request) r2 = (Return sessions, r3) ->
  filter matchesHint sessions = [] ->
  requestManager_delete this (uri request) (world r3) = (Return tt, w4) ->
  authorize_or_redirect this clientCredentials query deviceId deviceMetadata r
  = (Return (ResultRedirect
               {| rr_issuer := issuer this; rr_client := None;
                  rr_parameters := ri_parameters request;
                  redirect := RedirectError "login_required" None |}),
     step r3 (call_requestManager_delete (uri request)) w4).
Proof.
  intros Hclient Hrequest Hprompt Hredirect Hsessions Hnone Hdelete.
  unfold authorize_or_redirect.
  assert (Hfail :
            authorize this clientCredentials query deviceId deviceMetadata r
            = (Throw (new_parameters_error LoginRequiredError
                        (ri_parameters request) None),
               step r3 (call_requestManager_delete (uri request)) w4)).
  { rewrite (authorize_processed this _ _ _ deviceMetadata _ _ _ _ _ Hclient
               Hrequest).
    rewrite (try_catch_Throw _ _ _ _ _
               (authorize_body_none_login this _ _ _ _ _ _ _ _ _ Hprompt
                  Hsessions (or_introl Hnone))).
    apply (authorize_catch this); [reflexivity | exact Hdelete]. }
  rewrite (try_catch_Throw _ _ _ _ _ Hfail).
  unfold accessDeniedToRedirectCatcher, new_parameters_error.
  cbn [extends_AccessDeniedError class_error]. rewrite Hredirect.
  reflexivity.
Qed.

End RedirectProperties.

(** ** The repository export *)

Section GetRepoProperties.

Context {W Db Auth : Type} (ctx : GetRepo.AppContext W Db Auth).

(** X28. [getCarStream] fails either because the database of the actor
    could not be opened, nothing else being called, or because the reader
    failed, and then the database was closed, as the last event, before the
    error left: the error of the reader, turned into an
    [InvalidRequestError] naming the DID when it is
    [RepoRootNotFoundError], or the error of [close] when closing fails. *)
Theorem getCarStream_fails_closed (did : string) (since : option string)
    (t t' : GetRepo.Trace W Db) (e : GetRepo.Error) :
  GetRepo.getCarStream ctx did since t = (GetRepo.Fail e, t')
  <->
  (exists w1,
      GetRepo.openDb ctx did (GetRepo.state t) = (GetRepo.Fail e, w1) /\
      t' = GetRepo.log t (GetRepo.ev_openDb did) w1)
  \/
  (exists actorDb err o w1 w2 w3,
      GetRepo.openDb ctx did (GetRepo.state t) = (GetRepo.Ok actorDb, w1) /\
      GetRepo.storage_getCarStream ctx actorDb since w1
      = (GetRepo.Fail err, w2) /\
      GetRepo.close ctx actorDb w2 = (o, w3) /\
      t' = GetRepo.log
             (GetRepo.log (GetRepo.log t (GetRepo.ev_openDb did) w1)
                (GetRepo.ev_getCarStream actorDb since) w2)
             (GetRepo.ev_close actorDb) w3 /\
      e = match o with
          | GetRepo.Fail failure => failure
          | GetRepo.Ok _ =>
              match err with
              | GetRepo.RepoRootNotFoundError =>
                  GetRepo.InvalidRequestError
                    ("Could not find repo for DID: " ++ did)
              | _ => err
              end
          end).
Proof.
  unfold GetRepo.getCarStream. split.
  - intros H.
    destruct (GetRepo.openDb ctx did (GetRepo.state t))
      as [[actorDb | e1] w1].
    + right.
      destruct (GetRepo.storage_getCarStream ctx actorDb since w1)
        as [[carStream | err] w2] eqn:Hreader; [discriminate H |].
      destruct (GetRepo.close ctx actorDb w2) as [o w3] eqn:Hclose.
      exists actorDb, err, o, w1, w2, w3.
      split; [reflexivity |]. split; [exact Hreader |].
      split; [exact Hclose |].
      destruct o as [[] | failure]; [destruct err |];
        injection H as He Ht; subst; split; reflexivity.
    + left. injection H as He Ht. subst. exists w1. split; reflexivity.
  - intros [[w1 [Hopen Ht]] | [actorDb [err [o [w1 [w2 [w3 H]]]]]]].
    + rewrite Hopen. subst t'. reflexivity.
    + destruct H as [Hopen [Hreader [Hclose [Ht He]]]].
      rewrite Hopen, Hreader, Hclose. subst t' e.
      destruct o as [[] | failure]; [destruct err |]; reflexivity.
Qed.

(** X29. Whenever [getCarStream] returns a stream, it is the stream of
    the reader with [closeDb] added as the last listener of its [error] and
    [close] events, and the database it closes is the one that was opened
    for the DID and is still open: nothing was closed. *)
Theorem getCarStream_returns (did : string) (since : option string)
    (t t' : GetRepo.Trace W Db) (carStream : GetRepo.Readable Db) :
  GetRepo.getCarStream ctx did since t = (GetRepo.Ok carStream, t') ->
  exists actorDb raw w1,
    GetRepo.openDb ctx did (GetRepo.state t) = (GetRepo.Ok actorDb, w1) /\
    GetRepo.storage_getCarStream ctx actorDb since w1
    = (GetRepo.Ok raw, GetRepo.state t') /\
    GetRepo.events t'
    = (GetRepo.events t
       ++ [GetRepo.ev_openDb did; GetRepo.ev_getCarStream actorDb since])%list
    /\
    GetRepo.source carStream = GetRepo.source raw /\
    GetRepo.on_error carStream
    = (GetRepo.on_error raw ++ [GetRepo.closeDb actorDb])%list /\
    GetRepo.on_close carStream
    = (GetRepo.on_close raw ++ [GetRepo.closeDb actorDb])%list.
Proof.
  unfold GetRepo.getCarStream. intros H.
  destruct (GetRepo.openDb ctx did (GetRepo.state t))
    as [[actorDb | e1] w1]; [| discriminate H].
  destruct (GetRepo.storage_getCarStream ctx actorDb since w1)
    as [[raw | err] w2] eqn:Hreader.
  - injection H as Hstream Ht. subst carStream t'.
    exists actorDb, raw, w1. split; [reflexivity |].
    split; [exact Hreader |]. split.
    + simpl. rewrite <- app_assoc. reflexivity.
    + split; [reflexivity |]. split; reflexivity.
  - destruct (GetRepo.close ctx actorDb w2) as [[[] | failure] w3];
      [destruct err |]; discriminate H.
Qed.

(** X30. The handler of [getRepo] asserts that the repository is
    available, for the caller being the user or an admin, before anything
    else: when the assertion fails the database is not opened, and whenever
    the handler returns, its body is the stream of [getCarStream] under the
    CAR encoding. *)
Theorem getRepo_handler_checks_availability (params : GetRepo.Params)
    (auth : Auth) (t : GetRepo.Trace W Db) :
  (forall e w1,
      GetRepo.assertRepoAvailability ctx (GetRepo.did params)
        (GetRepo.isUserOrAdmin ctx auth (GetRepo.did params)) (GetRepo.state t)
      = (GetRepo.Fail e, w1) ->
      GetRepo.handler ctx params auth t
      = (GetRepo.Fail e,
         GetRepo.log t
           (GetRepo.ev_assertRepoAvailability (GetRepo.did params)
              (GetRepo.isUserOrAdmin ctx auth (GetRepo.did params))) w1))
  /\
  (forall output t',
      GetRepo.handler ctx params auth t = (GetRepo.Ok output, t') ->
      GetRepo.encoding output = "application/vnd.ipld.car" /\
      exists w1,
        GetRepo.assertRepoAvailability ctx (GetRepo.did params)
          (GetRepo.isUserOrAdmin ctx auth (GetRepo.did params))
          (GetRepo.state t) = (GetRepo.Ok tt, w1) /\
        GetRepo.getCarStream ctx (GetRepo.did params) (GetRepo.since params)
          (GetRepo.log t
             (GetRepo.ev_assertRepoAvailability (GetRepo.did params)
                (GetRepo.isUserOrAdmin ctx auth (GetRepo.did params))) w1)
        = (GetRepo.Ok (GetRepo.body output), t')).
Proof.
  unfold GetRepo.handler. split.
  - intros e w1 Hassert. rewrite Hassert. reflexivity.
  - intros output t' H.
    destruct (GetRepo.assertRepoAvailability ctx (GetRepo.did params)
                (GetRepo.isUserOrAdmin ctx auth (GetRepo.did params))
                (GetRepo.state t)) as [[[] | e] w1]; [| discriminate H].
    destruct (GetRepo.getCarStream ctx (GetRepo.did params)
                (GetRepo.since params) _) as [[carStream | e] t1] eqn:Hstream;
      [| discriminate H].
    injection H as Houtput Ht. subst output t'.
    split; [reflexivity |]. exists w1. split; [reflexivity | exact Hstream].
Qed.

End GetRepoProperties.

(** * The further properties on the in-memory instances *)

(** X1 on the code grant of a public web client. *)
Lemma token_returns_checked_grant_witness :
  let this := Sample.provider (Fin 3600) in
  let credentials := Sample.credentials_of Sample.web_client None in
  exists client clientAuth r1 supported,
    authenticateClient this credentials
      (Sample.start
         (Sample.with_codes
            [("code-1", ("did:plc:alice", Sample.device,
                         Sample.parameters_of None None))]
            (Sample.world_of 10000
               [Sample.session_of Sample.alice 5000 []] None)))
    = (Return (client, clientAuth), r1) /\
    grant_types_supported this = Some supported /\
    includes supported "authorization_code" = true /\
    includes (grant_types (metadata client)) "authorization_code" = true /\
    ("authorization_code" = "authorization_code" \/
     "authorization_code" = "refresh_token").
Proof.
  intros this credentials.
  eapply (token_returns_checked_grant this credentials Sample.deviceMetadata
            (AuthorizationCodeRequest (Sample.code_request "code-1")) None).
  evaluate.
Defined.

(** X2 on the password grant. *)
Lemma token_other_grant_never_succeeds_witness :
  token (Sample.provider (Fin 3600))
    (Sample.credentials_of Sample.web_client None) Sample.deviceMetadata
    (OtherRequest grant_password) None
    (Sample.start (Sample.world_of 0 [] None))
  <> (Return Sample.token_response,
      Sample.start (Sample.world_of 0 [] None)).
Proof. apply token_other_grant_never_succeeds. Defined.

(** X3 on a refresh by a public web client. *)
Lemma token_refresh_passes_through_witness :
  let this := Sample.provider (Fin 3600) in
  exists r',
    token this (Sample.credentials_of Sample.web_client None)
      Sample.deviceMetadata
      (RefreshTokenRequest {| refresh_token := "ref-1" |}) None
      (Sample.start (Sample.world_of 0 [] None))
    = (Return Sample.token_response, r').
Proof.
  intros this. eexists.
  eapply token_refresh_passes_through; evaluate.
Defined.

(** X4 on a client assertion used for the first time. *)
Lemma authenticateClient_returns_witness :
  let this := Sample.provider (Fin 3600) in
  let credentials :=
    Sample.credentials_of Sample.web_client (Some "assertion-1") in
  let w := Sample.world_of 0 [] None in
  exists nonce w1 w2,
    getClient this (cred_client_id credentials) w
    = (Return Sample.web_client, w1) /\
    verifyCredentials this Sample.web_client credentials (issuer this) w1
    = (Return (Sample.private_key_jwt, nonce), w2) /\
    (application_type (metadata Sample.web_client) = native ->
     method Sample.private_key_jwt = "none") /\
    match nonce with
    | Some n =>
        uniqueAuth this n (id Sample.web_client) w2
        = (Return true,
           Sample.with_seen
             ["auth:" ++ id Sample.web_client ++ ":assertion-1"] w) /\
        [call_getClient (cred_client_id credentials);
         call_verifyCredentials Sample.web_client credentials (issuer this);
         call_uniqueAuth "assertion-1" (id Sample.web_client)]
        = [call_getClient (cred_client_id credentials);
           call_verifyCredentials Sample.web_client credentials (issuer this);
           call_uniqueAuth n (id Sample.web_client)]
    | None => False
    end.
Proof.
  intros this credentials w.
  destruct (authenticateClient_returns this credentials (Sample.start w)
              (step (step (step (Sample.start w)
                             (call_getClient (cred_client_id credentials)) w)
                       (call_verifyCredentials Sample.web_client credentials
                          (issuer this)) w)
                 (call_uniqueAuth "assertion-1" (id Sample.web_client))
                 (Sample.with_seen
                    ["auth:" ++ id Sample.web_client ++ ":assertion-1"] w))
              Sample.web_client Sample.private_key_jwt eq_refl)
    as [nonce [w1 [w2 [Hclient [Hverify [Hnative Hnonce]]]]]].
  exists nonce, w1, w2. split; [exact Hclient |]. split; [exact Hverify |].
  split; [exact Hnative |].
  destruct nonce as [n |].
  - destruct Hnonce as [Hunique Hcalls]. split; [exact Hunique |].
    exact Hcalls.
  - destruct Hnonce as [_ Hcalls]. discriminate Hcalls.
Defined.

(** X5 on a request object without [jti]. *)
Lemma decodeJAR_missing_jti_witness :
  let this :=
    SampleMore.with_request_object
      (UnsignedRequestObject {| jti := None; claims := "{}" |})
      (Sample.provider (Fin 3600)) in
  exists e r',
    decodeJAR this Sample.web_client "request-object"
      (Sample.start (Sample.world_of 0 [] None)) = (Throw e, r') /\
    exn_class e = Some InvalidParametersError /\
    calls r' = [call_decodeRequestObject Sample.web_client "request-object"] /\
    Sample.seen (world r') = [].
Proof.
  intros this. eexists. eexists. split.
  - eapply decodeJAR_missing_jti; evaluate.
  - split; [reflexivity |]. split; reflexivity.
Defined.

(** X6 on a signed request object whose header has no [kid]. *)
Lemma decodeJAR_missing_kid_witness :
  let this :=
    SampleMore.with_request_object
      (SignedRequestObject {| jti := Some "jti-1"; claims := "{}" |}
         {| ph_kid := None; ph_alg := "ES256" |} "key-1")
      (Sample.provider (Fin 3600)) in
  exists e r',
    decodeJAR this Sample.web_client "request-object"
      (Sample.start (Sample.world_of 0 [] None)) = (Throw e, r') /\
    exn_class e = Some InvalidParametersError /\
    Sample.seen (world r') = ["jar:" ++ id Sample.web_client ++ ":jti-1"].
Proof.
  intros this. eexists. eexists. split.
  - eapply decodeJAR_missing_kid; evaluate.
  - split; reflexivity.
Defined.

(** X7 on a request object used for the first time. *)
Lemma decodeJAR_returns_witness :
  let this := Sample.provider (Fin 3600) in
  exists j w1 w2,
    truthy_string j = true /\
    uniqueJar this j (id Sample.web_client) w1 = (Return true, w2).
Proof.
  intros this.
  edestruct (decodeJAR_returns this Sample.web_client "jti-1"
               (Sample.start (Sample.world_of 0 [] None)))
    as [result [j [w1 [w2 [_ [_ [_ [Htruthy [Hunique _]]]]]]]]];
    [evaluate |].
  exists j, w1, w2. split; [exact Htruthy | exact Hunique].
Defined.

(** X8 on pushed parameters that the request manager refuses with an
    access-denied error. *)
Lemma par_never_access_denied_witness :
  let this := Sample.provider (Fin 3600) in
  exists e r',
    pushedAuthorizationRequest this
      (Sample.credentials_of Sample.web_client None)
      (ParParameters
         {| client_id := id Sample.web_client; redirect_uri := None;
            scope := Some "atproto"; state := None; code_challenge := None;
            login_hint := None; prompt := None; dpop_jkt := None |})
      None (Sample.start (Sample.world_of 0 [] None)) = (Throw e, r') /\
    instanceof_AccessDeniedError e = false.
Proof.
  intros this. eexists. eexists. split; [evaluate |].
  eapply (par_never_access_denied this
            (Sample.credentials_of Sample.web_client None)
            (ParParameters
               {| client_id := id Sample.web_client; redirect_uri := None;
                  scope := Some "atproto"; state := None;
                  code_challenge := None; login_hint := None; prompt := None;
                  dpop_jkt := None |})
            None (Sample.start (Sample.world_of 0 [] None))).
  evaluate.
Defined.

(** X9 on a pushed request object. *)
Lemma par_returns_witness :
  let this := Sample.provider (Fin 3600) in
  exists response r' created,
    pushedAuthorizationRequest this
      (Sample.credentials_of Sample.web_client None) (ParJar "jti-1") None
      (Sample.start (Sample.world_of 0 [] None)) = (Return response, r') /\
    request_uri response = uri created.
Proof.
  intros this.
  edestruct (par_returns this (Sample.credentials_of Sample.web_client None)
               (ParJar "jti-1") None
               (Sample.start (Sample.world_of 0 [] None)))
    as [client [clientAuth [parameters [created [r1 [r2 H]]]]]];
    [evaluate |].
  destruct H as [_ [_ [_ [Huri _]]]].
  eexists. eexists. exists created. split; [evaluate | exact Huri].
Defined.


(** X11 on a device with two sessions and a hint that names one. *)
Lemma getSessions_at_most_one_selected_witness :
  let this := Sample.provider (Fin 3600) in
  exists sessions r',
    getSessions this Sample.web_client clientAuth_none Sample.device
      (Sample.parameters_of (Some "did:plc:alice") None)
      (SampleMore.two_sessions 6000 (Some "did:plc:alice") None)
    = (Return sessions, r') /\
    map selected sessions = [true; false] /\
    (length (filter selected sessions) <= 1)%nat.
Proof.
  intros this.
  edestruct (getSessions_at_most_one_selected this Sample.web_client
               clientAuth_none Sample.device
               (Sample.parameters_of (Some "did:plc:alice") None)
               (SampleMore.two_sessions 6000 (Some "did:plc:alice") None))
    as [Hlength _]; [evaluate |].
  eexists. eexists. split; [evaluate |]. split; [reflexivity | exact Hlength].
Defined.

(** X12 on a request with [prompt=login]. *)
Lemma getSessions_prompt_forces_witness :
  let this := Sample.provider (Fin 3600) in
  exists sessions r',
    getSessions this Sample.web_client clientAuth_none Sample.device
      (Sample.parameters_of None (Some prompt_login))
      (SampleMore.two_sessions 6000 None (Some prompt_login))
    = (Return sessions, r') /\
    length sessions = 2%nat /\
    forall s, In s sessions -> s_loginRequired s = true.
Proof.
  intros this.
  edestruct (getSessions_prompt_forces this Sample.web_client
               clientAuth_none Sample.device
               (Sample.parameters_of None (Some prompt_login))
               (SampleMore.two_sessions 6000 None (Some prompt_login)))
    as [Hlogin _]; [evaluate |].
  eexists. eexists. split; [evaluate |]. split; [reflexivity |].
  apply Hlogin. reflexivity.
Defined.

(** X13 on a device with a consented and an unconsented session. *)
Lemma getSessions_eligibility_witness :
  let this := Sample.provider (Fin 3600) in
  exists sessions r',
    getSessions this Sample.web_client clientAuth_none Sample.device
      (Sample.parameters_of None None)
      (SampleMore.two_sessions 6000 None None)
    = (Return sessions, r') /\
    map consentRequired sessions = [false; true] /\
    forall s, In s sessions -> consentRequired s = false ->
              includes (authorizedClients (s_info s)) (id Sample.web_client)
              = true.
Proof.
  intros this. eexists. eexists. split; [evaluate |].
  split; [reflexivity |]. intros s Hin Hconsent.
  edestruct (getSessions_eligibility this Sample.web_client
               clientAuth_none Sample.device
               (Sample.parameters_of None None)
               (SampleMore.two_sessions 6000 None None))
    as [_ Hconsented]; [evaluate | exact Hin |].
  apply Hconsented in Hconsent. apply Hconsent.
Defined.

(** X14 on a silent request with one fresh, consented session. *)
Lemma authorize_redirect_is_safe_witness :
  let this := Sample.provider (Fin 3600) in
  exists redirected r' acc code,
    authorize this (Sample.credentials_of Sample.web_client None)
      (QueryUri SampleMore.request_uri_1) Sample.device Sample.deviceMetadata
      (Sample.start
         (Sample.world_of 6000
            [Sample.session_of Sample.alice 5000 [id Sample.web_client]]
            (Some (Sample.request_of
                     (Sample.parameters_of None (Some prompt_none))))))
    = (Return (ResultRedirect redirected), r') /\
    redirect redirected = RedirectCode code /\
    last (calls r') (call_getClient EmptyString)
    = call_setAuthorized SampleMore.request_uri_1 Sample.web_client acc
        Sample.device Sample.deviceMetadata.
Proof.
  intros this.
  edestruct (authorize_redirect_is_safe this
               (Sample.credentials_of Sample.web_client None)
               (QueryUri SampleMore.request_uri_1) Sample.device
               Sample.deviceMetadata
               (Sample.start
                  (Sample.world_of 6000
                     [Sample.session_of Sample.alice 5000
                        [id Sample.web_client]]
                     (Some (Sample.request_of
                              (Sample.parameters_of None
                                 (Some prompt_none)))))))
    as [client [request [accounts [acc [info [code [r2 [r3 H]]]]]]]];
    [evaluate |].
  destruct H as [_ [_ [_ [_ [_ [_ [_ Hresult]]]]]]].
  eexists. eexists. exists Sample.alice, code.
  split; [evaluate |].
  split; [exact (f_equal redirect Hresult) | reflexivity].
Defined.


(** X16 on a silent request from a device without session. *)
Lemma authorize_failure_deletes_request_witness :
  let this := Sample.provider (Fin 3600) in
  let r :=
    Sample.start
      (Sample.world_of 0 []
         (Some (Sample.request_of
                  (Sample.parameters_of None (Some prompt_none))))) in
  exists e r',
    authorize this (Sample.credentials_of Sample.web_client None)
      (QueryUri SampleMore.request_uri_1) Sample.device Sample.deviceMetadata r
    = (Throw e, r') /\
    exists r3 o w4,
      requestManager_delete this SampleMore.request_uri_1 (world r3) = (o, w4) /\
      r' = step r3 (call_requestManager_delete SampleMore.request_uri_1) w4.
Proof.
  intros this r. eexists. eexists. split; [evaluate |].
  edestruct (authorize_failure_deletes_request this
               (Sample.credentials_of Sample.web_client None)
               (QueryUri SampleMore.request_uri_1) Sample.device
               Sample.deviceMetadata r)
    as [Hforward _]; [evaluate | evaluate |].
  edestruct Hforward as [err [r3 [o [w4 [_ [Hdelete [Hr' _]]]]]]];
    [evaluate |].
  exists r3, o, w4. split; [exact Hdelete | exact Hr'].
Defined.

(** X17 on a session that is older than the maximum age. *)
Lemma acceptRequest_stale_session_witness :
  let this := Sample.provider (Fin 3600) in
  exists e r',
    acceptRequest this SampleMore.request_uri_1 Sample.device
      Sample.deviceMetadata "did:plc:alice"
      (SampleMore.two_sessions 10000000 None None) = (Throw e, r') /\
    exn_class e = Some LoginRequiredError /\
    Sample.pending (world r') = None.
Proof.
  intros this. eexists. eexists. split.
  - eapply acceptRequest_stale_session; evaluate.
  - split; reflexivity.
Defined.

(** X18 on a fresh session. *)
Lemma acceptRequest_returns_witness :
  let this := Sample.provider (Fin 3600) in
  exists redirected r' request client info w3,
    acceptRequest this SampleMore.request_uri_1 Sample.device
      Sample.deviceMetadata "did:plc:bob"
      (SampleMore.two_sessions 6000 None None) = (Return redirected, r') /\
    loginRequired this w3 client (ri_parameters request) info = false.
Proof.
  intros this.
  edestruct (acceptRequest_returns this SampleMore.request_uri_1
               Sample.device Sample.deviceMetadata "did:plc:bob"
               (SampleMore.two_sessions 6000 None None))
    as [request [client [acc [info [code [w1 [w2 [w3 [w4 H]]]]]]]]];
    [evaluate |].
  destruct H as [_ [_ [_ [Hfresh _]]]].
  eexists. eexists. exists request, client, info, w3.
  split; [evaluate | exact Hfresh].
Defined.

(** X19 on a pending request. *)
Lemma rejectRequest_returns_witness :
  let this := Sample.provider (Fin 3600) in
  exists redirected r',
    rejectRequest this SampleMore.request_uri_1 Sample.device
      (SampleMore.two_sessions 6000 None None) = (Return redirected, r') /\
    redirect redirected = RedirectError "access_denied" (Some "Access denied") /\
    Sample.pending (world r') = None.
Proof.
  intros this.
  edestruct (rejectRequest_returns this SampleMore.request_uri_1
               Sample.device (SampleMore.two_sessions 6000 None None))
    as [request [w1 [_ [_ [_ Hresult]]]]]; [evaluate |].
  eexists. eexists. split; [evaluate |].
  split; [exact (f_equal redirect Hresult) | reflexivity].
Defined.

(** X20 on a public client. *)
Lemma introspect_requires_client_authentication_witness :
  let this := Sample.provider (Fin 3600) in
  exists e r',
    introspect this (Sample.credentials_of Sample.web_client None)
      {| presented_token := "tok-1"; token_type_hint := None |}
      (Sample.start
         (SampleMore.with_tokens [("tok-1", SampleMore.token_of_alice)]
            (Sample.world_of 0 [] None))) = (Throw e, r') /\
    exn_class e = Some UnauthorizedClientError.
Proof.
  intros this. eexists. eexists. split.
  - eapply introspect_requires_client_authentication; evaluate.
  - reflexivity.
Defined.

(** X21 on a token of alice presented by a confidential client. *)
Lemma introspect_active_witness :
  let this := Sample.provider (Fin 3600) in
  exists t r',
    introspect this
      (Sample.credentials_of Sample.web_client (Some "assertion-1"))
      {| presented_token := "tok-1"; token_type_hint := None |}
      (Sample.start
         (SampleMore.with_tokens [("tok-1", SampleMore.token_of_alice)]
            (Sample.world_of 0 [] None))) = (Return (active t), r') /\
    it_sub t = "did:plc:alice" /\
    Sample.clock (world r') = 0.
Proof.
  intros this.
  edestruct (introspect_active this
               (Sample.credentials_of Sample.web_client (Some "assertion-1"))
               {| presented_token := "tok-1"; token_type_hint := None |}
               (Sample.start
                  (SampleMore.with_tokens
                     [("tok-1", SampleMore.token_of_alice)]
                     (Sample.world_of 0 [] None))))
    as [t [Hrun [_ [Hsub _]]]]; [evaluate | discriminate | evaluate |].
  exists t. eexists. split; [exact Hrun |].
  split; [exact Hsub | reflexivity].
Defined.

(** X22 on an unknown token presented by a confidential client: the
    error of the token manager does not leave [introspect]. *)
Lemma introspect_never_fails_witness :
  let this := Sample.provider (Fin 3600) in
  let credentials :=
    Sample.credentials_of Sample.web_client (Some "assertion-1") in
  let identification :=
    {| presented_token := "tok-0"; token_type_hint := None |} in
  let r := Sample.start (Sample.world_of 0 [] None) in
  (exists r1 w2,
      authenticateClient this credentials r
      = (Return (Sample.web_client, Sample.private_key_jwt), r1) /\
      clientTokenInfo this Sample.web_client Sample.private_key_jwt "tok-0"
        (world r1)
      = (Throw (new_error InvalidGrantError "Invalid token" None), w2)) /\
  introspect this credentials identification r
  <> (Throw (new_error InvalidGrantError "Invalid token" None), r).
Proof.
  intros this credentials identification r. split.
  - eexists. eexists. split; evaluate.
  - eapply introspect_never_fails; [evaluate | discriminate].
Defined.

(** X23 on a handler body that throws. *)
Lemma jsonHandler_always_answers_witness :
  let this := Sample.provider (Fin 3600) in
  exists r',
    jsonHandler this (fun _ => throw (JsError "boom"))
      (Sample.post "/oauth/par" "jti-1")
      (Sample.start (Sample.world_of 0 [] None)) = (Return tt, r') /\
    headersSent (res r') = true.
Proof.
  intros this. apply jsonHandler_always_answers. reflexivity.
Defined.

(** X24 on an empty body, refused by the schema of the credentials and by
    the schema of the token request. *)
Lemma token_endpoint_schema_errors_witness :
  let this := Sample.provider (Fin 3600) in
  let strict :=
    SampleMore.with_credentials_schema
      (fun payload =>
         Sample.required "client_id" payload
           (Sample.credentials_of Sample.web_client None)) this in
  let req := Sample.post "/oauth/token" EmptyString in
  let r := Sample.start (Sample.world_of 0 [] None) in
  (exists r' payload,
      token_endpoint strict req r = (Return tt, r') /\
      body (res r') = Some (json_error payload) /\
      ep_error payload = "invalid_client") /\
  (exists r' payload,
      token_endpoint this req r = (Return tt, r') /\
      body (res r') = Some (json_error payload) /\
      ep_error payload = "invalid_grant").
Proof.
  intros this strict req r. split.
  - edestruct (token_endpoint_schema_errors strict req r) as [Hcredentials _];
      [evaluate | evaluate | evaluate | evaluate | evaluate |].
    edestruct Hcredentials as [r' [Hrun [Hbody _]]]; [evaluate |].
    exists r'. eexists. split; [exact Hrun |].
    split; [exact Hbody | reflexivity].
  - edestruct (token_endpoint_schema_errors this req r) as [_ Hrequest];
      [evaluate | evaluate | evaluate | evaluate | evaluate |].
    edestruct Hrequest as [r' [Hrun [Hbody _]]]; [evaluate | evaluate |].
    exists r'. eexists. split; [exact Hrun |].
    split; [exact Hbody | reflexivity].
Defined.

(** X25 on a scope with a repeated word and a double space. *)
Lemma scopeDetails_lists_scopes_witness :
  let this := Sample.provider (Fin 3600) in
  exists details,
    scopeDetails_of this (Some "atproto  transition:generic atproto")
    = Some details /\
    count_occ string_dec (map sd_scope details) "atproto" = 2%nat /\
    length details = 3%nat.
Proof.
  intros this.
  edestruct (scopeDetails_lists_scopes this
               "atproto  transition:generic atproto")
    as [_ Hcount]; [evaluate |].
  eexists. split; [evaluate |].
  split; [exact (eq_trans (Hcount "atproto") eq_refl) | reflexivity].
Defined.

(** X26 on a [login_required] error with a [redirect_uri], and on an
    error of another kind. *)
Lemma accessDeniedToRedirectCatcher_redirects_witness :
  let this := Sample.provider (Fin 3600) in
  let r := Sample.start (Sample.world_of 0 [] None) in
  (exists redirected r' description,
      accessDeniedToRedirectCatcher this
        (new_parameters_error LoginRequiredError
           (Sample.parameters_of None None) None) r
      = (Return redirected, r') /\
      redirect redirected = RedirectError "login_required" description) /\
  accessDeniedToRedirectCatcher this Sample.store_error r
  = (Throw Sample.store_error, r).
Proof.
  intros this r. split.
  - edestruct (proj1
                 (accessDeniedToRedirectCatcher_redirects this
                    (new_parameters_error LoginRequiredError
                       (Sample.parameters_of None None) None) r))
      as [cls [error [description [parameters [cause H]]]]]; [evaluate |].
    destruct H as [Herr [_ [_ Hresult]]].
    injection Herr as _ Herror _ _ _. subst error.
    eexists. eexists. exists description.
    split; [evaluate | exact (f_equal redirect Hresult)].
  - apply (proj2 (accessDeniedToRedirectCatcher_redirects this
                    Sample.store_error r)).
    reflexivity.
Defined.

(** X27 on a silent request from a device without session. *)
Lemma authorize_or_redirect_login_required_witness :
  let this := Sample.provider (Fin 3600) in
  exists redirected r',
    authorize_or_redirect this (Sample.credentials_of Sample.web_client None)
      (QueryUri SampleMore.request_uri_1) Sample.device Sample.deviceMetadata
      (Sample.start
         (Sample.world_of 0 []
            (Some (Sample.request_of
                     (Sample.parameters_of None (Some prompt_none))))))
    = (Return (ResultRedirect redirected), r') /\
    redirect redirected = RedirectError "login_required" None /\
    Sample.pending (world r') = None.
Proof.
  intros this. eexists. eexists. split.
  - eapply authorize_or_redirect_login_required; evaluate.
  - split; reflexivity.
Defined.

(** X28 on a DID without repository. *)
Lemma getCarStream_fails_closed_witness :
  exists e t' t2 actorDb w3,
    GetRepo.getCarStream GetRepo.Store.context "did:plc:bob" None
      (GetRepo.Store.start ["did:plc:alice"]) = (GetRepo.Fail e, t') /\
    t' = GetRepo.log t2 (GetRepo.ev_close actorDb) w3 /\
    GetRepo.Store.open_dbs (GetRepo.state t') = [].
Proof.
  edestruct (getCarStream_fails_closed GetRepo.Store.context "did:plc:bob"
               None (GetRepo.Store.start ["did:plc:alice"]))
    as [Hforward _].
  edestruct Hforward
    as [[w1 [Hopen _]]
       | [actorDb [err [o [w1 [w2 [w3 [_ [_ [_ [Ht' _]]]]]]]]]]];
    [evaluate | discriminate Hopen |].
  eexists. eexists. eexists. exists actorDb, w3.
  split; [evaluate |]. split; [exact Ht' | reflexivity].
Defined.

(** X29 on a DID with a repository. *)
Lemma getCarStream_returns_witness :
  exists carStream t' raw actorDb,
    GetRepo.getCarStream GetRepo.Store.context "did:plc:alice" None
      (GetRepo.Store.start ["did:plc:alice"]) = (GetRepo.Ok carStream, t') /\
    GetRepo.on_close carStream
    = (GetRepo.on_close raw ++ [GetRepo.closeDb actorDb])%list /\
    GetRepo.Store.open_dbs (GetRepo.state t') = ["did:plc:alice"].
Proof.
  edestruct (getCarStream_returns GetRepo.Store.context "did:plc:alice"
               None (GetRepo.Store.start ["did:plc:alice"]))
    as [actorDb [raw [w1 [_ [_ [_ [_ [_ Hclose]]]]]]]]; [evaluate |].
  eexists. eexists. exists raw, actorDb.
  split; [evaluate |]. split; [exact Hclose | reflexivity].
Defined.

(** X30 on a repository that was taken down, asked for by a stranger, and
    on an available one. *)
Lemma getRepo_handler_checks_availability_witness :
  let params := {| GetRepo.did := "did:plc:alice"; GetRepo.since := None |} in
  let taken : GetRepo.Trace GetRepo.Store.World string :=
    {| GetRepo.state :=
         {| GetRepo.Store.repos := ["did:plc:alice"];
            GetRepo.Store.taken_down := ["did:plc:alice"];
            GetRepo.Store.open_dbs := [];
            GetRepo.Store.reader_down := false |};
       GetRepo.events := [] |} in
  (exists e t',
      GetRepo.handler GetRepo.Store.context params false taken
      = (GetRepo.Fail e, t') /\
      GetRepo.events t'
      = [GetRepo.ev_assertRepoAvailability "did:plc:alice" false]) /\
  (exists output t',
      GetRepo.handler GetRepo.Store.context params true taken
      = (GetRepo.Ok output, t') /\
      GetRepo.encoding output = "application/vnd.ipld.car").
Proof.
  intros params taken. split.
  - eexists. eexists. split.
    + eapply (proj1 (getRepo_handler_checks_availability
                       GetRepo.Store.context params false taken)).
      evaluate.
    + reflexivity.
  - edestruct (proj2 (getRepo_handler_checks_availability
                        GetRepo.Store.context params true taken))
      as [Hencoding _]; [evaluate |].
    eexists. eexists. split; [evaluate | exact Hencoding].
Defined.
